(** * Synthetic flare-gas generator: a shallow embedding of [generation.py]

    The development follows [generate_flare_data] line by line.

    - Python floats are modelled by exact rationals ([Q]), kept in
      lowest terms: every arithmetic step of the source is kept, only the
      binary rounding of each float operation is idealised away.
    - [round(x, 2)] is reached with numpy scalars and with plain floats,
      which round differently on values halfway between two hundredths:
      the two roundings are parameters of the model ([Rounding]), fixed
      only by what both guarantee.
    - [datetime] / [pandas.Timestamp] values are instants on the
      proleptic Gregorian time line, counted in hours, with CPython's own
      conversion functions ([_ymd2ord], [_ord2ymd]).
    - The two ambient random sources (the [random] module and
      [numpy.random]) are explicit states threaded through the code; the
      values they hand out are left abstract ([Entropy]).
    - Exceptions ([ValueError], [OverflowError], [KeyError]) are results
      of a small state-and-error monad. *)

From Stdlib Require Import ZArith QArith Qround Qabs List String DecimalString.
From Stdlib Require Import Bool Lia Lqa.
Import ListNotations.

Local Open Scope Z_scope.

(* ------------------------------------------------------------------ *)
(** ** Exceptions *)

Inductive exn : Type :=
| ValueError (msg : string)
| OverflowError (msg : string)
| KeyError (key : string).

Inductive result (A : Type) : Type :=
| Ok (a : A)
| Raise (e : exn).

Arguments Ok {A} a.
Arguments Raise {A} e.

(* ------------------------------------------------------------------ *)
(** ** Rational helpers standing for float comparisons and builtins *)

(** Float addition and multiplication: the exact rational result, kept
    in lowest terms (a float has a single representation). *)
Definition fadd (x y : Q) : Q := Qred (x + y).
Definition fmul (x y : Q) : Q := Qred (x * y).

(** [x < y] as a boolean. *)
Definition Qltb (x y : Q) : bool := negb (Qle_bool y x).

(** Python's [max(0, x)]: the second argument wins only when it is
    strictly greater. *)
Definition max0 (x : Q) : Q := if Qltb 0 x then x else 0%Q.

(** [np.clip(x, lo, hi)] = [minimum(maximum(x, lo), hi)]. *)
Definition np_clip (x lo hi : Q) : Q :=
  let m := if Qltb x lo then lo else x in
  if Qltb hi m then hi else m.

(** Round half to even, to an integer. *)
Definition round_half_even (x : Q) : Z :=
  let f := Qfloor x in
  match Qcompare (x - inject_Z f) (1 # 2) with
  | Lt => f
  | Gt => f + 1
  | Eq => if Z.even f then f else f + 1
  end.

(** The hundredth nearest to [x], a value halfway going to the even
    one. *)
Definition round2 (x : Q) : Q :=
  Qred (inject_Z (round_half_even (x * 100)) / 100).

(** [round(x, 2)] has two implementations in this program:
    [np.float64.__round__] (numpy: multiply by 100, [rint], divide by
    100) for numpy scalars, and [float.__round__] (CPython: the decimal
    nearest to the binary value) for plain floats and ints.  Both return
    a hundredth next to [x]; on a value halfway between two hundredths,
    or one binary digit away from it, they may choose different
    neighbours, depending on the binary representation of [x], which
    rationals do not carry.  The two functions are therefore parameters,
    with what both guarantee: the result is a hundredth, at most 0.005
    away from [x], and 0 is kept. *)
Record Rounding : Type := {
  np_round2 : Q -> Q;
  py_round2 : Q -> Q;
  np_round2_near :
    forall x, (np_round2 x - (1 # 200) <= x /\ x <= np_round2 x + (1 # 200))%Q;
  py_round2_near :
    forall x, (py_round2 x - (1 # 200) <= x /\ x <= py_round2 x + (1 # 200))%Q;
  np_round2_grid :
    forall x, exists n : Z, (np_round2 x == inject_Z n * (1 # 100))%Q;
  py_round2_grid :
    forall x, exists n : Z, (py_round2 x == inject_Z n * (1 # 100))%Q;
  np_round2_zero : np_round2 0 = 0%Q;
  py_round2_zero : py_round2 0 = 0%Q
}.

(** [round(x, 2)], dispatched on the type of [x]. *)
Definition py_round (R : Rounding) (np_float64 : bool) (x : Q) : Q :=
  if np_float64 then np_round2 R x else py_round2 R x.

Arguments py_round : simpl never.

(** [str(n)] of an int. *)
Definition str_of_int (n : Z) : string := NilZero.string_of_int (Z.to_int n).

(** [sum(xs)]: left to right, starting from 0. *)
Definition py_sum (xs : list Q) : Q := fold_left fadd xs 0%Q.

(** [range(n)]. *)
Definition py_range (n : Z) : list Z := map Z.of_nat (seq 0 (Z.to_nat n)).

(** [max(items, key=...)]: the running best is replaced only by a
    strictly greater key, so the first maximal item is returned. *)
Fixpoint max_from {A : Type} (key : A -> Q) (best : A) (rest : list A) : A :=
  match rest with
  | [] => best
  | x :: rest' => max_from key (if Qltb (key best) (key x) then x else best) rest'
  end.

Definition py_max {A : Type} (key : A -> Q) (items : list A) : result A :=
  match items with
  | [] => Raise (ValueError "max() arg is an empty sequence")
  | x :: rest => Ok (max_from key x rest)
  end.

(* ------------------------------------------------------------------ *)
(** ** Calendar arithmetic (CPython [datetime.py]) *)

Module PyDatetime.

Definition MINYEAR : Z := 1.
Definition MAXYEAR : Z := 9999.

Definition is_leap (year : Z) : bool :=
  (year mod 4 =? 0) && (negb (year mod 100 =? 0) || (year mod 400 =? 0)).

Definition days_before_year (year : Z) : Z :=
  let y := year - 1 in
  y * 365 + y / 4 - y / 100 + y / 400.

(** [_DAYS_IN_MONTH], indexed from 1. *)
Definition DAYS_IN_MONTH (month : Z) : Z :=
  match month with
  | 1 => 31 | 2 => 28 | 3 => 31 | 4 => 30 | 5 => 31 | 6 => 30
  | 7 => 31 | 8 => 31 | 9 => 30 | 10 => 31 | 11 => 30 | 12 => 31
  | _ => 0
  end.

(** [_DAYS_BEFORE_MONTH], indexed from 1. *)
Definition DAYS_BEFORE_MONTH (month : Z) : Z :=
  match month with
  | 1 => 0 | 2 => 31 | 3 => 59 | 4 => 90 | 5 => 120 | 6 => 151
  | 7 => 181 | 8 => 212 | 9 => 243 | 10 => 273 | 11 => 304 | 12 => 334
  | _ => 0
  end.

Definition days_in_month (year month : Z) : Z :=
  if (month =? 2) && is_leap year then 29 else DAYS_IN_MONTH month.

Definition days_before_month (year month : Z) : Z :=
  DAYS_BEFORE_MONTH month + (if (2 <? month) && is_leap year then 1 else 0).

Definition ymd2ord (year month day : Z) : Z :=
  days_before_year year + days_before_month year month + day.

Definition DI400Y : Z := 146097.
Definition DI100Y : Z := 36524.
Definition DI4Y : Z := 1461.

(** [_ord2ymd]: ordinal to (year, month, day). *)
Definition ord2ymd (ordinal : Z) : Z * Z * Z :=
  let n := ordinal - 1 in
  let n400 := n / DI400Y in
  let n := n mod DI400Y in
  let year := n400 * 400 + 1 in
  let n100 := n / DI100Y in
  let n := n mod DI100Y in
  let n4 := n / DI4Y in
  let n := n mod DI4Y in
  let n1 := n / 365 in
  let n := n mod 365 in
  let year := year + n100 * 100 + n4 * 4 + n1 in
  if (n1 =? 4) || (n100 =? 4) then (year - 1, 12, 31)
  else
    let leapyear := (n1 =? 3) && (negb (n4 =? 24) || (n100 =? 3)) in
    let month := Z.shiftr (n + 50) 5 in
    let preceding :=
      DAYS_BEFORE_MONTH month + (if (2 <? month) && leapyear then 1 else 0) in
    if n <? preceding then
      let month' := month - 1 in
      let preceding' :=
        preceding
        - (DAYS_IN_MONTH month' + (if (month' =? 2) && leapyear then 1 else 0)) in
      (year, month', n - preceding' + 1)
    else (year, month, n - preceding + 1).

(** An hour-resolution instant: hours elapsed since ordinal day 0,
    00:00.  Minutes and seconds are always zero in this program. *)
Definition datetime : Type := Z.

(** An int argument read as a C [int] (the C implementation of
    [datetime] parses its arguments before it checks them). *)
Definition c_int (n : Z) : result Z :=
  if (n <? - 2 ^ 63) || (2 ^ 63 - 1 <? n) then
    Raise (OverflowError "Python int too large to convert to C long")
  else if 2 ^ 31 - 1 <? n then
    Raise (OverflowError "signed integer is greater than maximum")
  else if n <? - 2 ^ 31 then
    Raise (OverflowError "signed integer is less than minimum")
  else Ok n.

(** The range checks of [datetime(year, month, day, hour)]. *)
Definition check_fields (year month day hour : Z) : result datetime :=
  if negb ((MINYEAR <=? year) && (year <=? MAXYEAR)) then
    Raise (ValueError ("year " ++ str_of_int year ++ " is out of range")%string)
  else if negb ((1 <=? month) && (month <=? 12)) then
    Raise (ValueError "month must be in 1..12")
  else if negb ((1 <=? day) && (day <=? days_in_month year month)) then
    Raise (ValueError "day is out of range for month")
  else if negb ((0 <=? hour) && (hour <=? 23)) then
    Raise (ValueError "hour must be in 0..23")
  else Ok (24 * ymd2ord year month day + hour).

(** [datetime(year, month, day, hour)]: the four arguments are parsed
    in order, then checked. *)
Definition datetime_new (year month day hour : Z) : result datetime :=
  match c_int year with
  | Raise e => Raise e
  | Ok _ =>
  match c_int month with
  | Raise e => Raise e
  | Ok _ =>
  match c_int day with
  | Raise e => Raise e
  | Ok _ =>
  match c_int hour with
  | Raise e => Raise e
  | Ok _ => check_fields year month day hour
  end end end end.

(** [dt + timedelta(hours=h)]. *)
Definition add_hours (dt : datetime) (h : Z) : datetime := dt + h.

Definition toordinal (dt : datetime) : Z := dt / 24.
Definition dt_hour (dt : datetime) : Z := dt mod 24.
Definition dt_month (dt : datetime) : Z := snd (fst (ord2ymd (toordinal dt))).
Definition dt_year (dt : datetime) : Z := fst (fst (ord2ymd (toordinal dt))).
Definition dt_day (dt : datetime) : Z := snd (ord2ymd (toordinal dt)).

(** [weekday()]: Monday is 0. *)
Definition weekday (dt : datetime) : Z := (toordinal dt + 6) mod 7.

(** [strftime('%A')]. *)
Definition strftime_A (dt : datetime) : string :=
  match weekday dt with
  | 0 => "Monday" | 1 => "Tuesday" | 2 => "Wednesday" | 3 => "Thursday"
  | 4 => "Friday" | 5 => "Saturday" | _ => "Sunday"
  end.

(** [strftime('%B')]. *)
Definition strftime_B (dt : datetime) : string :=
  match dt_month dt with
  | 1 => "January" | 2 => "February" | 3 => "March" | 4 => "April"
  | 5 => "May" | 6 => "June" | 7 => "July" | 8 => "August"
  | 9 => "September" | 10 => "October" | 11 => "November" | _ => "December"
  end.

(** [pd.date_range(start, end, freq='h')]: every [start + k] hours that
    does not pass [end]. *)
Definition date_range (start_date end_date : datetime) : list datetime :=
  map (fun k => add_hours start_date k) (py_range (end_date - start_date + 1)).

(** [dt in events] on a list: equality of instants. *)
Definition dt_in (dt : datetime) (events : list datetime) : bool :=
  existsb (Z.eqb dt) events.

End PyDatetime.
Import PyDatetime.

(* ------------------------------------------------------------------ *)
(** ** Causes and their configuration ([FLARE_CAUSES]) *)

Inductive Cause : Type :=
| normal_operations
| process_upset
| equipment_maintenance
| startup_shutdown
| emergency_relief
| compressor_trip
| instrument_failure.

Definition Cause_eqb (a b : Cause) : bool :=
  match a, b with
  | normal_operations, normal_operations
  | process_upset, process_upset
  | equipment_maintenance, equipment_maintenance
  | startup_shutdown, startup_shutdown
  | emergency_relief, emergency_relief
  | compressor_trip, compressor_trip
  | instrument_failure, instrument_failure => true
  | _, _ => false
  end.

Definition cause_name (c : Cause) : string :=
  match c with
  | normal_operations => "normal_operations"
  | process_upset => "process_upset"
  | equipment_maintenance => "equipment_maintenance"
  | startup_shutdown => "startup_shutdown"
  | emergency_relief => "emergency_relief"
  | compressor_trip => "compressor_trip"
  | instrument_failure => "instrument_failure"
  end.

(** The entry of [normal_operations]: [{'baseline': _, 'std': _}]. *)
Record NormalCfg : Type := { baseline : Q; normal_std : Q }.

(** The entry of every other cause:
    [{'avg_rate': _, 'std': _, 'probability': _}]. *)
Record EventCfg : Type := { avg_rate : Q; std : Q; probability : Q }.

Record Config : Type := {
  cfg_normal_operations : NormalCfg;
  cfg_process_upset : EventCfg;
  cfg_equipment_maintenance : EventCfg;
  cfg_startup_shutdown : EventCfg;
  cfg_emergency_relief : EventCfg;
  cfg_compressor_trip : EventCfg;
  cfg_instrument_failure : EventCfg
}.

(** [cfg[cause]] read as an event entry; the entry of
    [normal_operations] has none of the event keys. *)
Definition cfg_event (cfg : Config) (c : Cause) : result EventCfg :=
  match c with
  | normal_operations => Raise (KeyError "probability")
  | process_upset => Ok (cfg_process_upset cfg)
  | equipment_maintenance => Ok (cfg_equipment_maintenance cfg)
  | startup_shutdown => Ok (cfg_startup_shutdown cfg)
  | emergency_relief => Ok (cfg_emergency_relief cfg)
  | compressor_trip => Ok (cfg_compressor_trip cfg)
  | instrument_failure => Ok (cfg_instrument_failure cfg)
  end.

Definition FLARE_CAUSES : Config := {|
  cfg_normal_operations := {| baseline := 100; normal_std := 8 |};
  cfg_process_upset :=
    {| avg_rate := 50; std := 15; probability := 15 # 100 |};
  cfg_equipment_maintenance :=
    {| avg_rate := 40; std := 12; probability := 10 # 100 |};
  cfg_startup_shutdown :=
    {| avg_rate := 200; std := 50; probability := 0 |};
  cfg_emergency_relief :=
    {| avg_rate := 80; std := 25; probability := 3 # 100 |};
  cfg_compressor_trip :=
    {| avg_rate := 120; std := 30; probability := 2 # 100 |};
  cfg_instrument_failure :=
    {| avg_rate := 60; std := 20; probability := 2 # 100 |}
|}.

(* ------------------------------------------------------------------ *)
(** ** The per-hour [contributions] dict

    A dict literal with seven keys; later assignments only overwrite
    existing keys, so insertion order is the order of the literal. *)

Definition Contributions : Type := list (Cause * Q).

(** [d[k] = v] for a key already present: the position is kept. *)
Fixpoint dict_set (d : Contributions) (k : Cause) (v : Q) : Contributions :=
  match d with
  | [] => [(k, v)]
  | (k', v') :: d' =>
      if Cause_eqb k k' then (k, v) :: d' else (k', v') :: dict_set d' k v
  end.

(** [d[k]].  A missing key would be a [KeyError]; the dicts of the pass
    always hold the seven keys ([ok_keys] below), so the default is never
    reached. *)
Fixpoint dict_get (d : Contributions) (k : Cause) : Q :=
  match d with
  | [] => 0%Q
  | (k', v') :: d' => if Cause_eqb k k' then v' else dict_get d' k
  end.

Definition dict_values (d : Contributions) : list Q := map snd d.
Definition dict_keys (d : Contributions) : list Cause := map fst d.

(** The declaration order of the dict literal. *)
Definition CAUSES : list Cause :=
  [normal_operations; process_upset; equipment_maintenance; startup_shutdown;
   emergency_relief; compressor_trip; instrument_failure].

Definition initial_contributions : Contributions :=
  [(normal_operations, 0%Q); (process_upset, 0%Q);
   (equipment_maintenance, 0%Q); (startup_shutdown, 0%Q);
   (emergency_relief, 0%Q); (compressor_trip, 0%Q);
   (instrument_failure, 0%Q)].

(** The causes injected probabilistically, in loop order. *)
Definition PROBABILISTIC : list Cause :=
  [process_upset; equipment_maintenance; emergency_relief;
   compressor_trip; instrument_failure].

(* ------------------------------------------------------------------ *)
(** ** Output rows *)

Inductive Severity : Type := low | medium | high.

Record Row : Type := {
  timestamp : datetime;
  total_flare_rate_m3_per_hour : Q;
  normal_operations_m3_per_hour : Q;
  process_upset_m3_per_hour : Q;
  equipment_maintenance_m3_per_hour : Q;
  startup_shutdown_m3_per_hour : Q;
  emergency_relief_m3_per_hour : Q;
  compressor_trip_m3_per_hour : Q;
  instrument_failure_m3_per_hour : Q;
  dominant_cause : Cause;
  severity : Severity;
  day_of_week : string;
  month : string;
  hour : Z
}.

(** The exported column of a cause. *)
Definition column (r : Row) (c : Cause) : Q :=
  match c with
  | normal_operations => normal_operations_m3_per_hour r
  | process_upset => process_upset_m3_per_hour r
  | equipment_maintenance => equipment_maintenance_m3_per_hour r
  | startup_shutdown => startup_shutdown_m3_per_hour r
  | emergency_relief => emergency_relief_m3_per_hour r
  | compressor_trip => compressor_trip_m3_per_hour r
  | instrument_failure => instrument_failure_m3_per_hour r
  end.

(** Lines 105-109. *)
Definition classify (total_flare_rate : Q) : Severity :=
  if Qltb 350 total_flare_rate then high
  else if Qltb 200 total_flare_rate then medium
  else low.

(** The type of the values of the hour.  [baseline_rate] is an
    [np.float64] once [np.clip] returned it, so [normal_operations] is
    one exactly when [max(0, ...)] kept it, that is when it is positive
    (otherwise it is the int 0, or the float 0.0 once scaled); [sum]
    adds it first, so the total is an [np.float64] in the same case.
    Every other contribution is a plain float or the int 0. *)
Definition np_typed (contributions : Contributions) : bool :=
  Qltb 0 (dict_get contributions normal_operations).

(** Lines 101-129: everything derived from the hour's contributions. *)
Definition make_row (R : Rounding) (dt : datetime) (contributions : Contributions)
  : result Row :=
  let total_flare_rate := py_sum (dict_values contributions) in
  let severity := classify total_flare_rate in
  let np_float64 := np_typed contributions in
  match py_max snd contributions with
  | Raise e => Raise e
  | Ok dominant =>
      Ok {| timestamp := dt;
            total_flare_rate_m3_per_hour := py_round R np_float64 total_flare_rate;
            normal_operations_m3_per_hour :=
              py_round R np_float64 (dict_get contributions normal_operations);
            process_upset_m3_per_hour :=
              py_round R false (dict_get contributions process_upset);
            equipment_maintenance_m3_per_hour :=
              py_round R false (dict_get contributions equipment_maintenance);
            startup_shutdown_m3_per_hour :=
              py_round R false (dict_get contributions startup_shutdown);
            emergency_relief_m3_per_hour :=
              py_round R false (dict_get contributions emergency_relief);
            compressor_trip_m3_per_hour :=
              py_round R false (dict_get contributions compressor_trip);
            instrument_failure_m3_per_hour :=
              py_round R false (dict_get contributions instrument_failure);
            dominant_cause := fst dominant;
            severity := severity;
            day_of_week := strftime_A dt;
            month := strftime_B dt;
            hour := dt_hour dt |}
  end.

(* ------------------------------------------------------------------ *)
(** ** The random sources

    [random] (Mersenne Twister behind [random.randint] and
    [random.random]) and [numpy.random] (behind [np.random.normal]) are
    two separate process-wide states.  Their algorithms are outside the
    repository: only the interface is fixed here. *)

Record Entropy : Type := {
  PyRng : Type;
  NpRng : Type;
  py_seed : Z -> PyRng;
  np_seed : Z -> NpRng;
  randint : Z -> Z -> PyRng -> Z * PyRng;
  random : PyRng -> Q * PyRng;
  standard_normal : NpRng -> Q * NpRng
}.

(** What the library documentation promises of the draws. *)
Definition randint_in_range (E : Entropy) : Prop :=
  forall a b s, a <= b -> a <= fst (randint E a b s) <= b.

Definition random_in_unit (E : Entropy) : Prop :=
  forall s, (0 <= fst (random E s) /\ fst (random E s) < 1)%Q.

(* ------------------------------------------------------------------ *)
(** ** The generator *)

Section Generator.

Variable R : Rounding.
Variable E : Entropy.

(** The process-wide state the generator reads and advances. *)
Record World : Type := { py_state : PyRng E; np_state : NpRng E }.

(** State-and-exception monad over [World]. *)
Definition M (A : Type) : Type := World -> result (A * World).

Definition ret {A : Type} (a : A) : M A := fun w => Ok (a, w).

Definition bind {A B : Type} (m : M A) (k : A -> M B) : M B :=
  fun w =>
    match m w with
    | Ok (a, w') => k a w'
    | Raise e => Raise e
    end.

Definition lift {A : Type} (r : result A) : M A :=
  fun w =>
    match r with
    | Ok a => Ok (a, w)
    | Raise e => Raise e
    end.

Notation "x <- m ;; k" := (bind m (fun x => k))
  (at level 61, m at next level, right associativity).

(** [random.randint(a, b)]. *)
Definition random_randint (a b : Z) : M Z :=
  fun w =>
    if b <? a then
      Raise (ValueError ("empty range for randrange() (" ++ str_of_int a ++ ", "
                         ++ str_of_int (b + 1) ++ ", " ++ str_of_int (b + 1 - a)
                         ++ ")")%string)
    else
      let (v, s) := randint E a b (py_state w) in
      Ok (v, {| py_state := s; np_state := np_state w |}).

(** [random.random()]. *)
Definition random_random : M Q :=
  fun w =>
    let (u, s) := random E (py_state w) in
    Ok (u, {| py_state := s; np_state := np_state w |}).

(** [np.random.normal(loc, scale)]: a negative scale is refused, else
    the standard draw is scaled and shifted. *)
Definition np_random_normal (loc scale : Q) : M Q :=
  fun w =>
    if Qltb scale 0 then Raise (ValueError "scale < 0")
    else
      let (z, s) := standard_normal E (np_state w) in
      Ok (fadd loc (fmul scale z), {| py_state := py_state w; np_state := s |}).

(** Lines 39-43: the windows are appended to [shutdown_events] anchor
    after anchor. *)
Fixpoint schedule_shutdowns (shutdown_dates shutdown_events : list datetime)
  : M (list datetime) :=
  match shutdown_dates with
  | [] => ret shutdown_events
  | shutdown_date :: rest =>
      duration_hours <- random_randint 24 72 ;;
      offset <- random_randint 0 23 ;;
      let shutdown_start := add_hours shutdown_date offset in
      schedule_shutdowns rest
        (shutdown_events ++ map (add_hours shutdown_start) (py_range duration_hours))
  end.

(** Lines 31-37. *)
Definition shutdown_dates (year : Z) : M (list datetime) :=
  d1 <- lift (datetime_new year 2 15 0) ;;
  d2 <- lift (datetime_new year 4 20 0) ;;
  d3 <- lift (datetime_new year 7 10 0) ;;
  d4 <- lift (datetime_new year 10 5 0) ;;
  ret [d1; d2; d3; d4].

(** Lines 94-99: one probabilistic cause. *)
Definition inject_cause (cfg : Config) (contributions : Contributions)
  (cause : Cause) : M Contributions :=
  u <- random_random ;;
  e <- lift (cfg_event cfg cause) ;;
  if Qltb u (probability e) then
    rate <- np_random_normal (avg_rate e) (std e) ;;
    ret (dict_set contributions cause (max0 rate))
  else ret contributions.

(** Lines 92-99: the loop over the probabilistic causes. *)
Fixpoint inject_causes (cfg : Config) (causes : list Cause)
  (contributions : Contributions) : M Contributions :=
  match causes with
  | [] => ret contributions
  | cause :: rest =>
      contributions' <- inject_cause cfg contributions cause ;;
      inject_causes cfg rest contributions'
  end.

(** [d[k] *= f]. *)
Definition dict_scale (d : Contributions) (k : Cause) (f : Q) : Contributions :=
  dict_set d k (fmul (dict_get d k) f).

(** Lines 52-99: the body of the hourly loop up to the contributions.
    Returns the updated [baseline_rate], [is_shutdown] and the dict. *)
Definition hour_contributions (cfg : Config) (shutdown_events : list datetime)
  (baseline_rate : Q) (dt : datetime) : M (Q * bool * Contributions) :=
  let is_shutdown := dt_in dt shutdown_events in
  let contributions := initial_contributions in
  step <- np_random_normal 0 (1 # 2) ;;
  let baseline_rate := fadd baseline_rate step in
  let baseline_rate := np_clip baseline_rate 80 120 in
  noise <- np_random_normal 0 (normal_std (cfg_normal_operations cfg)) ;;
  let contributions :=
    dict_set contributions normal_operations (max0 (fadd baseline_rate noise)) in
  let hour := dt_hour dt in
  let contributions :=
    if (0 <=? hour) && (hour <? 6) then
      dict_scale contributions normal_operations (95 # 100)
    else if (8 <=? hour) && (hour <? 16) then
      dict_scale contributions normal_operations (102 # 100)
    else contributions in
  let month := dt_month dt in
  let contributions :=
    if (6 <=? month) && (month <=? 8) then
      dict_scale contributions normal_operations (105 # 100)
    else contributions in
  contributions <-
    (if is_shutdown then
       shutdown_rate <-
         np_random_normal (avg_rate (cfg_startup_shutdown cfg))
                          (std (cfg_startup_shutdown cfg)) ;;
       ret (dict_set contributions startup_shutdown (max0 shutdown_rate))
     else ret contributions) ;;
  contributions <-
    (if negb is_shutdown then inject_causes cfg PROBABILISTIC contributions
     else ret contributions) ;;
  ret (baseline_rate, is_shutdown, contributions).

(** One iteration, with the values the source keeps only in local
    variables recorded next to the appended row. *)
Record HourLog : Type := {
  log_dt : datetime;
  log_is_shutdown : bool;
  log_baseline : Q;
  log_contributions : Contributions;
  log_row : Row
}.

(** Lines 50-129. *)
Fixpoint hourly_loop (cfg : Config) (shutdown_events date_range : list datetime)
  (baseline_rate : Q) : M (list HourLog) :=
  match date_range with
  | [] => ret []
  | dt :: rest =>
      h <- hour_contributions cfg shutdown_events baseline_rate dt ;;
      row <- lift (make_row R dt (snd h)) ;;
      logs <- hourly_loop cfg shutdown_events rest (fst (fst h)) ;;
      ret ({| log_dt := dt;
              log_is_shutdown := snd (fst h);
              log_baseline := fst (fst h);
              log_contributions := snd h;
              log_row := row |} :: logs)
  end.

(** Lines 26-129, keeping [shutdown_events] and the per-hour locals
    visible. *)
Definition generate_trace (cfg : Config) (year : Z)
  : M (list datetime * list HourLog) :=
  start_date <- lift (datetime_new year 1 1 0) ;;
  end_date <- lift (datetime_new year 12 31 23) ;;
  let date_range := date_range start_date end_date in
  dates <- shutdown_dates year ;;
  shutdown_events <- schedule_shutdowns dates [] ;;
  let baseline_rate := 100%Q in
  logs <- hourly_loop cfg shutdown_events date_range baseline_rate ;;
  ret (shutdown_events, logs).

(** [generate_flare_data], over an arbitrary cause table. *)
Definition generate_flare_data_with (cfg : Config) (year : Z) : M (list Row) :=
  t <- generate_trace cfg year ;;
  ret (map log_row (snd t)).

(** [generate_flare_data(year)]: the table of rows. *)
Definition generate_flare_data (year : Z) : M (list Row) :=
  generate_flare_data_with FLARE_CAUSES year.

(** Lines 7-8, run when the module is loaded: both sources are
    re-seeded with 42, whatever state the process had. *)
Definition seed_sources (w : World) : World :=
  let w1 := {| py_state := py_state w; np_state := np_seed E 42 |} in
  {| py_state := py_seed E 42; np_state := np_state w1 |}.

(** A generation run: load the module, then call
    [generate_flare_data(year)] (line 195 with [year = 2024]). *)
Definition generation_run (year : Z) (w : World) : result (list Row) :=
  match generate_flare_data year (seed_sources w) with
  | Ok (table, _) => Ok table
  | Raise e => Raise e
  end.

End Generator.

Arguments ret {E A} a.
Arguments bind {E A B} m k.
Arguments lift {E A} r.
Arguments py_state {E} w.
Arguments np_state {E} w.

(* ------------------------------------------------------------------ *)
(** ** A scripted entropy source, for concrete runs

    The [random] state is a pair of scripts (integers for [randint],
    fractions for [random]); the [numpy] state is a script of standard
    normal draws.  An exhausted script keeps answering with the lower
    bound, [1/2] and [0] respectively. *)

Definition Scripted : Entropy := {|
  PyRng := list Z * list Q;
  NpRng := list Q;
  py_seed := fun _ => ([], []);
  np_seed := fun _ => [];
  randint := fun a b s =>
    match fst s with
    | [] => (a, s)
    | v :: rest => (Z.max a (Z.min b v), (rest, snd s))
    end;
  random := fun s =>
    match snd s with
    | [] => (1 # 2, s)
    | u :: rest => (u, (fst s, rest))
    end;
  standard_normal := fun s =>
    match s with
    | [] => (0%Q, [])
    | z :: rest => (z, rest)
    end
|}.

Definition scripted_world (ints : list Z) (fracs zs : list Q) : World Scripted :=
  {| py_state := (ints, fracs) : PyRng Scripted; np_state := zs : NpRng Scripted |}.

(* ------------------------------------------------------------------ *)
(** ** Vocabulary of the statements *)

Local Open Scope Q_scope.

(** The state of the dict after lines 55-80: only [normal_operations]
    may differ from 0. *)
Definition only_normal (d : Contributions) : Prop :=
  dict_keys d = CAUSES /\
  forall k, k <> normal_operations -> dict_get d k = 0.

(** Steps 3-4 of the algorithm as the specification words them: the
    diurnal factor, then the seasonal factor. *)
Definition modulation (dt : datetime) (x : Q) : Q :=
  let h := dt_hour dt in
  let x1 :=
    if ((0 <=? h) && (h <? 6))%Z then fmul x (95 # 100)
    else if ((8 <=? h) && (h <? 16))%Z then fmul x (102 # 100)
    else x in
  let m := dt_month dt in
  if ((6 <=? m) && (m <=? 8))%Z then fmul x1 (105 # 100) else x1.

(** Every standard deviation handed to the Gaussian source is
    acceptable to it. *)
Definition stds_nonneg (cfg : Config) : Prop :=
  0 <= normal_std (cfg_normal_operations cfg) /\
  0 <= std (cfg_startup_shutdown cfg) /\
  forall c e, In c PROBABILISTIC -> cfg_event cfg c = Ok e -> 0 <= std e.

(** What one iteration establishes, given the baseline [b] it starts
    from. *)
Record hour_ok (R : Rounding) (cfg : Config) (shutdown_events : list datetime)
  (b : Q) (h : HourLog) : Prop := {
  ok_shutdown : log_is_shutdown h = dt_in (log_dt h) shutdown_events;
  ok_baseline :
    exists z, log_baseline h = np_clip (fadd b (fadd 0 (fmul (1 # 2) z))) 80 120;
  ok_keys : dict_keys (log_contributions h) = CAUSES;
  ok_normal :
    exists z,
      dict_get (log_contributions h) normal_operations =
      modulation (log_dt h)
        (max0 (fadd (log_baseline h)
                    (fadd 0 (fmul (normal_std (cfg_normal_operations cfg)) z))));
  ok_quiet :
    log_is_shutdown h = true ->
    forall c, In c PROBABILISTIC -> dict_get (log_contributions h) c = 0;
  ok_unscheduled :
    log_is_shutdown h = false ->
    dict_get (log_contributions h) startup_shutdown = 0;
  ok_row : make_row R (log_dt h) (log_contributions h) = Ok (log_row h)
}.

Arguments ok_shutdown {R} cfg shutdown_events b h _.
Arguments ok_baseline {R} cfg shutdown_events b h _.
Arguments ok_keys {R} cfg shutdown_events b h _.
Arguments ok_normal {R} cfg shutdown_events b h _.
Arguments ok_quiet {R} cfg shutdown_events b h _ _ c _.
Arguments ok_unscheduled {R} cfg shutdown_events b h _ _.
Arguments ok_row {R} cfg shutdown_events b h _.

Inductive trace_ok (R : Rounding) (cfg : Config) (shutdown_events : list datetime)
  : Q -> list HourLog -> Prop :=
| trace_nil b : trace_ok R cfg shutdown_events b []
| trace_cons b h logs :
    hour_ok R cfg shutdown_events b h ->
    trace_ok R cfg shutdown_events (log_baseline h) logs ->
    trace_ok R cfg shutdown_events b (h :: logs).

(** [r] is a rounding of [x] to two decimals: a hundredth at most
    0.005 away from [x]. *)
Definition rounded (x r : Q) : Prop :=
  (r - (1 # 200) <= x /\ x <= r + (1 # 200)) /\
  exists n : Z, r == inject_Z n * (1 # 100).

(** Whether the exported column of a cause rounds an [np.float64]. *)
Definition column_np (contributions : Contributions) (c : Cause) : bool :=
  match c with
  | normal_operations => np_typed contributions
  | _ => false
  end.

Local Open Scope Z_scope.

Definition valid_year (year : Z) : Prop := MINYEAR <= year <= MAXYEAR.

(** Number of hourly records of a year. *)
Definition hours_in_year (year : Z) : Z :=
  if is_leap year then 8784 else 8760.

(** An expanded shutdown window: [n] consecutive hours from [start]. *)
Definition window (start n : Z) : list datetime :=
  map (add_hours start) (py_range n).

(** The four anchors, as instants. *)
Definition anchors (year : Z) : list datetime :=
  [24 * ymd2ord year 2 15; 24 * ymd2ord year 4 20;
   24 * ymd2ord year 7 10; 24 * ymd2ord year 10 5].

(** A window [(start, duration)] as drawn for the anchor [d]. *)
Definition drawn (E : Entropy) (d : datetime) (p : Z * Z) : Prop :=
  exists off,
    fst p = add_hours d off /\
    (randint_in_range E -> 0 <= off <= 23 /\ 24 <= snd p <= 72).

(** [shutdown_events] for a list of drawn windows. *)
Definition windows (draws : list (Z * Z)) : list datetime :=
  List.concat (map (fun p => window (fst p) (snd p)) draws).

(** The baseline as a clamped random walk driven by the Gaussian
    source.  From the baseline [b] and the state [w] an hour starts
    with, the first standard draw [z1] of the hour moves the baseline to
    [clip(b + (0 + 0.5 * z1), 80, 120)], the second one [z2] gives
    [normal_operations] as the modulated [max(0, baseline + (0 + std * z2))],
    and the next hour starts from the new baseline and the state the
    hour leaves. *)
Fixpoint driven_walk (E : Entropy) (cfg : Config) (shutdown_events : list datetime)
  (b : Q) (w : World E) (logs : list HourLog) : Prop :=
  match logs with
  | [] => True
  | h :: rest =>
      let step := standard_normal E (np_state w) in
      let noise := standard_normal E (snd step) in
      log_baseline h = np_clip (fadd b (fadd 0 (fmul (1 # 2) (fst step)))) 80 120 /\
      dict_get (log_contributions h) normal_operations =
        modulation (log_dt h)
          (max0 (fadd (log_baseline h)
                      (fadd 0 (fmul (normal_std (cfg_normal_operations cfg))
                                    (fst noise))))) /\
      exists w1,
        hour_contributions E cfg shutdown_events b (log_dt h) w
        = Ok ((log_baseline h, log_is_shutdown h, log_contributions h), w1) /\
        driven_walk E cfg shutdown_events (log_baseline h) w1 rest
  end.

(** The windows [(start, duration)] as [random.randint] hands them out:
    for each anchor in turn, first the duration, then the offset of the
    start. *)
Fixpoint draw_windows (E : Entropy) (dates : list datetime) (s : PyRng E)
  : list (Z * Z) :=
  match dates with
  | [] => []
  | d :: rest =>
      let duration := randint E 24 72 s in
      let offset := randint E 0 23 (snd duration) in
      (add_hours d (fst offset), fst duration)
        :: draw_windows E rest (snd offset)
  end.

(** A list that is exactly the [n] consecutive hours from [start]. *)
Definition contiguous_run (start n : Z) (l : list datetime) : Prop :=
  Z.of_nat (List.length l) = n /\
  forall i, (i < List.length l)%nat ->
            nth_error l i = Some (add_hours start (Z.of_nat i)).

Definition disjoint (l1 l2 : list datetime) : Prop :=
  forall t, In t l1 -> ~ In t l2.

Definition first_row {S : Type} (r : result (list Row * S)) : option Row :=
  match r with
  | Ok (row :: _, _) => Some row
  | _ => None
  end.

(** [r], found at position [i] of [l], has a maximal key, and every
    item before it has a strictly smaller key. *)
Definition first_max {A : Type} (key : A -> Q) (l : list A) (i : nat) (r : A) : Prop :=
  nth_error l i = Some r /\
  (forall j y, nth_error l j = Some y -> (key y <= key r)%Q) /\
  (forall j y, (j < i)%nat -> nth_error l j = Some y -> (key y < key r)%Q).

(** Position of a cause in the declaration order. *)
Definition cause_index (c : Cause) : nat :=
  match c with
  | normal_operations => 0
  | process_upset => 1
  | equipment_maintenance => 2
  | startup_shutdown => 3
  | emergency_relief => 4
  | compressor_trip => 5
  | instrument_failure => 6
  end.

(** The sum of the seven exported cause columns. *)
Definition columns_sum (r : Row) : Q :=
  (normal_operations_m3_per_hour r + process_upset_m3_per_hour r
   + equipment_maintenance_m3_per_hour r + startup_shutdown_m3_per_hour r
   + emergency_relief_m3_per_hour r + compressor_trip_m3_per_hour r
   + instrument_failure_m3_per_hour r)%Q.

(** The exact sum of the seven contributions of a dict. *)
Definition contributions_sum (d : Contributions) : Q :=
  (dict_get d normal_operations + dict_get d process_upset
   + dict_get d equipment_maintenance + dict_get d startup_shutdown
   + dict_get d emergency_relief + dict_get d compressor_trip
   + dict_get d instrument_failure)%Q.

(** An invalid cause table, in the words of the specification: a
    negative standard deviation, or an hourly probability outside
    [0, 1]. *)
Definition invalid_config (cfg : Config) : Prop :=
  (normal_std (cfg_normal_operations cfg) < 0)%Q \/
  exists c e,
    cfg_event cfg c = Ok e /\
    ((std e < 0)%Q \/ (probability e < 0)%Q \/ (1 < probability e)%Q).

(** [FLARE_CAUSES] with the probability of [process_upset] set to 1.5. *)
Definition overdriven_config : Config := {|
  cfg_normal_operations := cfg_normal_operations FLARE_CAUSES;
  cfg_process_upset := {| avg_rate := 50; std := 15; probability := 3 # 2 |};
  cfg_equipment_maintenance := cfg_equipment_maintenance FLARE_CAUSES;
  cfg_startup_shutdown := cfg_startup_shutdown FLARE_CAUSES;
  cfg_emergency_relief := cfg_emergency_relief FLARE_CAUSES;
  cfg_compressor_trip := cfg_compressor_trip FLARE_CAUSES;
  cfg_instrument_failure := cfg_instrument_failure FLARE_CAUSES
|}.

(* ------------------------------------------------------------------ *)
(** ** Aggregates of the summary report ([generate_summary_statistics]) *)

(** [df[col].sum()] over one column of the table (lines 150 and 160). *)
Definition column_total (col : Row -> Q) (df : list Row) : Q :=
  py_sum (map col df).

(** [(df[col] > 0).sum()]: the "Events" figure of a cause (line 164). *)
Definition events (c : Cause) (df : list Row) : Z :=
  Z.of_nat (List.length (filter (fun r => Qltb 0 (column r c)) df)).

(** ** Further vocabulary *)

(** No contribution of the dict is negative. *)
Definition all_nonneg (d : Contributions) : Prop :=
  forall k, (0 <= dict_get d k)%Q.

(** Sum of the drawn durations. *)
Definition total_duration (draws : list (Z * Z)) : Z :=
  fold_right (fun p acc => snd p + acc) 0 draws.

(** The [random] state after [n] calls of [random.random()]. *)
Fixpoint after_random (E : Entropy) (n : nat) (s : PyRng E) : PyRng E :=
  match n with
  | O => s
  | S n' => after_random E n' (snd (random E s))
  end.

(** Number of hours of the trace spent in shutdown mode. *)
Definition shutdown_hours (logs : list HourLog) : Z :=
  Z.of_nat (List.length (filter log_is_shutdown logs)).

(** [total = df[col].sum()] of one cause (line 160). *)
Definition cause_total (c : Cause) (df : list Row) : Q :=
  column_total (fun r => column r c) df.

(** The seven per-cause totals of the summary, added up. *)
Definition cause_totals_sum (df : list Row) : Q :=
  (cause_total normal_operations df + cause_total process_upset df
   + cause_total equipment_maintenance df + cause_total startup_shutdown df
   + cause_total emergency_relief df + cause_total compressor_trip df
   + cause_total instrument_failure df)%Q.

(** Number of hours of the trace outside shutdown mode. *)
Definition ordinary_hours (logs : list HourLog) : nat :=
  List.length (filter (fun h => negb (log_is_shutdown h)) logs).

(** English month names, by month number. *)
Definition month_name (m : Z) : string :=
  match m with
  | 1 => "January" | 2 => "February" | 3 => "March" | 4 => "April"
  | 5 => "May" | 6 => "June" | 7 => "July" | 8 => "August"
  | 9 => "September" | 10 => "October" | 11 => "November" | _ => "December"
  end.

(** The size of the baseline moves: from the baseline [b] and the
    state [w] an hour starts with, the move of the hour is at most half
    the magnitude of the first standard draw [z] of that hour, and it is
    exactly [z / 2] whenever that keeps the baseline within [80, 120]. *)
Fixpoint bounded_walk (E : Entropy) (cfg : Config) (shutdown_events : list datetime)
  (b : Q) (w : World E) (logs : list HourLog) : Prop :=
  match logs with
  | [] => True
  | h :: rest =>
      let z := fst (standard_normal E (np_state w)) in
      (Qabs (log_baseline h - b) <= (1 # 2) * Qabs z)%Q /\
      ((80 <= b + (1 # 2) * z /\ b + (1 # 2) * z <= 120)%Q ->
       (log_baseline h == b + (1 # 2) * z)%Q) /\
      exists w1,
        hour_contributions E cfg shutdown_events b (log_dt h) w
        = Ok ((log_baseline h, log_is_shutdown h, log_contributions h), w1) /\
        bounded_walk E cfg shutdown_events (log_baseline h) w1 rest
  end.

(** Two random sources that hand out the same values: their states are
    related by [py_rel] and [np_rel], the relation holds of the states
    seeded with 42, and related states give equal draws and related
    next states. *)
Record same_draws (E1 E2 : Entropy)
  (py_rel : PyRng E1 -> PyRng E2 -> Prop)
  (np_rel : NpRng E1 -> NpRng E2 -> Prop) : Prop := {
  same_py_seed : py_rel (py_seed E1 42) (py_seed E2 42);
  same_np_seed : np_rel (np_seed E1 42) (np_seed E2 42);
  same_randint :
    forall a b s1 s2,
      py_rel s1 s2 ->
      fst (randint E1 a b s1) = fst (randint E2 a b s2) /\
      py_rel (snd (randint E1 a b s1)) (snd (randint E2 a b s2));
  same_random :
    forall s1 s2,
      py_rel s1 s2 ->
      fst (random E1 s1) = fst (random E2 s2) /\
      py_rel (snd (random E1 s1)) (snd (random E2 s2));
  same_standard_normal :
    forall s1 s2,
      np_rel s1 s2 ->
      fst (standard_normal E1 s1) = fst (standard_normal E2 s2) /\
      np_rel (snd (standard_normal E1 s1)) (snd (standard_normal E2 s2))
}.

(** Two processes whose sources are in related states. *)
Definition same_world (E1 E2 : Entropy)
  (py_rel : PyRng E1 -> PyRng E2 -> Prop)
  (np_rel : NpRng E1 -> NpRng E2 -> Prop)
  (w1 : World E1) (w2 : World E2) : Prop :=
  py_rel (py_state w1) (py_state w2) /\ np_rel (np_state w1) (np_state w2).

(** The results of two runs over two sources: the same value with
    related states, or the same exception. *)
Definition same_result {A : Type} (E1 E2 : Entropy)
  (py_rel : PyRng E1 -> PyRng E2 -> Prop)
  (np_rel : NpRng E1 -> NpRng E2 -> Prop)
  (r1 : result (A * World E1)) (r2 : result (A * World E2)) : Prop :=
  match r1, r2 with
  | Ok (a1, w1), Ok (a2, w2) => a1 = a2 /\ same_world E1 E2 py_rel np_rel w1 w2
  | Raise e1, Raise e2 => e1 = e2
  | _, _ => False
  end.

(** A source without state that answers as an exhausted script does:
    the lower bound, [1/2] and the standard draw 0. *)
Definition Idle : Entropy := {|
  PyRng := unit;
  NpRng := unit;
  py_seed := fun _ => tt;
  np_seed := fun _ => tt;
  randint := fun a _ s => (a, s);
  random := fun s => (1 # 2, s);
  standard_normal := fun s => (0%Q, s)
|}.

Definition idle_world : World Idle :=
  {| py_state := tt : PyRng Idle; np_state := tt : NpRng Idle |}.

(** An entropy source without state: the lowest integer, the uniform
    number 0 and the standard draw 0, every time. *)
Definition Steady : Entropy := {|
  PyRng := unit;
  NpRng := unit;
  py_seed := fun _ => tt;
  np_seed := fun _ => tt;
  randint := fun a _ s => (a, s);
  random := fun s => (0%Q, s);
  standard_normal := fun s => (0%Q, s)
|}.

(** [FLARE_CAUSES] with the probability of [process_upset] set to -0.1. *)
Definition muted_config : Config := {|
  cfg_normal_operations := cfg_normal_operations FLARE_CAUSES;
  cfg_process_upset := {| avg_rate := 50; std := 15; probability := - (1 # 10) |};
  cfg_equipment_maintenance := cfg_equipment_maintenance FLARE_CAUSES;
  cfg_startup_shutdown := cfg_startup_shutdown FLARE_CAUSES;
  cfg_emergency_relief := cfg_emergency_relief FLARE_CAUSES;
  cfg_compressor_trip := cfg_compressor_trip FLARE_CAUSES;
  cfg_instrument_failure := cfg_instrument_failure FLARE_CAUSES
|}.

Definition steady_world : World Steady :=
  {| py_state := tt : PyRng Steady; np_state := tt : NpRng Steady |}.

(** The month search of [_ord2ymd] on day [n0] of a year. *)
Definition month_search (leapyear : bool) (n : Z) : Z * Z :=
  let month := Z.shiftr (n + 50) 5 in
  let preceding :=
    DAYS_BEFORE_MONTH month + (if (2 <? month) && leapyear then 1 else 0) in
  if n <? preceding then
    let month' := month - 1 in
    let preceding' :=
      preceding
      - (DAYS_IN_MONTH month' + (if (month' =? 2) && leapyear then 1 else 0)) in
    (month', n - preceding' + 1)
  else (month, n - preceding + 1).

(* ================================================================== *)
(** * Properties *)

Local Open Scope Q_scope.

(** ** Comparisons, clamping and rounding *)

Lemma fadd_eq (x y : Q) : fadd x y == x + y.
Proof. apply Qred_correct. Qed.

Lemma fmul_eq (x y : Q) : fmul x y == x * y.
Proof. apply Qred_correct. Qed.

Lemma Qltb_true (x y : Q) : Qltb x y = true <-> x < y.
Proof.
  unfold Qltb. rewrite negb_true_iff.
  split; intro H.
  - apply Qnot_le_lt. intro Hle. apply Qle_bool_iff in Hle. congruence.
  - destruct (Qle_bool y x) eqn:Hb; [|reflexivity].
    apply Qle_bool_iff in Hb. exfalso. apply (Qlt_not_le _ _ H Hb).
Qed.

Lemma Qltb_false (x y : Q) : Qltb x y = false <-> y <= x.
Proof.
  unfold Qltb. rewrite negb_false_iff. apply Qle_bool_iff.
Qed.

Ltac case_Qltb x y :=
  let H := fresh "Hlt" in
  destruct (Qltb x y) eqn:H;
  [apply Qltb_true in H | apply Qltb_false in H].

Lemma max0_nonneg (x : Q) : 0 <= max0 x.
Proof. unfold max0. case_Qltb 0 x; lra. Qed.

Lemma max0_positive (x : Q) : 0 < max0 x -> max0 x = x.
Proof. unfold max0. case_Qltb 0 x; [reflexivity | lra]. Qed.

Lemma np_clip_bounds (x lo hi : Q) :
  lo <= hi -> lo <= np_clip x lo hi /\ np_clip x lo hi <= hi.
Proof.
  intros Hb. unfold np_clip.
  case_Qltb x lo.
  - case_Qltb hi lo; lra.
  - case_Qltb hi x; lra.
Qed.

Lemma np_clip_step (b g : Q) :
  (80 <= b)%Q -> (b <= 120)%Q ->
  (Qabs (np_clip (fadd b g) 80 120 - b) <= Qabs g)%Q.
Proof.
  intros Hlo Hhi.
  pose proof (fadd_eq b g) as Hs.
  pose proof (Qle_Qabs g) as H1.
  pose proof (Qle_Qabs (- g)) as H2. rewrite Qabs_opp in H2.
  apply Qabs_Qle_condition. unfold np_clip.
  case_Qltb (fadd b g) 80%Q.
  - case_Qltb 120%Q 80%Q; [exfalso; lra|]. split; lra.
  - case_Qltb 120%Q (fadd b g); split; lra.
Qed.

Lemma round_half_even_near (x : Q) :
  inject_Z (round_half_even x) - (1 # 2) <= x /\
  x <= inject_Z (round_half_even x) + (1 # 2).
Proof.
  unfold round_half_even.
  pose proof (Qfloor_le x) as Hlo.
  pose proof (Qlt_floor x) as Hhi.
  rewrite inject_Z_plus in Hhi. change (inject_Z 1) with 1 in Hhi.
  destruct (Qcompare_spec (x - inject_Z (Qfloor x)) (1 # 2)) as [He|Hl|Hg].
  - destruct (Z.even (Qfloor x)); rewrite ?inject_Z_plus;
      change (inject_Z 1) with 1; lra.
  - lra.
  - rewrite inject_Z_plus. change (inject_Z 1) with 1. lra.
Qed.

Lemma round2_eq (x : Q) :
  round2 x == inject_Z (round_half_even (x * 100)) * (1 # 100).
Proof. unfold round2. rewrite Qred_correct. reflexivity. Qed.

Lemma round2_zero : round2 0 = 0.
Proof. reflexivity. Qed.

Lemma round2_near (x : Q) :
  round2 x - (1 # 200) <= x /\ x <= round2 x + (1 # 200).
Proof.
  rewrite round2_eq. pose proof (round_half_even_near (x * 100)). lra.
Qed.

Lemma round2_grid (x : Q) : exists n : Z, round2 x == inject_Z n * (1 # 100).
Proof. exists (round_half_even (x * 100)). apply round2_eq. Qed.

(** The exact rounding is one that both library functions may be: on a
    value that is not halfway between two hundredths, nor a binary digit
    away from it, every rounding agrees with it. *)
Definition ExactRounding : Rounding := {|
  np_round2 := round2;
  py_round2 := round2;
  np_round2_near := round2_near;
  py_round2_near := round2_near;
  np_round2_grid := round2_grid;
  py_round2_grid := round2_grid;
  np_round2_zero := round2_zero;
  py_round2_zero := round2_zero
|}.

Lemma py_round_rounded (R : Rounding) (b : bool) (x : Q) :
  rounded x (py_round R b x).
Proof.
  unfold py_round. destruct b; split;
    first [apply np_round2_near | apply py_round2_near
          | apply np_round2_grid | apply py_round2_grid].
Qed.

Lemma py_round_zero (R : Rounding) (b : bool) : py_round R b 0 = 0.
Proof.
  unfold py_round. destruct b; [apply np_round2_zero | apply py_round2_zero].
Qed.

Lemma grid_le (n k : Z) (s : Q) :
  inject_Z n * (1 # 100) <= inject_Z k * (1 # 100) + s -> s < 1 # 100 -> (n <= k)%Z.
Proof.
  intros H Hs.
  assert (Hlt : inject_Z n < inject_Z (k + 1)).
  { rewrite inject_Z_plus. change (inject_Z 1) with 1. lra. }
  rewrite <- Zlt_Qlt in Hlt. lia.
Qed.

(** A rounding does not cross a hundredth. *)
Lemma rounded_le (x r : Q) (k : Z) :
  rounded x r -> x <= inject_Z k * (1 # 100) -> r <= inject_Z k * (1 # 100).
Proof.
  intros [[Hlo Hhi] [n Hn]] Hx.
  assert (Hnk : (n <= k)%Z) by (apply (grid_le n k (1 # 200)); lra).
  rewrite Zle_Qle in Hnk. lra.
Qed.

Lemma rounded_ge (x r : Q) (k : Z) :
  rounded x r -> inject_Z k * (1 # 100) <= x -> inject_Z k * (1 # 100) <= r.
Proof.
  intros [[Hlo Hhi] [n Hn]] Hx.
  assert (Hnk : (k <= n)%Z) by (apply (grid_le k n (1 # 200)); lra).
  rewrite Zle_Qle in Hnk. lra.
Qed.

Lemma py_round_nonneg (R : Rounding) (b : bool) (x : Q) :
  0 <= x -> 0 <= py_round R b x.
Proof.
  intros Hx.
  destruct (py_round_rounded R b x) as [[Hlo Hhi] [n Hn]].
  assert (Hn0 : (0 <= n)%Z).
  { apply (grid_le 0 n (1 # 200)); [|lra]. change (inject_Z 0) with 0. lra. }
  rewrite Zle_Qle in Hn0. change (inject_Z 0) with 0 in Hn0. lra.
Qed.

(** A difference of hundredths that is within [m] hundredths and a
    half is within [m] hundredths. *)
Lemma grid_diff (d : Q) (n m : Z) :
  d == inject_Z n * (1 # 100) ->
  - (inject_Z m * (1 # 100)) - (1 # 200) <= d ->
  d <= inject_Z m * (1 # 100) + (1 # 200) ->
  - (inject_Z m * (1 # 100)) <= d /\ d <= inject_Z m * (1 # 100).
Proof.
  intros Hd Hlo Hhi.
  assert (H1 : (n <= m)%Z) by (apply (grid_le n m (1 # 200)); lra).
  assert (H2 : (- m <= n)%Z).
  { apply (grid_le (- m) n (1 # 200)); [|lra]. rewrite inject_Z_opp. lra. }
  rewrite Zle_Qle in H1, H2. rewrite inject_Z_opp in H2. lra.
Qed.

(** ** The [contributions] dict *)

Lemma Cause_eqb_spec (a b : Cause) : reflect (a = b) (Cause_eqb a b).
Proof. destruct a, b; simpl; constructor; congruence. Qed.

Lemma dict_keys_set (d : Contributions) (k : Cause) (v : Q) :
  In k (dict_keys d) -> dict_keys (dict_set d k v) = dict_keys d.
Proof.
  induction d as [|[k' v'] d IH]; simpl; intros Hin.
  - contradiction.
  - destruct (Cause_eqb_spec k k') as [->|Hne]; simpl.
    + reflexivity.
    + f_equal. apply IH. destruct Hin as [Heq|Hin]; [congruence | exact Hin].
Qed.

Lemma dict_get_set_same (d : Contributions) (k : Cause) (v : Q) :
  dict_get (dict_set d k v) k = v.
Proof.
  induction d as [|[k' v'] d IH]; simpl.
  - destruct (Cause_eqb_spec k k); congruence.
  - destruct (Cause_eqb_spec k k') as [->|Hne]; simpl.
    + destruct (Cause_eqb_spec k' k'); congruence.
    + destruct (Cause_eqb_spec k k'); congruence.
Qed.

Lemma dict_get_set_other (d : Contributions) (k k' : Cause) (v : Q) :
  k <> k' -> dict_get (dict_set d k v) k' = dict_get d k'.
Proof.
  intros Hne.
  induction d as [|[k0 v0] d IH]; simpl.
  - destruct (Cause_eqb_spec k' k); congruence.
  - destruct (Cause_eqb_spec k k0) as [->|Hne0]; simpl.
    + destruct (Cause_eqb_spec k' k0); congruence.
    + destruct (Cause_eqb_spec k' k0); congruence.
Qed.

(** A dict whose keys are the seven causes in declaration order is the
    literal list of its seven values. *)
Lemma dict_of_keys (d : Contributions) :
  dict_keys d = CAUSES ->
  d = map (fun c => (c, dict_get d c)) CAUSES.
Proof.
  unfold dict_keys, CAUSES. intros H.
  repeat (destruct d as [|[? ?] d]; [discriminate H|]).
  destruct d; [|discriminate H].
  simpl in H. injection H as -> -> -> -> -> -> ->. reflexivity.
Qed.

Lemma only_normal_set (d : Contributions) (v : Q) :
  only_normal d -> only_normal (dict_set d normal_operations v).
Proof.
  intros [Hk Hz]. split.
  - rewrite dict_keys_set; [exact Hk|]. rewrite Hk. simpl. auto.
  - intros k Hne. rewrite dict_get_set_other by congruence. now apply Hz.
Qed.

Lemma only_normal_scale (d : Contributions) (b : bool) (f : Q) :
  only_normal d ->
  only_normal (if b then dict_scale d normal_operations f else d).
Proof.
  intros H. destruct b; [|exact H]. now apply only_normal_set.
Qed.

Lemma only_normal_initial : only_normal initial_contributions.
Proof.
  split; [reflexivity|]. intros k _. destruct k; reflexivity.
Qed.

(** ** The monad and the library calls *)

Section MonadFacts.

Variable E : Entropy.

Lemma bind_inv {A B : Type} (m : M E A) (k : A -> M E B) w r :
  bind m k w = Ok r ->
  exists a w', m w = Ok (a, w') /\ k a w' = Ok r.
Proof.
  unfold bind. destruct (m w) as [[a w']|e]; [|discriminate].
  intros H. now exists a, w'.
Qed.

Lemma bind_ok {A B : Type} (m : M E A) (k : A -> M E B) w a w' :
  m w = Ok (a, w') -> bind m k w = k a w'.
Proof. unfold bind. now intros ->. Qed.

Lemma lift_inv {A : Type} (r : result A) (w : World E) a w' :
  lift r w = Ok (a, w') -> r = Ok a /\ w' = w.
Proof.
  unfold lift. destruct r; [|discriminate]. intros H. now inversion H.
Qed.

Lemma ret_inv {A : Type} (x : A) (w : World E) a w' :
  ret x w = Ok (a, w') -> a = x /\ w' = w.
Proof. unfold ret. intros H. now inversion H. Qed.

Lemma np_random_normal_inv loc scale (w : World E) v w' :
  np_random_normal E loc scale w = Ok (v, w') ->
  0 <= scale /\
  v = fadd loc (fmul scale (fst (standard_normal E (np_state w)))) /\
  py_state w' = py_state w /\
  np_state w' = snd (standard_normal E (np_state w)).
Proof.
  unfold np_random_normal. case_Qltb scale 0; [discriminate|].
  destruct (standard_normal E (np_state w)) as [z s]. intros H.
  inversion H; subst. simpl. auto.
Qed.

Lemma np_random_normal_ok loc scale (w : World E) :
  0 <= scale -> exists v w', np_random_normal E loc scale w = Ok (v, w').
Proof.
  intros Hs. unfold np_random_normal.
  apply Qltb_false in Hs. rewrite Hs.
  destruct (standard_normal E (np_state w)) as [z s]. eauto.
Qed.

Lemma np_random_normal_refuses loc scale (w : World E) :
  scale < 0 -> np_random_normal E loc scale w = Raise (ValueError "scale < 0").
Proof.
  intros Hs. unfold np_random_normal. apply Qltb_true in Hs. now rewrite Hs.
Qed.

End MonadFacts.

Tactic Notation "inv_bind" hyp(H) "as" ident(a) ident(w) ident(H1) :=
  apply bind_inv in H; destruct H as (a & w & H1 & H).

(** ** One hour of the loop *)

Lemma FLARE_CAUSES_stds_nonneg : stds_nonneg FLARE_CAUSES.
Proof.
  split; [|split].
  - simpl. lra.
  - simpl. lra.
  - intros c e Hin He.
    simpl in Hin.
    destruct Hin as [<-|[<-|[<-|[<-|[<-|[]]]]]];
      simpl in He; injection He as <-; simpl; lra.
Qed.

Lemma trace_ok_each {R : Rounding} cfg ev b logs h :
  trace_ok R cfg ev b logs -> In h logs -> exists b0, hour_ok R cfg ev b0 h.
Proof.
  induction 1 as [|b h0 logs Hh Ht IH]; simpl; intros Hin.
  - contradiction.
  - destruct Hin as [<-|Hin]; [now exists b | now apply IH].
Qed.

Section HourFacts.

Variable E : Entropy.
Variable cfg : Config.

Lemma inject_cause_spec c cause (w : World E) c' w' :
  inject_cause E cfg c cause w = Ok (c', w') ->
  In cause (dict_keys c) ->
  dict_keys c' = dict_keys c /\
  forall k, k <> cause -> dict_get c' k = dict_get c k.
Proof.
  unfold inject_cause. intros H Hin.
  inv_bind H as u w1 Hu. inv_bind H as e w2 He.
  destruct (Qltb u (probability e)).
  - inv_bind H as rate w3 Hrate. apply ret_inv in H as [-> _]. split.
    + now apply dict_keys_set.
    + intros k Hne. apply dict_get_set_other. congruence.
  - apply ret_inv in H as [-> _]. auto.
Qed.

Lemma inject_causes_spec causes : forall c (w : World E) c' w',
  inject_causes E cfg causes c w = Ok (c', w') ->
  (forall k, In k causes -> In k (dict_keys c)) ->
  dict_keys c' = dict_keys c /\
  forall k, ~ In k causes -> dict_get c' k = dict_get c k.
Proof.
  induction causes as [|cause rest IH]; simpl; intros c w c' w' H Hsub.
  - apply ret_inv in H as [-> _]. auto.
  - inv_bind H as c1 w1 Hrun.
    apply inject_cause_spec in Hrun as [Hk Hg]; [|now apply Hsub; left].
    apply IH in H as [Hk' Hg'].
    + split; [congruence|].
      intros k Hnot. rewrite Hg' by tauto. apply Hg. intros ->. tauto.
    + intros k Hin. rewrite Hk. apply Hsub. now right.
Qed.

Lemma inject_causes_total causes :
  (forall k, In k causes -> exists e, cfg_event cfg k = Ok e /\ 0 <= std e) ->
  forall c (w : World E), exists c' w', inject_causes E cfg causes c w = Ok (c', w').
Proof.
  induction causes as [|cause rest IH]; simpl; intros Hev c w.
  - unfold ret. eauto.
  - destruct (Hev cause (or_introl eq_refl)) as (e & He & Hstd).
    assert (Hone : exists c1 w1, inject_cause E cfg c cause w = Ok (c1, w1)).
    { unfold inject_cause, random_random, bind.
      destruct (random E (py_state w)) as [u s].
      rewrite He. simpl.
      destruct (Qltb u (probability e)).
      - match goal with
        | |- context [np_random_normal E ?l ?s ?w0] =>
            destruct (np_random_normal_ok E l s w0 Hstd) as (v & w1 & ->)
        end.
        unfold ret. eauto.
      - unfold ret. eauto. }
    destruct Hone as (c1 & w1 & Hone).
    rewrite (bind_ok E _ _ _ _ _ Hone).
    apply IH. intros k Hk. apply Hev. now right.
Qed.

Lemma dict_get_scale d f :
  dict_get (dict_scale d normal_operations f) normal_operations =
  fmul (dict_get d normal_operations) f.
Proof. unfold dict_scale. apply dict_get_set_same. Qed.

(** One hour, with the two standard draws it starts with: the first
    one moves the baseline, the second one is the noise of
    [normal_operations]. *)
Lemma hour_contributions_draws ev b dt (w : World E) b' sh c w' :
  hour_contributions E cfg ev b dt w = Ok ((b', sh, c), w') ->
  let step := standard_normal E (np_state w) in
  let noise := standard_normal E (snd step) in
  sh = dt_in dt ev /\
  b' = np_clip (fadd b (fadd 0 (fmul (1 # 2) (fst step)))) 80 120 /\
  dict_keys c = CAUSES /\
  dict_get c normal_operations =
    modulation dt
      (max0 (fadd b' (fadd 0 (fmul (normal_std (cfg_normal_operations cfg))
                                   (fst noise))))) /\
  (sh = true -> forall k, In k PROBABILISTIC -> dict_get c k = 0) /\
  (sh = false -> dict_get c startup_shutdown = 0).
Proof.
  intros H. cbv zeta. unfold hour_contributions in H.
  set (sd := normal_std (cfg_normal_operations cfg)) in *.
  inv_bind H as step w1 Hstep.
  apply np_random_normal_inv in Hstep as (_ & -> & _ & Hnp1).
  inv_bind H as noise w2 Hnoise.
  apply np_random_normal_inv in Hnoise as (_ & -> & _).
  rewrite Hnp1 in H. clear Hnp1.
  set (z1 := fst (standard_normal E (np_state w))) in *.
  set (z2 := fst (standard_normal E (snd (standard_normal E (np_state w))))) in *.
  set (bl := np_clip (fadd b (fadd 0 (fmul (1 # 2) z1))) 80 120) in *.
  set (c0 := dict_set initial_contributions normal_operations
               (max0 (fadd bl (fadd 0 (fmul sd z2))))) in *.
  set (c1 := if ((0 <=? dt_hour dt) && (dt_hour dt <? 6))%Z
             then dict_scale c0 normal_operations (95 # 100)
             else if ((8 <=? dt_hour dt) && (dt_hour dt <? 16))%Z
                  then dict_scale c0 normal_operations (102 # 100)
                  else c0) in *.
  set (c2 := if ((6 <=? dt_month dt) && (dt_month dt <=? 8))%Z
             then dict_scale c1 normal_operations (105 # 100)
             else c1) in *.
  assert (H0 : only_normal c0)
    by (apply only_normal_set, only_normal_initial).
  assert (H1 : only_normal c1).
  { unfold c1. destruct ((0 <=? dt_hour dt) && (dt_hour dt <? 6))%Z.
    - now apply (only_normal_scale c0 true).
    - now apply only_normal_scale. }
  assert (H2 : only_normal c2) by now apply only_normal_scale.
  assert (Hn : dict_get c2 normal_operations =
               modulation dt (max0 (fadd bl (fadd 0 (fmul sd z2))))).
  { unfold c2, c1, modulation.
    destruct ((6 <=? dt_month dt) && (dt_month dt <=? 8))%Z;
      destruct ((0 <=? dt_hour dt) && (dt_hour dt <? 6))%Z;
      try destruct ((8 <=? dt_hour dt) && (dt_hour dt <? 16))%Z;
      rewrite ?dict_get_scale; unfold c0; now rewrite dict_get_set_same. }
  destruct H2 as [Hk2 Hz2].
  inv_bind H as c3 w3 Hsched. inv_bind H as c4 w4 Hprob.
  apply ret_inv in H as [H _].
  injection H as Hb Hs Hc. subst b' sh c.
  split; [reflexivity|]. split; [reflexivity|].
  destruct (dt_in dt ev) eqn:Hsh; cbn [negb] in Hprob.
  - (* a shutdown hour *)
    apply ret_inv in Hprob as [-> _].
    inv_bind Hsched as rate w5 Hrate. apply ret_inv in Hsched as [-> _].
    split; [|split; [|split]].
    + rewrite dict_keys_set; [exact Hk2|]. rewrite Hk2. simpl. tauto.
    + rewrite dict_get_set_other by discriminate. exact Hn.
    + intros _ k Hin. rewrite dict_get_set_other.
      * apply Hz2. intros ->. simpl in Hin. intuition discriminate.
      * intros <-. simpl in Hin. intuition discriminate.
    + discriminate.
  - (* an ordinary hour *)
    apply ret_inv in Hsched as [-> _].
    apply inject_causes_spec in Hprob as [Hk Hg].
    + split; [|split; [|split]].
      * congruence.
      * rewrite Hg; [exact Hn|]. simpl. intuition discriminate.
      * discriminate.
      * intros _. rewrite Hg; [|simpl; intuition discriminate].
        apply Hz2. discriminate.
    + intros k Hin. rewrite Hk2. simpl in *. tauto.
Qed.

Lemma hour_contributions_spec ev b dt (w : World E) b' sh c w' :
  hour_contributions E cfg ev b dt w = Ok ((b', sh, c), w') ->
  sh = dt_in dt ev /\
  (exists z, b' = np_clip (fadd b (fadd 0 (fmul (1 # 2) z))) 80 120) /\
  dict_keys c = CAUSES /\
  (exists z,
     dict_get c normal_operations =
     modulation dt
       (max0 (fadd b' (fadd 0 (fmul (normal_std (cfg_normal_operations cfg)) z))))) /\
  (sh = true -> forall k, In k PROBABILISTIC -> dict_get c k = 0) /\
  (sh = false -> dict_get c startup_shutdown = 0).
Proof.
  intros H. apply hour_contributions_draws in H.
  destruct H as (Hsh & Hb & Hk & Hn & Hq & Hu).
  repeat split; eauto.
Qed.

End HourFacts.

(** ** The calendar of one year *)

Local Open Scope Z_scope.

Lemma days_in_month_ge (year m : Z) : DAYS_IN_MONTH m <= days_in_month year m.
Proof.
  unfold days_in_month.
  destruct (m =? 2) eqn:Hm; simpl; [|lia].
  apply Z.eqb_eq in Hm. subst m. destruct (is_leap year); simpl; lia.
Qed.

Lemma DAYS_IN_MONTH_le (m : Z) : DAYS_IN_MONTH m <= 31.
Proof.
  unfold DAYS_IN_MONTH.
  destruct m as [|p|p]; try lia.
  do 4 (try destruct p as [p|p|]; try lia).
Qed.

Lemma days_in_month_le (year m : Z) : days_in_month year m <= 31.
Proof.
  unfold days_in_month. pose proof (DAYS_IN_MONTH_le m).
  destruct ((m =? 2) && is_leap year); lia.
Qed.

Lemma c_int_ok (n : Z) : - 2 ^ 31 <= n <= 2 ^ 31 - 1 -> c_int n = Ok n.
Proof.
  intros H. unfold c_int.
  assert (H1 : (n <? - 2 ^ 63) || (2 ^ 63 - 1 <? n) = false)
    by (apply orb_false_iff; split; apply Z.ltb_ge; lia).
  assert (H2 : (2 ^ 31 - 1 <? n) = false) by (apply Z.ltb_ge; lia).
  assert (H3 : (n <? - 2 ^ 31) = false) by (apply Z.ltb_ge; lia).
  now rewrite H1, H2, H3.
Qed.

(** Small arguments pass the parser: the range checks decide. *)
Lemma datetime_new_checked (year m d h : Z) :
  - 2 ^ 31 <= year <= 2 ^ 31 - 1 -> - 2 ^ 31 <= m <= 2 ^ 31 - 1 ->
  - 2 ^ 31 <= d <= 2 ^ 31 - 1 -> - 2 ^ 31 <= h <= 2 ^ 31 - 1 ->
  datetime_new year m d h = check_fields year m d h.
Proof.
  intros Hy Hm Hd Hh. unfold datetime_new.
  now rewrite (c_int_ok _ Hy), (c_int_ok _ Hm), (c_int_ok _ Hd), (c_int_ok _ Hh).
Qed.

Lemma datetime_new_Ok (year m d h : Z) (t : datetime) :
  datetime_new year m d h = Ok t -> check_fields year m d h = Ok t.
Proof.
  unfold datetime_new.
  destruct (c_int year); [|discriminate]. destruct (c_int m); [|discriminate].
  destruct (c_int d); [|discriminate]. destruct (c_int h); [|discriminate].
  trivial.
Qed.

Lemma datetime_new_ok (year m d h : Z) :
  valid_year year ->
  (1 <=? m) && (m <=? 12) = true ->
  (1 <=? d) && (d <=? DAYS_IN_MONTH m) = true ->
  (0 <=? h) && (h <=? 23) = true ->
  datetime_new year m d h = Ok (24 * ymd2ord year m d + h).
Proof.
  intros [Hlo Hhi] Hm Hd Hh.
  unfold MINYEAR in Hlo. unfold MAXYEAR in Hhi.
  rewrite datetime_new_checked.
  2: lia.
  2: apply andb_true_iff in Hm as [H1 H2]; apply Z.leb_le in H1, H2; lia.
  2: { apply andb_true_iff in Hd as [H1 H2]. apply Z.leb_le in H1, H2.
       pose proof (DAYS_IN_MONTH_le m). lia. }
  2: apply andb_true_iff in Hh as [H1 H2]; apply Z.leb_le in H1, H2; lia.
  unfold check_fields.
  assert (Hy : (MINYEAR <=? year) && (year <=? MAXYEAR) = true)
    by (apply andb_true_iff; split; now apply Z.leb_le).
  assert (Hd' : (1 <=? d) && (d <=? days_in_month year m) = true).
  { apply andb_true_iff in Hd as [H1 H2]. apply andb_true_iff. split; [exact H1|].
    apply Z.leb_le. apply Z.leb_le in H2.
    pose proof (days_in_month_ge year m). lia. }
  now rewrite Hy, Hm, Hd', Hh.
Qed.

Lemma year_span (year : Z) :
  24 * ymd2ord year 12 31 + 23 - (24 * ymd2ord year 1 1 + 0) + 1 =
  hours_in_year year.
Proof.
  unfold ymd2ord, days_before_month, hours_in_year.
  destruct (is_leap year); cbn -[Z.mul Z.add Z.sub days_before_year]; lia.
Qed.

Lemma date_range_year (year : Z) :
  date_range (24 * ymd2ord year 1 1 + 0) (24 * ymd2ord year 12 31 + 23) =
  window (24 * ymd2ord year 1 1 + 0) (hours_in_year year).
Proof. unfold date_range, window. now rewrite year_span. Qed.

Lemma hours_in_year_pos (year : Z) : 0 < hours_in_year year.
Proof. unfold hours_in_year. destruct (is_leap year); lia. Qed.

Lemma in_window (start n t : Z) : In t (window start n) <-> start <= t < start + n.
Proof.
  unfold window, py_range, add_hours. rewrite in_map_iff. split.
  - intros (k & <- & Hk). apply in_map_iff in Hk as (i & <- & Hi).
    apply in_seq in Hi. lia.
  - intros Ht. exists (t - start). split; [lia|].
    apply in_map_iff. exists (Z.to_nat (t - start)). split; [lia|].
    apply in_seq. lia.
Qed.

Lemma window_length (start n : Z) : 0 <= n -> Z.of_nat (List.length (window start n)) = n.
Proof.
  intros Hn. unfold window, py_range. rewrite !length_map, length_seq. lia.
Qed.

Lemma window_nth (start n : Z) (i : nat) :
  Z.of_nat i < n -> nth_error (window start n) i = Some (start + Z.of_nat i).
Proof.
  intros Hi. unfold window, py_range, add_hours.
  rewrite !nth_error_map.
  rewrite (nth_error_nth' _ 0%nat) by (rewrite length_seq; lia).
  rewrite seq_nth by lia. reflexivity.
Qed.

Lemma anchors_spacing (year : Z) :
  match anchors year with
  | [a1; a2; a3; a4] => a1 + 1536 <= a2 /\ a2 + 1944 <= a3 /\ a3 + 2088 <= a4
  | _ => False
  end.
Proof.
  unfold anchors, ymd2ord, days_before_month.
  destruct (is_leap year); cbn -[Z.mul Z.add Z.sub days_before_year]; lia.
Qed.

(** ** The whole pass *)

Section RunFacts.

Variable R : Rounding.
Variable E : Entropy.

Lemma random_randint_ok (a b : Z) (w : World E) :
  a <= b ->
  random_randint E a b w =
  Ok (fst (randint E a b (py_state w)),
      {| py_state := snd (randint E a b (py_state w)); np_state := np_state w |}).
Proof.
  intros Hab. unfold random_randint.
  destruct (b <? a) eqn:Hlt; [apply Z.ltb_lt in Hlt; lia|].
  now destruct (randint E a b (py_state w)).
Qed.

(** [shutdown_events] after the scheduling loop: the windows that
    [random.randint] hands out, appended in the order of the anchors. *)
Lemma schedule_shutdowns_draws dates : forall acc (w : World E),
  exists w',
    schedule_shutdowns E dates acc w
    = Ok (acc ++ windows (draw_windows E dates (py_state w)), w') /\
    Forall2 (drawn E) dates (draw_windows E dates (py_state w)).
Proof.
  induction dates as [|d dates IH]; intros acc w; simpl.
  - exists w. unfold ret, windows. simpl. now rewrite app_nil_r.
  - rewrite (bind_ok E _ _ _ _ _ (random_randint_ok 24 72 w ltac:(lia))).
    rewrite (bind_ok E _ _ _ _ _ (random_randint_ok 0 23 _ ltac:(lia))).
    set (r1 := randint E 24 72 (py_state w)).
    set (w1 := {| py_state := snd r1; np_state := np_state w |}).
    set (r2 := randint E 0 23 (py_state w1)).
    set (w2 := {| py_state := snd r2; np_state := np_state w1 |}).
    destruct (IH (acc ++ map (add_hours (add_hours d (fst r2))) (py_range (fst r1))) w2)
      as (w' & Hrun & Hall).
    exists w'. split.
    + rewrite Hrun. unfold windows. simpl. now rewrite app_assoc.
    + constructor; [|exact Hall].
      exists (fst r2). split; [reflexivity|].
      intros Hrange. simpl. split.
      * apply (Hrange 0 23 (py_state w1)). lia.
      * apply (Hrange 24 72 (py_state w)). lia.
Qed.

Lemma schedule_shutdowns_spec dates : forall acc (w : World E),
  exists draws w',
    schedule_shutdowns E dates acc w = Ok (acc ++ windows draws, w') /\
    Forall2 (drawn E) dates draws.
Proof.
  intros acc w. destruct (schedule_shutdowns_draws dates acc w) as (w' & H).
  now exists (draw_windows E dates (py_state w)), w'.
Qed.

(** Scheduling the shutdowns leaves the Gaussian source untouched. *)
Lemma schedule_shutdowns_np dates : forall acc (w : World E) ev w1,
  schedule_shutdowns E dates acc w = Ok (ev, w1) -> np_state w1 = np_state w.
Proof.
  induction dates as [|d dates IH]; simpl; intros acc w ev w1 H.
  - apply ret_inv in H as [_ ->]. reflexivity.
  - rewrite (bind_ok E _ _ _ _ _ (random_randint_ok 24 72 w ltac:(lia))) in H.
    rewrite (bind_ok E _ _ _ _ _ (random_randint_ok 0 23 _ ltac:(lia))) in H.
    apply IH in H. exact H.
Qed.

Lemma shutdown_dates_ok (year : Z) (w : World E) :
  valid_year year -> shutdown_dates E year w = Ok (anchors year, w).
Proof.
  intros Hy. unfold shutdown_dates, bind, lift, ret, anchors.
  rewrite !(datetime_new_ok year _ _ 0 Hy) by reflexivity.
  now rewrite !Z.add_0_r.
Qed.

Variable cfg : Config.
Hypothesis Hstd : stds_nonneg cfg.

Lemma hour_contributions_total ev b dt (w : World E) :
  exists r w', hour_contributions E cfg ev b dt w = Ok (r, w').
Proof.
  destruct Hstd as (Hn & Hs & Hp).
  unfold hour_contributions.
  destruct (np_random_normal_ok E 0 (1 # 2) w ltac:(lra)) as (step & w1 & H1).
  rewrite (bind_ok E _ _ _ _ _ H1).
  destruct (np_random_normal_ok E 0 _ w1 Hn) as (noise & w2 & H2).
  rewrite (bind_ok E _ _ _ _ _ H2).
  match goal with
  | |- exists r w', bind (if ?s then _ else ret ?c) _ _ = _ =>
      set (sh := s); set (c2 := c)
  end.
  assert (Hs' : exists c3 w3,
    (if sh then
       bind (np_random_normal E (avg_rate (cfg_startup_shutdown cfg))
               (std (cfg_startup_shutdown cfg)))
            (fun shutdown_rate =>
               ret (dict_set c2 startup_shutdown (max0 shutdown_rate)))
     else ret c2) w2 = Ok (c3, w3)).
  { destruct sh; [|unfold ret; eauto].
    destruct (np_random_normal_ok E (avg_rate (cfg_startup_shutdown cfg)) _ w2 Hs)
      as (rate & w3 & H3).
    rewrite (bind_ok E _ _ _ _ _ H3). unfold ret. eauto. }
  destruct Hs' as (c3 & w3 & H3). rewrite (bind_ok E _ _ _ _ _ H3).
  assert (Hp' : exists c4 w4,
    (if negb sh then inject_causes E cfg PROBABILISTIC c3 else ret c3) w3
    = Ok (c4, w4)).
  { destruct sh; cbn [negb]; [unfold ret; eauto|].
    apply inject_causes_total. intros k Hk.
    destruct (cfg_event cfg k) as [e|x] eqn:He.
    - exists e. split; [reflexivity|]. now apply (Hp k).
    - simpl in Hk. destruct Hk as [<-|[<-|[<-|[<-|[<-|[]]]]]]; discriminate. }
  destruct Hp' as (c4 & w4 & H4). rewrite (bind_ok E _ _ _ _ _ H4).
  unfold ret. eauto.
Qed.

Lemma make_row_total dt c :
  dict_keys c = CAUSES -> exists row, make_row R dt c = Ok row.
Proof.
  intros Hk. unfold make_row.
  destruct c as [|x rest]; [discriminate|]. simpl. eauto.
Qed.

Lemma hourly_loop_spec ev dts : forall b (w : World E),
  exists logs w',
    hourly_loop R E cfg ev dts b w = Ok (logs, w') /\
    map log_dt logs = dts /\
    trace_ok R cfg ev b logs.
Proof.
  induction dts as [|dt dts IH]; intros b w; simpl.
  - exists [], w. repeat split. constructor.
  - destruct (hour_contributions_total ev b dt w) as ([[b' sh] c] & w1 & H1).
    rewrite (bind_ok E _ _ _ _ _ H1). simpl.
    apply hour_contributions_spec in H1 as (Hsh & Hb & Hk & Hn & Hq & Hu).
    destruct (make_row_total dt c Hk) as (row & Hrow).
    unfold bind at 1. unfold lift. rewrite Hrow.
    destruct (IH b' w1) as (logs & w' & Hrun & Hdt & Htr).
    rewrite (bind_ok E _ _ _ _ _ Hrun). unfold ret.
    eexists _, w'. split; [reflexivity|]. split.
    + simpl. now rewrite Hdt.
    + constructor; [|exact Htr]. now constructor.
Qed.

(** The pass on a valid year: it completes, covers the hours of the
    year in order, keeps the per-hour facts, and [shutdown_events] is
    the concatenation of the four drawn windows. *)
Lemma generate_trace_spec (year : Z) (w : World E) :
  valid_year year ->
  exists draws logs w',
    generate_trace R E cfg year w = Ok ((windows draws, logs), w') /\
    generate_flare_data_with R E cfg year w = Ok (map log_row logs, w') /\
    Forall2 (drawn E) (anchors year) draws /\
    map log_dt logs =
      window (24 * ymd2ord year 1 1 + 0) (hours_in_year year) /\
    trace_ok R cfg (windows draws) 100%Q logs.
Proof.
  intros Hy.
  destruct (schedule_shutdowns_spec (anchors year) [] w) as (draws & w1 & Hs & Hd).
  simpl in Hs.
  destruct (hourly_loop_spec (windows draws)
              (window (24 * ymd2ord year 1 1 + 0) (hours_in_year year)) 100%Q w1)
    as (logs & w' & Hl & Hdt & Htr).
  assert (Ht : generate_trace R E cfg year w = Ok ((windows draws, logs), w')).
  { unfold generate_trace.
    unfold bind at 1. unfold lift at 1.
    rewrite (datetime_new_ok year 1 1 0 Hy) by reflexivity.
    unfold bind at 1. unfold lift at 1.
    rewrite (datetime_new_ok year 12 31 23 Hy) by reflexivity.
    rewrite (bind_ok E _ _ _ _ _ (shutdown_dates_ok year w Hy)).
    rewrite (bind_ok E _ _ _ _ _ Hs).
    rewrite date_range_year.
    now rewrite (bind_ok E _ _ _ _ _ Hl). }
  exists draws, logs, w'. repeat split; try assumption.
  unfold generate_flare_data_with. now rewrite (bind_ok E _ _ _ _ _ Ht).
Qed.

End RunFacts.

(** ** Rows and the trace *)

Lemma dt_in_iff (dt : datetime) (events : list datetime) :
  dt_in dt events = true <-> In dt events.
Proof.
  unfold dt_in. rewrite existsb_exists. split.
  - intros (x & Hin & Heq). apply Z.eqb_eq in Heq. now subst.
  - intros Hin. exists dt. split; [exact Hin | apply Z.eqb_refl].
Qed.

Lemma make_row_inv {R : Rounding} (dt : datetime) (c : Contributions) (row : Row) :
  make_row R dt c = Ok row ->
  timestamp row = dt /\
  total_flare_rate_m3_per_hour row = py_round R (np_typed c) (py_sum (dict_values c)) /\
  severity row = classify (py_sum (dict_values c)) /\
  (forall k, column row k = py_round R (column_np c k) (dict_get c k)) /\
  (exists d, py_max snd c = Ok d /\ dominant_cause row = fst d).
Proof.
  unfold make_row. destruct (py_max snd c) as [d|e] eqn:Hmax; [|discriminate].
  intros H. injection H as <-. simpl.
  repeat split.
  - intros k. destruct k; reflexivity.
  - now exists d.
Qed.

(** Every exported figure is a rounding of the value it exports, and
    a contribution of 0 is exported as 0. *)
Lemma row_rounded {R : Rounding} (dt : datetime) (c : Contributions) (row : Row) :
  make_row R dt c = Ok row ->
  rounded (py_sum (dict_values c)) (total_flare_rate_m3_per_hour row) /\
  (forall k, rounded (dict_get c k) (column row k)) /\
  (forall k, dict_get c k = 0%Q -> column row k = 0%Q).
Proof.
  intros H. destruct (make_row_inv _ _ _ H) as (_ & Htot & _ & Hcol & _).
  split; [|split].
  - rewrite Htot. apply py_round_rounded.
  - intros k. rewrite Hcol. apply py_round_rounded.
  - intros k Hz. rewrite Hcol, Hz. apply py_round_zero.
Qed.

Lemma trace_timestamps {R : Rounding} cfg ev b logs :
  trace_ok R cfg ev b logs -> map timestamp (map log_row logs) = map log_dt logs.
Proof.
  induction 1 as [|b h logs Hh Ht IH]; simpl; [reflexivity|].
  rewrite IH. f_equal.
  now destruct (make_row_inv _ _ _ (ok_row _ _ _ _ Hh)) as (-> & _).
Qed.

Lemma trace_baseline {R : Rounding} cfg ev b logs h :
  trace_ok R cfg ev b logs -> In h logs ->
  (80 <= log_baseline h /\ log_baseline h <= 120)%Q.
Proof.
  intros Ht Hin. destruct (trace_ok_each _ _ _ _ _ Ht Hin) as (b0 & Hh).
  destruct (ok_baseline _ _ _ _ Hh) as (z & ->).
  apply np_clip_bounds. lra.
Qed.

Lemma in_windows (draws : list (Z * Z)) (t : Z) :
  In t (windows draws) <->
  exists p, In p draws /\ fst p <= t < fst p + snd p.
Proof.
  unfold windows. rewrite in_concat. split.
  - intros (l & Hl & Ht). apply in_map_iff in Hl as (p & <- & Hp).
    exists p. split; [exact Hp | now apply in_window].
  - intros (p & Hp & Ht). exists (window (fst p) (snd p)). split.
    + apply in_map_iff. now exists p.
    + now apply in_window.
Qed.

Lemma scripted_randint_in_range : randint_in_range Scripted.
Proof.
  intros a b s Hab. simpl. destruct (fst s); simpl; lia.
Qed.

Lemma scripted_random_in_unit :
  forall s : PyRng Scripted,
    Forall (fun u => 0 <= u /\ u < 1)%Q (snd s) ->
    (0 <= fst (random Scripted s) /\ fst (random Scripted s) < 1)%Q.
Proof.
  intros s Hs. simpl. destruct (snd s) as [|u rest]; simpl.
  - lra.
  - now inversion Hs.
Qed.

Lemma valid_year_2024 : valid_year 2024.
Proof. unfold valid_year, MINYEAR, MAXYEAR. lia. Qed.

(** ** Unfolding a run *)

Section RunInversion.

Variable R : Rounding.
Variable E : Entropy.
Variable cfg : Config.

Lemma hourly_loop_inv ev dt dts b (w : World E) logs w' :
  hourly_loop R E cfg ev (dt :: dts) b w = Ok (logs, w') ->
  exists b' sh c w1 row rest,
    hour_contributions E cfg ev b dt w = Ok ((b', sh, c), w1) /\
    make_row R dt c = Ok row /\
    hourly_loop R E cfg ev dts b' w1 = Ok (rest, w') /\
    logs = {| log_dt := dt; log_is_shutdown := sh; log_baseline := b';
              log_contributions := c; log_row := row |} :: rest.
Proof.
  simpl. intros H.
  inv_bind H as h w1 Hh. destruct h as [[b' sh] c]. simpl in H.
  inv_bind H as row w2 Hrow. apply lift_inv in Hrow as [Hrow ->].
  inv_bind H as rest w3 Hrest. apply ret_inv in H as [-> ->].
  now exists b', sh, c, w1, row, rest.
Qed.

(** A property every iteration establishes holds of every logged hour. *)
Lemma hourly_loop_each ev (P : HourLog -> Prop) :
  (forall b dt (w : World E) b' sh c w1 row,
      hour_contributions E cfg ev b dt w = Ok ((b', sh, c), w1) ->
      make_row R dt c = Ok row ->
      P {| log_dt := dt; log_is_shutdown := sh; log_baseline := b';
           log_contributions := c; log_row := row |}) ->
  forall dts b (w : World E) logs w',
    hourly_loop R E cfg ev dts b w = Ok (logs, w') -> Forall P logs.
Proof.
  intros Hstep. induction dts as [|dt dts IH]; intros b w logs w' H.
  - simpl in H. apply ret_inv in H as [-> _]. constructor.
  - apply hourly_loop_inv in H
      as (b' & sh & c & w1 & row & rest & Hh & Hrow & Hrest & ->).
    constructor; [eapply Hstep; eassumption | now apply (IH b' w1 rest w')].
Qed.

(** Hour after hour the loop follows the Gaussian source. *)
Lemma hourly_loop_driven ev dts : forall b (w : World E) logs w',
  hourly_loop R E cfg ev dts b w = Ok (logs, w') ->
  driven_walk E cfg ev b w logs.
Proof.
  induction dts as [|dt dts IH]; intros b w logs w' H.
  - simpl in H. apply ret_inv in H as [-> _]. exact I.
  - apply hourly_loop_inv in H
      as (b' & sh & c & w1 & row & rest & Hh & Hrow & Hrest & ->).
    destruct (hour_contributions_draws E cfg _ _ _ _ _ _ _ _ Hh)
      as (_ & Hb & _ & Hn & _).
    cbn [driven_walk log_baseline log_contributions log_dt log_is_shutdown].
    split; [exact Hb|]. split; [exact Hn|].
    exists w1. split; [exact Hh | exact (IH _ _ _ _ Hrest)].
Qed.

(** The clamp only ever shortens a move of the baseline. *)
Lemma hourly_loop_bounded ev dts : forall b (w : World E) logs w',
  (80 <= b)%Q -> (b <= 120)%Q ->
  hourly_loop R E cfg ev dts b w = Ok (logs, w') ->
  bounded_walk E cfg ev b w logs.
Proof.
  induction dts as [|dt dts IH]; intros b w logs w' Hlo Hhi H.
  - simpl in H. apply ret_inv in H as [-> _]. exact I.
  - apply hourly_loop_inv in H
      as (b' & sh & c & w1 & row & rest & Hh & Hrow & Hrest & ->).
    destruct (hour_contributions_draws E cfg _ _ _ _ _ _ _ _ Hh)
      as (_ & Hb & _).
    cbn [bounded_walk log_baseline log_contributions log_dt log_is_shutdown].
    assert (Hb' : (80 <= b' /\ b' <= 120)%Q)
      by (rewrite Hb; apply np_clip_bounds; lra).
    cbv zeta. set (z := fst (standard_normal E (np_state w))) in *.
    split; [|split].
    + rewrite Hb.
      eapply Qle_trans; [apply np_clip_step; assumption|].
      rewrite fadd_eq, fmul_eq.
      assert (He : (0 + (1 # 2) * z == (1 # 2) * z)%Q) by lra.
      rewrite He, Qabs_Qmult. change (Qabs (1 # 2)) with (1 # 2). apply Qle_refl.
    + intros [Hin1 Hin2]. rewrite Hb.
      pose proof (fadd_eq b (fadd 0 (fmul (1 # 2) z))) as E1.
      pose proof (fadd_eq 0 (fmul (1 # 2) z)) as E2.
      pose proof (fmul_eq (1 # 2) z) as E3.
      unfold np_clip.
      case_Qltb (fadd b (fadd 0 (fmul (1 # 2) z))) 80%Q; [exfalso; lra|].
      case_Qltb 120%Q (fadd b (fadd 0 (fmul (1 # 2) z))); [exfalso; lra|].
      lra.
    + exists w1. split; [exact Hh|].
      apply (IH _ _ _ _ (proj1 Hb') (proj2 Hb') Hrest).
Qed.

Hypothesis Hstd : stds_nonneg cfg.

(** The pass on a valid year, with the two runs it is made of and the
    windows as [random.randint] hands them out. *)
Lemma generate_trace_drawn (year : Z) (w : World E) :
  valid_year year ->
  let draws := draw_windows E (anchors year) (py_state w) in
  exists logs w1 w',
    generate_trace R E cfg year w = Ok ((windows draws, logs), w') /\
    generate_flare_data_with R E cfg year w = Ok (map log_row logs, w') /\
    Forall2 (drawn E) (anchors year) draws /\
    map log_dt logs = window (24 * ymd2ord year 1 1 + 0) (hours_in_year year) /\
    trace_ok R cfg (windows draws) 100%Q logs /\
    schedule_shutdowns E (anchors year) [] w = Ok (windows draws, w1) /\
    hourly_loop R E cfg (windows draws)
      (window (24 * ymd2ord year 1 1 + 0) (hours_in_year year)) 100%Q w1
      = Ok (logs, w').
Proof.
  intros Hy draws.
  destruct (schedule_shutdowns_draws E (anchors year) [] w) as (w1 & Hs & Hd).
  fold draws in Hs, Hd.
  simpl in Hs.
  destruct (hourly_loop_spec R E cfg Hstd (windows draws)
              (window (24 * ymd2ord year 1 1 + 0) (hours_in_year year)) 100%Q w1)
    as (logs & w' & Hl & Hdt & Htr).
  assert (Ht : generate_trace R E cfg year w = Ok ((windows draws, logs), w')).
  { unfold generate_trace.
    unfold bind at 1. unfold lift at 1.
    rewrite (datetime_new_ok year 1 1 0 Hy) by reflexivity.
    unfold bind at 1. unfold lift at 1.
    rewrite (datetime_new_ok year 12 31 23 Hy) by reflexivity.
    rewrite (bind_ok E _ _ _ _ _ (shutdown_dates_ok E year w Hy)).
    rewrite (bind_ok E _ _ _ _ _ Hs).
    rewrite date_range_year.
    now rewrite (bind_ok E _ _ _ _ _ Hl). }
  exists logs, w1, w'. repeat split; try assumption.
  unfold generate_flare_data_with. now rewrite (bind_ok E _ _ _ _ _ Ht).
Qed.

Lemma generate_trace_runs (year : Z) (w : World E) :
  valid_year year ->
  exists draws logs w1 w',
    generate_trace R E cfg year w = Ok ((windows draws, logs), w') /\
    generate_flare_data_with R E cfg year w = Ok (map log_row logs, w') /\
    Forall2 (drawn E) (anchors year) draws /\
    map log_dt logs = window (24 * ymd2ord year 1 1 + 0) (hours_in_year year) /\
    trace_ok R cfg (windows draws) 100%Q logs /\
    schedule_shutdowns E (anchors year) [] w = Ok (windows draws, w1) /\
    hourly_loop R E cfg (windows draws)
      (window (24 * ymd2ord year 1 1 + 0) (hours_in_year year)) 100%Q w1
      = Ok (logs, w').
Proof.
  intros Hy. destruct (generate_trace_drawn year w Hy) as (logs & w1 & w' & H).
  now exists (draw_windows E (anchors year) (py_state w)), logs, w1, w'.
Qed.

End RunInversion.

(* ================================================================== *)
(** * The claims *)

(** C1 (completeness).  For every year the calendar accepts,
    [generate_flare_data] returns a table with one record per hour of
    that year: 8784 records in a leap year and 8760 otherwise; record
    number [k] carries the instant [k] hours after Y-01-01T00:00, the
    last one is Y-12-31T23:00, and the timestamps are strictly
    increasing (hence without gaps or duplicates). *)
Theorem generate_flare_data_complete (R : Rounding) (E : Entropy)
  (year : Z) (w : World E) :
  valid_year year ->
  exists table w' start_date end_date,
    generate_flare_data R E year w = Ok (table, w') /\
    datetime_new year 1 1 0 = Ok start_date /\
    datetime_new year 12 31 23 = Ok end_date /\
    Z.of_nat (List.length table) = (if is_leap year then 8784 else 8760) /\
    (forall k row,
        nth_error table k = Some row ->
        timestamp row = add_hours start_date (Z.of_nat k)) /\
    (forall row,
        nth_error table (Nat.pred (List.length table)) = Some row ->
        timestamp row = end_date) /\
    (forall i j ri rj,
        (i < j)%nat ->
        nth_error table i = Some ri -> nth_error table j = Some rj ->
        timestamp ri < timestamp rj).
Proof.
  intros Hy.
  destruct (generate_trace_spec R E FLARE_CAUSES FLARE_CAUSES_stds_nonneg year w Hy)
    as (draws & logs & w' & _ & Hgen & _ & Hdt & Htr).
  pose proof (trace_timestamps _ _ _ _ Htr) as Hts. rewrite Hdt in Hts.
  set (start := 24 * ymd2ord year 1 1 + 0) in *.
  set (table := map log_row logs) in *.
  assert (Hlen : Z.of_nat (List.length table) = hours_in_year year).
  { rewrite <- (length_map timestamp), Hts.
    apply window_length. pose proof (hours_in_year_pos year). lia. }
  assert (Hnth : forall k row,
             nth_error table k = Some row ->
             timestamp row = add_hours start (Z.of_nat k)).
  { intros k row Hk.
    assert (Hlt : (k < List.length table)%nat)
      by (apply nth_error_Some; congruence).
    pose proof (map_nth_error timestamp _ _ Hk) as Hm.
    rewrite Hts, window_nth in Hm by lia.
    now injection Hm as <-. }
  exists table, w', start, (24 * ymd2ord year 12 31 + 23).
  split; [exact Hgen|].
  split; [now apply datetime_new_ok|].
  split; [now apply datetime_new_ok|].
  split; [exact Hlen|].
  split; [exact Hnth|].
  split.
  - intros row Hrow. rewrite (Hnth _ _ Hrow).
    pose proof (year_span year) as Hspan.
    pose proof (hours_in_year_pos year).
    unfold add_hours. fold start in Hspan. lia.
  - intros i j ri rj Hij Hi Hj.
    rewrite (Hnth _ _ Hi), (Hnth _ _ Hj). unfold add_hours. lia.
Qed.

Lemma generate_flare_data_complete_witness :
  valid_year 2024 /\
  exists table w' start_date end_date,
    generate_flare_data ExactRounding Scripted 2024
        (scripted_world [] [] []) = Ok (table, w') /\
    datetime_new 2024 1 1 0 = Ok start_date /\
    datetime_new 2024 12 31 23 = Ok end_date /\
    Z.of_nat (List.length table) = (if is_leap 2024 then 8784 else 8760) /\
    (forall k row,
        nth_error table k = Some row ->
        timestamp row = add_hours start_date (Z.of_nat k)) /\
    (forall row,
        nth_error table (Nat.pred (List.length table)) = Some row ->
        timestamp row = end_date) /\
    (forall i j ri rj,
        (i < j)%nat ->
        nth_error table i = Some ri -> nth_error table j = Some rj ->
        timestamp ri < timestamp rj).
Proof.
  split.
  - unfold valid_year, MINYEAR, MAXYEAR. lia.
  - apply (generate_flare_data_complete ExactRounding Scripted 2024
      (scripted_world [] [] [])).
    unfold valid_year, MINYEAR, MAXYEAR. lia.
Defined.

(** C2 (shutdown exclusivity).  In every record whose hour belongs to
    [shutdown_events] (the expanded shutdown windows of the run), the
    five probabilistic causes contribute exactly 0, in the dict of the
    hour and in the exported columns. *)
Theorem shutdown_exclusivity (R : Rounding) (E : Entropy)
  (year : Z) (w : World E) :
  valid_year year ->
  exists draws logs w',
    generate_trace R E FLARE_CAUSES year w = Ok ((windows draws, logs), w') /\
    generate_flare_data R E year w = Ok (map log_row logs, w') /\
    forall h,
      In h logs ->
      In (timestamp (log_row h)) (windows draws) ->
      forall c,
        In c [process_upset; equipment_maintenance; emergency_relief;
              compressor_trip; instrument_failure] ->
        dict_get (log_contributions h) c = 0%Q /\ column (log_row h) c = 0%Q.
Proof.
  intros Hy.
  destruct (generate_trace_spec R E FLARE_CAUSES FLARE_CAUSES_stds_nonneg year w Hy)
    as (draws & logs & w' & Htrace & Hgen & _ & _ & Htr).
  exists draws, logs, w'. split; [exact Htrace|]. split; [exact Hgen|].
  intros h Hh Hin c Hc.
  destruct (trace_ok_each _ _ _ _ _ Htr Hh) as (b0 & Hok).
  destruct (make_row_inv _ _ _ (ok_row _ _ _ _ Hok)) as (Hts & _ & _ & Hcol & _).
  rewrite Hts in Hin. apply dt_in_iff in Hin.
  rewrite <- (ok_shutdown _ _ _ _ Hok) in Hin.
  pose proof (ok_quiet _ _ _ _ Hok Hin c Hc) as Hz.
  split; [exact Hz|]. rewrite Hcol, Hz. apply py_round_zero.
Qed.

Lemma shutdown_exclusivity_witness :
  valid_year 2024 /\
  exists draws logs w',
    generate_trace ExactRounding Scripted FLARE_CAUSES 2024
        (scripted_world [30; 5] [] [0; -2]%Q)
      = Ok ((windows draws, logs), w') /\
    generate_flare_data ExactRounding Scripted 2024
        (scripted_world [30; 5] [] [0; -2]%Q)
      = Ok (map log_row logs, w') /\
    forall h,
      In h logs ->
      In (timestamp (log_row h)) (windows draws) ->
      forall c,
        In c [process_upset; equipment_maintenance; emergency_relief;
              compressor_trip; instrument_failure] ->
        dict_get (log_contributions h) c = 0%Q /\ column (log_row h) c = 0%Q.
Proof.
  split.
  - unfold valid_year, MINYEAR, MAXYEAR. lia.
  - apply (shutdown_exclusivity ExactRounding Scripted 2024
      (scripted_world [30; 5] [] [0; -2]%Q)).
    unfold valid_year, MINYEAR, MAXYEAR. lia.
Defined.

(** C3 (startup/shutdown exclusivity).  In every record, a strictly
    positive [startup_shutdown] column implies that the hour belongs to
    [shutdown_events]; outside [shutdown_events] the contribution and
    its column are exactly 0. *)
Theorem startup_shutdown_exclusivity (R : Rounding) (E : Entropy)
  (year : Z) (w : World E) :
  valid_year year ->
  exists draws logs w',
    generate_trace R E FLARE_CAUSES year w = Ok ((windows draws, logs), w') /\
    generate_flare_data R E year w = Ok (map log_row logs, w') /\
    forall h,
      In h logs ->
      ((0 < startup_shutdown_m3_per_hour (log_row h))%Q ->
       In (timestamp (log_row h)) (windows draws)) /\
      (~ In (timestamp (log_row h)) (windows draws) ->
       dict_get (log_contributions h) startup_shutdown = 0%Q /\
       startup_shutdown_m3_per_hour (log_row h) = 0%Q).
Proof.
  intros Hy.
  destruct (generate_trace_spec R E FLARE_CAUSES FLARE_CAUSES_stds_nonneg year w Hy)
    as (draws & logs & w' & Htrace & Hgen & _ & _ & Htr).
  exists draws, logs, w'. split; [exact Htrace|]. split; [exact Hgen|].
  intros h Hh.
  destruct (trace_ok_each _ _ _ _ _ Htr Hh) as (b0 & Hok).
  destruct (make_row_inv _ _ _ (ok_row _ _ _ _ Hok)) as (Hts & _ & _ & Hcol & _).
  specialize (Hcol startup_shutdown). simpl in Hcol.
  assert (Hout : log_is_shutdown h = false ->
                 dict_get (log_contributions h) startup_shutdown = 0%Q /\
                 startup_shutdown_m3_per_hour (log_row h) = 0%Q).
  { intros Hf. pose proof (ok_unscheduled _ _ _ _ Hok Hf) as Hz.
    split; [exact Hz|]. rewrite Hcol, Hz. apply py_round_zero. }
  rewrite Hts, <- dt_in_iff, <- (ok_shutdown _ _ _ _ Hok).
  destruct (log_is_shutdown h).
  - split; [reflexivity | intros Hn; now elim Hn].
  - split.
    + intros Hpos. destruct (Hout eq_refl) as [_ Hz]. rewrite Hz in Hpos.
      exfalso. revert Hpos. apply Qlt_irrefl.
    + intros _. now apply Hout.
Qed.

Lemma startup_shutdown_exclusivity_witness :
  valid_year 2023 /\
  exists draws logs w',
    generate_trace ExactRounding Scripted FLARE_CAUSES 2023 (scripted_world [] [] [])
      = Ok ((windows draws, logs), w') /\
    generate_flare_data ExactRounding Scripted 2023 (scripted_world [] [] [])
      = Ok (map log_row logs, w') /\
    forall h,
      In h logs ->
      ((0 < startup_shutdown_m3_per_hour (log_row h))%Q ->
       In (timestamp (log_row h)) (windows draws)) /\
      (~ In (timestamp (log_row h)) (windows draws) ->
       dict_get (log_contributions h) startup_shutdown = 0%Q /\
       startup_shutdown_m3_per_hour (log_row h) = 0%Q).
Proof.
  split.
  - unfold valid_year, MINYEAR, MAXYEAR. lia.
  - apply (startup_shutdown_exclusivity ExactRounding Scripted 2023
      (scripted_world [] [] [])).
    unfold valid_year, MINYEAR, MAXYEAR. lia.
Defined.



(** ** Runs over two random sources *)

Section Reproducible.

Variable R : Rounding.
Variables E1 E2 : Entropy.
Variable py_rel : PyRng E1 -> PyRng E2 -> Prop.
Variable np_rel : NpRng E1 -> NpRng E2 -> Prop.
Hypothesis Hsame : same_draws E1 E2 py_rel np_rel.

Lemma same_bind {A B : Type} (m1 : M E1 A) (m2 : M E2 A)
  (k1 : A -> M E1 B) (k2 : A -> M E2 B) w1 w2 :
  same_result E1 E2 py_rel np_rel (m1 w1) (m2 w2) ->
  (forall a w1' w2',
      same_world E1 E2 py_rel np_rel w1' w2' ->
      same_result E1 E2 py_rel np_rel (k1 a w1') (k2 a w2')) ->
  same_result E1 E2 py_rel np_rel (bind m1 k1 w1) (bind m2 k2 w2).
Proof.
  unfold bind. intros Hm Hk.
  destruct (m1 w1) as [[a1 v1]|e1], (m2 w2) as [[a2 v2]|e2]; simpl in Hm;
    try contradiction.
  - destruct Hm as [<- Hw]. now apply Hk.
  - exact Hm.
Qed.

Lemma same_ret {A : Type} (a : A) w1 w2 :
  same_world E1 E2 py_rel np_rel w1 w2 ->
  same_result E1 E2 py_rel np_rel (ret a w1) (ret a w2).
Proof. intros Hw. simpl. auto. Qed.

Lemma same_lift {A : Type} (r : result A) w1 w2 :
  same_world E1 E2 py_rel np_rel w1 w2 ->
  same_result E1 E2 py_rel np_rel (lift r w1) (lift r w2).
Proof. intros Hw. unfold lift. destruct r; simpl; auto. Qed.

Lemma same_random_randint (a b : Z) w1 w2 :
  same_world E1 E2 py_rel np_rel w1 w2 ->
  same_result E1 E2 py_rel np_rel (random_randint E1 a b w1) (random_randint E2 a b w2).
Proof.
  intros [Hpy Hnp]. unfold random_randint.
  destruct (b <? a); [reflexivity|].
  destruct (same_randint _ _ _ _ Hsame a b _ _ Hpy) as [Hv Hs].
  destruct (randint E1 a b (py_state w1)) as [v1 s1].
  destruct (randint E2 a b (py_state w2)) as [v2 s2].
  simpl in *. repeat split; assumption.
Qed.

Lemma same_random_random w1 w2 :
  same_world E1 E2 py_rel np_rel w1 w2 ->
  same_result E1 E2 py_rel np_rel (random_random E1 w1) (random_random E2 w2).
Proof.
  intros [Hpy Hnp]. unfold random_random.
  destruct (same_random _ _ _ _ Hsame _ _ Hpy) as [Hv Hs].
  destruct (random E1 (py_state w1)) as [v1 s1].
  destruct (random E2 (py_state w2)) as [v2 s2].
  simpl in *. repeat split; assumption.
Qed.

Lemma same_np_random_normal (loc scale : Q) w1 w2 :
  same_world E1 E2 py_rel np_rel w1 w2 ->
  same_result E1 E2 py_rel np_rel
    (np_random_normal E1 loc scale w1) (np_random_normal E2 loc scale w2).
Proof.
  intros [Hpy Hnp]. unfold np_random_normal.
  destruct (Qltb scale 0); [reflexivity|].
  destruct (same_standard_normal _ _ _ _ Hsame _ _ Hnp) as [Hv Hs].
  destruct (standard_normal E1 (np_state w1)) as [v1 s1].
  destruct (standard_normal E2 (np_state w2)) as [v2 s2].
  simpl in *. subst v2. repeat split; assumption.
Qed.

Lemma same_schedule_shutdowns dates : forall acc w1 w2,
  same_world E1 E2 py_rel np_rel w1 w2 ->
  same_result E1 E2 py_rel np_rel
    (schedule_shutdowns E1 dates acc w1) (schedule_shutdowns E2 dates acc w2).
Proof.
  induction dates as [|d dates IH]; intros acc w1 w2 Hw; simpl.
  - now apply same_ret.
  - apply same_bind; [now apply same_random_randint|].
    intros n v1 v2 Hv. apply same_bind; [now apply same_random_randint|].
    intros o u1 u2 Hu. now apply IH.
Qed.

Lemma same_shutdown_dates year w1 w2 :
  same_world E1 E2 py_rel np_rel w1 w2 ->
  same_result E1 E2 py_rel np_rel (shutdown_dates E1 year w1) (shutdown_dates E2 year w2).
Proof.
  intros Hw. unfold shutdown_dates.
  repeat (apply same_bind; [now apply same_lift|]; intros ? ? ? ?).
  now apply same_ret.
Qed.

Lemma same_inject_causes cfg causes : forall c w1 w2,
  same_world E1 E2 py_rel np_rel w1 w2 ->
  same_result E1 E2 py_rel np_rel
    (inject_causes E1 cfg causes c w1) (inject_causes E2 cfg causes c w2).
Proof.
  induction causes as [|cause rest IH]; intros c w1 w2 Hw; simpl.
  - now apply same_ret.
  - apply same_bind; [|intros c' v1 v2 Hv; now apply IH].
    unfold inject_cause.
    apply same_bind; [now apply same_random_random|]. intros u v1 v2 Hv.
    apply same_bind; [now apply same_lift|]. intros e u1 u2 Hu.
    destruct (Qltb u (probability e)); [|now apply same_ret].
    apply same_bind; [now apply same_np_random_normal|]. intros rate x1 x2 Hx.
    now apply same_ret.
Qed.

Lemma same_hour_contributions cfg ev b dt w1 w2 :
  same_world E1 E2 py_rel np_rel w1 w2 ->
  same_result E1 E2 py_rel np_rel
    (hour_contributions E1 cfg ev b dt w1) (hour_contributions E2 cfg ev b dt w2).
Proof.
  intros Hw. unfold hour_contributions.
  apply same_bind; [now apply same_np_random_normal|]. intros step v1 v2 Hv.
  apply same_bind; [now apply same_np_random_normal|]. intros noise u1 u2 Hu.
  apply same_bind.
  { destruct (dt_in dt ev); [|now apply same_ret].
    apply same_bind; [now apply same_np_random_normal|]. intros rate x1 x2 Hx.
    now apply same_ret. }
  intros c3 x1 x2 Hx. apply same_bind.
  { destruct (negb (dt_in dt ev)); [now apply same_inject_causes | now apply same_ret]. }
  intros c4 y1 y2 Hy. now apply same_ret.
Qed.

Lemma same_hourly_loop cfg ev dts : forall b w1 w2,
  same_world E1 E2 py_rel np_rel w1 w2 ->
  same_result E1 E2 py_rel np_rel
    (hourly_loop R E1 cfg ev dts b w1) (hourly_loop R E2 cfg ev dts b w2).
Proof.
  induction dts as [|dt dts IH]; intros b w1 w2 Hw; simpl.
  - now apply same_ret.
  - apply same_bind; [now apply same_hour_contributions|]. intros h v1 v2 Hv.
    apply same_bind; [now apply same_lift|]. intros row u1 u2 Hu.
    apply same_bind; [now apply IH|]. intros logs x1 x2 Hx.
    now apply same_ret.
Qed.

Lemma same_generate_flare_data_with cfg year w1 w2 :
  same_world E1 E2 py_rel np_rel w1 w2 ->
  same_result E1 E2 py_rel np_rel
    (generate_flare_data_with R E1 cfg year w1)
    (generate_flare_data_with R E2 cfg year w2).
Proof.
  intros Hw. unfold generate_flare_data_with, generate_trace.
  apply same_bind; [|intros t v1 v2 Hv; now apply same_ret].
  apply same_bind; [now apply same_lift|]. intros start_date a1 a2 Ha.
  apply same_bind; [now apply same_lift|]. intros end_date b1 b2 Hb.
  apply same_bind; [now apply same_shutdown_dates|]. intros dates c1 c2 Hc.
  apply same_bind; [now apply same_schedule_shutdowns|]. intros ev d1 d2 Hd.
  apply same_bind; [now apply same_hourly_loop|]. intros logs e1 e2 He.
  now apply same_ret.
Qed.

End Reproducible.

Lemma scripted_idle_same_draws :
  same_draws Scripted Idle (fun s _ => s = ([], [])) (fun s _ => s = []).
Proof.
  split; try reflexivity.
  - intros a b s1 s2 ->. split; reflexivity.
  - intros s1 s2 ->. split; reflexivity.
  - intros s1 s2 ->. split; reflexivity.
Qed.



Lemma contiguous_window (start n : Z) :
  0 <= n -> contiguous_run start n (window start n).
Proof.
  intros Hn. split; [now apply window_length|].
  intros i Hi. apply window_nth.
  pose proof (window_length start n Hn). lia.
Qed.

Lemma windows_runs (draws : list (Z * Z)) :
  Forall (fun p => 0 <= snd p) draws ->
  exists runs,
    windows draws = List.concat runs /\
    Forall2 (fun p l => contiguous_run (fst p) (snd p) l) draws runs /\
    Forall2 (fun p l => forall t, In t l <-> fst p <= t < fst p + snd p) draws runs.
Proof.
  intros Hall. exists (map (fun p => window (fst p) (snd p)) draws).
  split; [reflexivity|].
  induction Hall as [|p draws Hp Hall IH]; simpl; split; constructor;
    try (apply IH).
  - now apply contiguous_window.
  - intros t. apply in_window.
Qed.

(** C10 (shutdown windows).  [shutdown_events] is the concatenation of
    four runs of hours, one per anchor (February 15, April 20, July 10,
    October 5), in that order.  For each anchor [random.randint(24, 72)]
    gives the duration and the next call [random.randint(0, 23)] the
    offset of the start; the run is exactly the [duration] consecutive
    hours from [anchor + offset].  With [randint] within its range each
    run starts 0 to 23 hours after its anchor, lasts 24 to 72 hours and
    ends at most 95 hours after the anchor, consecutive anchors are at
    least 1536 hours (64 days) apart, and the four runs are pairwise
    disjoint. *)
Theorem shutdown_windows_disjoint (R : Rounding) (E : Entropy) (year : Z)
  (w : World E) :
  valid_year year ->
  randint_in_range E ->
  exists shutdown_events logs w' runs,
    shutdown_dates E year w = Ok (anchors year, w) /\
    generate_trace R E FLARE_CAUSES year w = Ok ((shutdown_events, logs), w') /\
    shutdown_events = List.concat runs /\
    Forall2 (fun p l => contiguous_run (fst p) (snd p) l)
            (draw_windows E (anchors year) (py_state w)) runs /\
    Forall2 (fun a p => a <= fst p <= a + 23 /\ 24 <= snd p <= 72 /\
                        fst p + snd p <= a + 95)
            (anchors year) (draw_windows E (anchors year) (py_state w)) /\
    ForallOrdPairs (fun a b => a + 1536 <= b) (anchors year) /\
    ForallOrdPairs disjoint runs.
Proof.
  intros Hy Hr.
  destruct (generate_trace_drawn R E FLARE_CAUSES FLARE_CAUSES_stds_nonneg year w Hy)
    as (logs & w1 & w' & Htrace & _ & Hd & _).
  set (draws := draw_windows E (anchors year) (py_state w)) in *.
  pose proof (anchors_spacing year) as Hsp.
  assert (Hshape :
    Forall2 (fun a p => a <= fst p <= a + 23 /\ 24 <= snd p <= 72 /\
                        fst p + snd p <= a + 95) (anchors year) draws).
  { clear - Hd Hr. induction Hd as [|a p l l' (off & Hs & Hb) Hd IH]; constructor.
    - destruct (Hb Hr) as [Ho Hn]. unfold add_hours in Hs. lia.
    - exact IH. }
  assert (Hpos : Forall (fun p => 0 <= snd p) draws).
  { clear - Hshape. induction Hshape as [|a p l l' Hp Hs IH]; constructor;
      [lia | exact IH]. }
  destruct (windows_runs draws Hpos) as (runs & Hcat & Hruns & Hmem).
  exists (windows draws), logs, w', runs.
  split; [now apply shutdown_dates_ok|]. split; [exact Htrace|].
  split; [exact Hcat|]. split; [exact Hruns|]. split; [exact Hshape|].
  unfold anchors in *.
  set (a1 := 24 * ymd2ord year 2 15) in *.
  set (a2 := 24 * ymd2ord year 4 20) in *.
  set (a3 := 24 * ymd2ord year 7 10) in *.
  set (a4 := 24 * ymd2ord year 10 5) in *.
  destruct Hsp as (H12 & H23 & H34).
  split; [repeat constructor; lia|].
  clearbody draws.
  inversion Hshape as [|x1 p1 l1 r1 D1 Hs1]; subst.
  inversion Hs1 as [|x2 p2 l2 r2 D2 Hs2]; subst.
  inversion Hs2 as [|x3 p3 l3 r3 D3 Hs3]; subst.
  inversion Hs3 as [|x4 p4 l4 r4 D4 Hs4]; subst.
  inversion Hs4; subst.
  inversion Hmem as [|y1 q1 m1 n1 M1 Hm1]; subst.
  inversion Hm1 as [|y2 q2 m2 n2 M2 Hm2]; subst.
  inversion Hm2 as [|y3 q3 m3 n3 M3 Hm3]; subst.
  inversion Hm3 as [|y4 q4 m4 n4 M4 Hm4]; subst.
  inversion Hm4; subst.
  repeat constructor; intros t Ht Ht';
    first [apply M1 in Ht | apply M2 in Ht | apply M3 in Ht];
    first [apply M2 in Ht' | apply M3 in Ht' | apply M4 in Ht']; lia.
Qed.

Lemma shutdown_windows_disjoint_witness :
  valid_year 2024 /\ randint_in_range Scripted /\
  exists shutdown_events logs w' runs,
    shutdown_dates Scripted 2024 (scripted_world [72; 23; 24; 0] [] [])
      = Ok (anchors 2024, scripted_world [72; 23; 24; 0] [] []) /\
    generate_trace ExactRounding Scripted FLARE_CAUSES 2024
      (scripted_world [72; 23; 24; 0] [] [])
      = Ok ((shutdown_events, logs), w') /\
    shutdown_events = List.concat runs /\
    Forall2 (fun p l => contiguous_run (fst p) (snd p) l)
            (draw_windows Scripted (anchors 2024)
               (py_state (scripted_world [72; 23; 24; 0] [] []))) runs /\
    Forall2 (fun a p => a <= fst p <= a + 23 /\ 24 <= snd p <= 72 /\
                        fst p + snd p <= a + 95)
            (anchors 2024)
            (draw_windows Scripted (anchors 2024)
               (py_state (scripted_world [72; 23; 24; 0] [] []))) /\
    ForallOrdPairs (fun a b => a + 1536 <= b) (anchors 2024) /\
    ForallOrdPairs disjoint runs.
Proof.
  split; [|split].
  - unfold valid_year, MINYEAR, MAXYEAR. lia.
  - exact scripted_randint_in_range.
  - apply (shutdown_windows_disjoint ExactRounding Scripted 2024
             (scripted_world [72; 23; 24; 0] [] [])).
    + unfold valid_year, MINYEAR, MAXYEAR. lia.
    + exact scripted_randint_in_range.
Defined.

(** ** Reading one row of a concrete run *)

Lemma first_row_in {S : Type} (r : result (list Row * S)) (row : Row) :
  first_row r = Some row ->
  exists table s, r = Ok (table, s) /\ In row table.
Proof.
  destruct r as [[[|row0 table] s]|e]; simpl; try discriminate.
  intros H. injection H as <-. exists (row0 :: table), s. split; [reflexivity|].
  now left.
Qed.




(** ** [max] returns the first maximal item *)

Lemma first_max_snoc {A : Type} (key : A -> Q) (pre : list A) (i : nat) (b x : A) :
  first_max key pre i b ->
  exists i', first_max key (pre ++ [x]) i'
               (if Qltb (key b) (key x) then x else b).
Proof.
  intros (Hi & Hmax & Hbefore).
  assert (Hlt : (i < List.length pre)%nat) by (apply nth_error_Some; congruence).
  assert (Hsplit : forall j y,
             nth_error (pre ++ [x]) j = Some y ->
             ((j < List.length pre)%nat /\ nth_error pre j = Some y) \/
             (j = List.length pre /\ y = x)).
  { intros j y Hj.
    destruct (Nat.lt_ge_cases j (List.length pre)) as [Hl|Hg].
    - left. split; [exact Hl|]. now rewrite nth_error_app1 in Hj.
    - right. rewrite nth_error_app2 in Hj by exact Hg.
      destruct (j - List.length pre)%nat as [|n] eqn:Hd; simpl in Hj.
      + split; [lia | congruence].
      + destruct n; discriminate. }
  case_Qltb (key b) (key x).
  - exists (List.length pre). repeat split.
    + rewrite nth_error_app2 by lia. now rewrite Nat.sub_diag.
    + intros j y Hj. destruct (Hsplit j y Hj) as [[_ Hy]|[_ ->]]; [|lra].
      specialize (Hmax j y Hy). lra.
    + intros j y Hjl Hj. destruct (Hsplit j y Hj) as [[_ Hy]|[-> _]]; [|lia].
      specialize (Hmax j y Hy). lra.
  - exists i. repeat split.
    + now rewrite nth_error_app1.
    + intros j y Hj. destruct (Hsplit j y Hj) as [[_ Hy]|[_ ->]]; [|lra].
      now apply (Hmax j).
    + intros j y Hji Hj. destruct (Hsplit j y Hj) as [[_ Hy]|[-> _]]; [|lia].
      now apply (Hbefore j).
Qed.

Lemma max_from_first_max {A : Type} (key : A -> Q) (l : list A) :
  forall pre i b,
    first_max key pre i b ->
    exists i', first_max key (pre ++ l) i' (max_from key b l).
Proof.
  induction l as [|x l IH]; intros pre i b Hb; simpl.
  - exists i. now rewrite app_nil_r.
  - destruct (first_max_snoc key pre i b x Hb) as (i1 & H1).
    destruct (IH (pre ++ [x]) i1 _ H1) as (i' & H').
    exists i'. now rewrite <- app_assoc in H'.
Qed.

Lemma py_max_first_max {A : Type} (key : A -> Q) (l : list A) (r : A) :
  py_max key l = Ok r -> exists i, first_max key l i r.
Proof.
  destruct l as [|x l]; simpl; [discriminate|].
  intros H. injection H as <-.
  apply (max_from_first_max key l [x] 0%nat x).
  repeat split.
  - intros [|[|j]] y Hj; simpl in Hj; try discriminate.
    injection Hj as <-. lra.
  - intros j y Hj. lia.
Qed.

Lemma dict_nth (d : Contributions) (k : Cause) :
  dict_keys d = CAUSES ->
  nth_error d (cause_index k) = Some (k, dict_get d k).
Proof.
  intros Hk. rewrite (dict_of_keys d Hk) at 1. destruct k; reflexivity.
Qed.

Lemma dict_nth_inv (d : Contributions) (i : nat) (p : Cause * Q) :
  dict_keys d = CAUSES ->
  nth_error d i = Some p ->
  i = cause_index (fst p) /\ snd p = dict_get d (fst p).
Proof.
  intros Hk. rewrite (dict_of_keys d Hk) at 1.
  do 7 (destruct i as [|i];
        [simpl; intros H; injection H as <-; now split|]).
  simpl. destruct i; discriminate.
Qed.

(** C5, as stated, fails: the maximum is taken over the unrounded
    contributions.  In the run below the first hour has
    [normal_operations = 120.001] and [compressor_trip = 120.004]; both
    are exported as [120.00], the largest exported value, and
    [normal_operations] is first in declaration order, yet the dominant
    cause is [compressor_trip]. *)
Lemma dominant_cause_on_exported_counterexample :
  exists table w' row,
    generate_flare_data ExactRounding Scripted 2024
      (scripted_world [] [1 # 2; 1 # 2; 1 # 2; 0; 1 # 2]%Q
                      [0; 25001 # 7600; 1 # 7500]%Q)
      = Ok (table, w') /\
    In row table /\
    (forall c, (column row c <= column row normal_operations)%Q) /\
    dominant_cause row = compressor_trip.
Proof.
  edestruct (first_row_in
               (generate_flare_data ExactRounding Scripted 2024
                  (scripted_world [] [1 # 2; 1 # 2; 1 # 2; 0; 1 # 2]%Q
                                  [0; 25001 # 7600; 1 # 7500]%Q)))
    as (table & w' & Hrun & Hin).
  { vm_compute. reflexivity. }
  exists table, w'. eexists. split; [exact Hrun|]. split; [exact Hin|].
  split; [|reflexivity].
  intros c. apply Qle_bool_iff. destruct c; reflexivity.
Qed.

(** C5 (amended).  For every record, [dominant_cause] is the first cause
    in declaration order whose unrounded contribution is maximal: no
    contribution exceeds it and every cause declared earlier contributes
    strictly less.  After rounding, its exported column may be below
    another exported column, by at most 0.01, and among causes whose
    exported columns tie it need not be the first. *)
Theorem dominant_cause_first_max (R : Rounding) (E : Entropy) (year : Z)
  (w : World E) :
  valid_year year ->
  exists draws logs w',
    generate_trace R E FLARE_CAUSES year w = Ok ((windows draws, logs), w') /\
    generate_flare_data R E year w = Ok (map log_row logs, w') /\
    forall h,
      In h logs ->
      let contributions := log_contributions h in
      let dominant := dominant_cause (log_row h) in
      (forall c, (dict_get contributions c <= dict_get contributions dominant)%Q) /\
      (forall c, (cause_index c < cause_index dominant)%nat ->
                 (dict_get contributions c < dict_get contributions dominant)%Q) /\
      (forall c, (column (log_row h) c <= column (log_row h) dominant + (1 # 100))%Q).
Proof.
  intros Hy.
  destruct (generate_trace_spec R E FLARE_CAUSES FLARE_CAUSES_stds_nonneg year w Hy)
    as (draws & logs & w' & Htrace & Hgen & _ & _ & Htr).
  exists draws, logs, w'. split; [exact Htrace|]. split; [exact Hgen|].
  intros h Hh contributions dominant.
  destruct (trace_ok_each _ _ _ _ _ Htr Hh) as (b0 & Hok).
  pose proof (ok_keys _ _ _ _ Hok) as Hk. fold contributions in Hk.
  destruct (make_row_inv _ _ _ (ok_row _ _ _ _ Hok))
    as (_ & _ & _ & _ & d & Hmax & Hdom).
  destruct (row_rounded _ _ _ (ok_row _ _ _ _ Hok)) as (_ & Hcol & _).
  fold contributions in Hmax, Hcol. fold dominant in Hdom.
  destruct (py_max_first_max _ _ _ Hmax) as (i & Hi & Hall & Hbefore).
  destruct (dict_nth_inv _ _ _ Hk Hi) as (Hidx & Hval).
  rewrite <- Hdom in Hidx, Hval.
  assert (Hle : forall c,
             (dict_get contributions c <= dict_get contributions dominant)%Q).
  { intros c. rewrite <- Hval.
    apply (Hall (cause_index c) (c, dict_get contributions c)).
    now apply dict_nth. }
  split; [exact Hle|]. split.
  - intros c Hc. rewrite <- Hval.
    apply (Hbefore (cause_index c) (c, dict_get contributions c)).
    + lia.
    + now apply dict_nth.
  - intros c. destruct (Hcol c) as [[Hc _] _]. destruct (Hcol dominant) as [[_ Hd] _].
    specialize (Hle c). lra.
Qed.

Lemma dominant_cause_first_max_witness :
  valid_year 2024 /\
  exists draws logs w',
    generate_trace ExactRounding Scripted FLARE_CAUSES 2024
      (scripted_world [] [0; 0]%Q [0; 0; 4; 5]%Q)
      = Ok ((windows draws, logs), w') /\
    generate_flare_data ExactRounding Scripted 2024
      (scripted_world [] [0; 0]%Q [0; 0; 4; 5]%Q)
      = Ok (map log_row logs, w') /\
    forall h,
      In h logs ->
      let contributions := log_contributions h in
      let dominant := dominant_cause (log_row h) in
      (forall c, (dict_get contributions c <= dict_get contributions dominant)%Q) /\
      (forall c, (cause_index c < cause_index dominant)%nat ->
                 (dict_get contributions c < dict_get contributions dominant)%Q) /\
      (forall c, (column (log_row h) c <= column (log_row h) dominant + (1 # 100))%Q).
Proof.
  split.
  - unfold valid_year, MINYEAR, MAXYEAR. lia.
  - apply (dominant_cause_first_max ExactRounding Scripted 2024
             (scripted_world [] [0; 0]%Q [0; 0; 4; 5]%Q)).
    unfold valid_year, MINYEAR, MAXYEAR. lia.
Defined.

(** ** Rounding a sum against the sum of the roundings *)

Lemma fold_fadd_eq (xs : list Q) :
  forall a a', (a == a')%Q -> (fold_left fadd xs a == fold_left Qplus xs a')%Q.
Proof.
  induction xs as [|x xs IH]; simpl; intros a a' Ha; [exact Ha|].
  apply IH. rewrite fadd_eq. now rewrite Ha.
Qed.

Lemma py_sum_dict (d : Contributions) :
  dict_keys d = CAUSES -> (py_sum (dict_values d) == contributions_sum d)%Q.
Proof.
  intros Hk. unfold py_sum.
  rewrite (fold_fadd_eq _ 0%Q 0%Q) by reflexivity.
  rewrite (dict_of_keys d Hk) at 1.
  unfold dict_values, contributions_sum. simpl. lra.
Qed.

(** Six values (the seventh contribution being 0): the rounded total is
    within 0.03 of the sum of the rounded values, whichever roundings
    are used. *)
Lemma rounded_sum6 (v1 v2 v3 v4 v5 v6 t r1 r2 r3 r4 r5 r6 rt : Q) :
  (t == v1 + v2 + v3 + v4 + v5 + v6)%Q ->
  rounded t rt -> rounded v1 r1 -> rounded v2 r2 -> rounded v3 r3 ->
  rounded v4 r4 -> rounded v5 r5 -> rounded v6 r6 ->
  (- (3 # 100) <= rt - (r1 + r2 + r3 + r4 + r5 + r6) /\
   rt - (r1 + r2 + r3 + r4 + r5 + r6) <= 3 # 100)%Q.
Proof.
  intros Ht [Nt [nt Gt]] [N1 [n1 G1]] [N2 [n2 G2]] [N3 [n3 G3]] [N4 [n4 G4]]
    [N5 [n5 G5]] [N6 [n6 G6]].
  destruct (grid_diff (rt - (r1 + r2 + r3 + r4 + r5 + r6))
              (nt - (n1 + n2 + n3 + n4 + n5 + n6)) 3) as [Hlo Hhi].
  - unfold Z.sub. rewrite !inject_Z_plus, inject_Z_opp, !inject_Z_plus. lra.
  - change (inject_Z 3) with 3%Q. lra.
  - change (inject_Z 3) with 3%Q. lra.
  - change (inject_Z 3) with 3%Q in *. lra.
Qed.

(** The tolerance of one record, from the facts of its hour. *)
Lemma hour_tolerance {R : Rounding} cfg ev b (h : HourLog) :
  hour_ok R cfg ev b h ->
  (- (3 # 100)
   <= total_flare_rate_m3_per_hour (log_row h) - columns_sum (log_row h)
   /\ total_flare_rate_m3_per_hour (log_row h) - columns_sum (log_row h)
      <= 3 # 100)%Q.
Proof.
  intros Hok.
  pose proof (ok_keys _ _ _ _ Hok) as Hk.
  destruct (row_rounded _ _ _ (ok_row _ _ _ _ Hok)) as (Htot & Hcol & Hzero).
  pose proof (py_sum_dict _ Hk) as Hsum.
  unfold columns_sum.
  pose proof (Hcol normal_operations) as C1. pose proof (Hcol process_upset) as C2.
  pose proof (Hcol equipment_maintenance) as C3.
  pose proof (Hcol startup_shutdown) as C4. pose proof (Hcol emergency_relief) as C5.
  pose proof (Hcol compressor_trip) as C6. pose proof (Hcol instrument_failure) as C7.
  cbn [column] in C1, C2, C3, C4, C5, C6, C7.
  unfold contributions_sum in Hsum.
  destruct (log_is_shutdown h) eqn:Hsh.
  - (* shutdown hour: [process_upset] is 0 *)
    pose proof (ok_quiet _ _ _ _ Hok Hsh process_upset) as Hz.
    assert (Hz' := Hz ltac:(simpl; tauto)).
    pose proof (Hzero process_upset Hz') as Z0. cbn [column] in Z0.
    rewrite Hz' in Hsum. rewrite Z0.
    assert (Hsum' : (py_sum (dict_values (log_contributions h))
                     == dict_get (log_contributions h) normal_operations
                        + dict_get (log_contributions h) equipment_maintenance
                        + dict_get (log_contributions h) startup_shutdown
                        + dict_get (log_contributions h) emergency_relief
                        + dict_get (log_contributions h) compressor_trip
                        + dict_get (log_contributions h) instrument_failure)%Q)
      by lra.
    pose proof (rounded_sum6 _ _ _ _ _ _ _ _ _ _ _ _ _ _ Hsum' Htot C1 C3 C4 C5 C6 C7).
    lra.
  - (* ordinary hour: [startup_shutdown] is 0 *)
    pose proof (ok_unscheduled _ _ _ _ Hok Hsh) as Hz.
    pose proof (Hzero startup_shutdown Hz) as Z0. cbn [column] in Z0.
    rewrite Hz in Hsum. rewrite Z0.
    assert (Hsum' : (py_sum (dict_values (log_contributions h))
                     == dict_get (log_contributions h) normal_operations
                        + dict_get (log_contributions h) process_upset
                        + dict_get (log_contributions h) equipment_maintenance
                        + dict_get (log_contributions h) emergency_relief
                        + dict_get (log_contributions h) compressor_trip
                        + dict_get (log_contributions h) instrument_failure)%Q)
      by lra.
    pose proof (rounded_sum6 _ _ _ _ _ _ _ _ _ _ _ _ _ _ Hsum' Htot C1 C2 C3 C5 C6 C7).
    lra.
Qed.




(** ** Configuration *)

Lemma overdriven_stds_nonneg : stds_nonneg overdriven_config.
Proof.
  split; [|split].
  - simpl. lra.
  - simpl. lra.
  - intros c e Hin He. simpl in Hin.
    destruct Hin as [<-|[<-|[<-|[<-|[<-|[]]]]]];
      simpl in He; injection He as <-; simpl; lra.
Qed.

Lemma bind_raise (E : Entropy) {A B : Type} (m : M E A) (k : A -> M E B) w e :
  m w = Raise e -> bind m k w = Raise e.
Proof. unfold bind. now intros ->. Qed.

Lemma window_cons (start n : Z) :
  0 < n -> exists rest, window start n = add_hours start 0 :: rest.
Proof.
  intros Hn. unfold window, py_range.
  destruct (Z.to_nat n) as [|k] eqn:Hk; [lia|].
  simpl. eauto.
Qed.

Lemma trace_length {R : Rounding} (cfg : Config) (year : Z) draws logs :
  map log_dt logs = window (24 * ymd2ord year 1 1 + 0) (hours_in_year year) ->
  trace_ok R cfg (windows draws) 100%Q logs ->
  Z.of_nat (List.length (map log_row logs)) = hours_in_year year.
Proof.
  intros Hdt _. rewrite length_map, <- (length_map log_dt), Hdt.
  apply window_length. pose proof (hours_in_year_pos year). lia.
Qed.

(** C9, as stated, fails: nothing inspects the cause table before the
    loop.  With the probability of [process_upset] set to 1.5 the pass
    raises no error and returns a full table. *)
Lemma config_validation_counterexample :
  invalid_config overdriven_config /\
  exists table w',
    generate_flare_data_with ExactRounding Scripted overdriven_config 2024
      (scripted_world [] [] []) = Ok (table, w') /\
    Z.of_nat (List.length table) = 8784.
Proof.
  split.
  - right. exists process_upset, (cfg_process_upset overdriven_config).
    split; [reflexivity|]. right. right. simpl. lra.
  - destruct (generate_trace_spec ExactRounding Scripted overdriven_config
                overdriven_stds_nonneg
                2024 (scripted_world [] [] []) valid_year_2024)
      as (draws & logs & w' & _ & Hgen & _ & Hdt & Htr).
    exists (map log_row logs), w'. split; [exact Hgen|].
    exact (trace_length _ 2024 _ _ Hdt Htr).
Qed.

(** A negative [normal_operations] standard deviation is refused by
    the Gaussian source itself, when the first hour of the loop draws
    with it. *)
Lemma negative_std_refused_in_loop (R : Rounding) (E : Entropy) (cfg : Config) (year : Z)
  (w : World E) :
  valid_year year ->
  (normal_std (cfg_normal_operations cfg) < 0)%Q ->
  generate_flare_data_with R E cfg year w = Raise (ValueError "scale < 0").
Proof.
  intros Hy Hneg.
  unfold generate_flare_data_with. apply bind_raise.
  unfold generate_trace.
  unfold bind at 1. unfold lift at 1.
  rewrite (datetime_new_ok year 1 1 0 Hy) by reflexivity.
  unfold bind at 1. unfold lift at 1.
  rewrite (datetime_new_ok year 12 31 23 Hy) by reflexivity.
  rewrite (bind_ok E _ _ _ _ _ (shutdown_dates_ok E year w Hy)).
  destruct (schedule_shutdowns_spec E (anchors year) [] w) as (draws & w1 & Hs & _).
  rewrite (bind_ok E _ _ _ _ _ Hs).
  apply bind_raise.
  rewrite date_range_year.
  destruct (window_cons (24 * ymd2ord year 1 1 + 0) (hours_in_year year)
              (hours_in_year_pos year)) as (rest & ->).
  simpl hourly_loop. apply bind_raise.
  unfold hour_contributions.
  destruct (np_random_normal_ok E 0 (1 # 2) w1 ltac:(lra)) as (step & w2 & H1).
  rewrite (bind_ok E _ _ _ _ _ H1).
  apply bind_raise. now apply np_random_normal_refuses.
Qed.

(** C9 (amended).  [generate_flare_data] does not validate the cause
    table: whatever the probabilities, inside [0, 1] or not, a table
    whose standard deviations are all non-negative is accepted, no
    configuration error is raised, and the pass returns the full year
    of records. *)
Theorem config_not_validated (R : Rounding) (E : Entropy) (cfg : Config)
  (year : Z) (w : World E) :
  valid_year year ->
  stds_nonneg cfg ->
  exists table w',
    generate_flare_data_with R E cfg year w = Ok (table, w') /\
    Z.of_nat (List.length table) = hours_in_year year.
Proof.
  intros Hy Hstd.
  destruct (generate_trace_spec R E cfg Hstd year w Hy)
    as (draws & logs & w' & _ & Hgen & _ & Hdt & Htr).
  exists (map log_row logs), w'. split; [exact Hgen|].
  exact (trace_length _ year _ _ Hdt Htr).
Qed.

Lemma config_not_validated_witness :
  valid_year 2024 /\ stds_nonneg overdriven_config /\
  exists table w',
    generate_flare_data_with ExactRounding Scripted overdriven_config 2024
      (scripted_world [] [] []) = Ok (table, w') /\
    Z.of_nat (List.length table) = hours_in_year 2024.
Proof.
  split; [|split].
  - unfold valid_year, MINYEAR, MAXYEAR. lia.
  - exact overdriven_stds_nonneg.
  - apply (config_not_validated ExactRounding Scripted overdriven_config 2024
             (scripted_world [] [] [])).
    + unfold valid_year, MINYEAR, MAXYEAR. lia.
    + exact overdriven_stds_nonneg.
Defined.


(* ================================================================== *)
(** * Further properties of the pass *)

(** ** Non-negative contributions *)

Lemma all_nonneg_set (d : Contributions) (k : Cause) (v : Q) :
  all_nonneg d -> (0 <= v)%Q -> all_nonneg (dict_set d k v).
Proof.
  intros Hd Hv k0. destruct (Cause_eqb_spec k k0) as [<-|Hne].
  - now rewrite dict_get_set_same.
  - rewrite dict_get_set_other by exact Hne. apply Hd.
Qed.

Lemma all_nonneg_scale (d : Contributions) (k : Cause) (f : Q) :
  all_nonneg d -> (0 <= f)%Q -> all_nonneg (dict_scale d k f).
Proof.
  intros Hd Hf. apply all_nonneg_set; [exact Hd|].
  rewrite fmul_eq. apply Qmult_le_0_compat; [apply Hd | exact Hf].
Qed.

Lemma all_nonneg_initial : all_nonneg initial_contributions.
Proof. intros k. destruct k; simpl; apply Qle_refl. Qed.

Lemma inject_causes_nonneg (E : Entropy) (cfg : Config) causes :
  forall c (w : World E) c' w',
    inject_causes E cfg causes c w = Ok (c', w') ->
    all_nonneg c -> all_nonneg c'.
Proof.
  induction causes as [|cause rest IH]; simpl; intros c w c' w' H Hc.
  - apply ret_inv in H as [-> _]. exact Hc.
  - inv_bind H as c1 w1 Hone. apply (IH c1 w1 c' w' H).
    unfold inject_cause in Hone.
    inv_bind Hone as u w2 Hu. inv_bind Hone as e w3 He.
    destruct (Qltb u (probability e)).
    + inv_bind Hone as rate w4 Hrate. apply ret_inv in Hone as [-> _].
      apply all_nonneg_set; [exact Hc | apply max0_nonneg].
    + apply ret_inv in Hone as [-> _]. exact Hc.
Qed.

Lemma hour_contributions_nonneg (E : Entropy) (cfg : Config) ev b dt
  (w : World E) b' sh c w' :
  hour_contributions E cfg ev b dt w = Ok ((b', sh, c), w') -> all_nonneg c.
Proof.
  intros H. unfold hour_contributions in H.
  inv_bind H as step w1 Hstep. inv_bind H as noise w2 Hnoise.
  match type of H with
  | bind (if _ then _ else ret ?c2) _ _ = _ =>
      assert (H2 : all_nonneg c2)
  end.
  { assert (H0 : all_nonneg
                   (dict_set initial_contributions normal_operations
                      (max0 (fadd (np_clip (fadd b step) 80 120) noise))))
      by (apply all_nonneg_set; [apply all_nonneg_initial | apply max0_nonneg]).
    destruct ((6 <=? dt_month dt) && (dt_month dt <=? 8));
      destruct ((0 <=? dt_hour dt) && (dt_hour dt <? 6));
      try destruct ((8 <=? dt_hour dt) && (dt_hour dt <? 16));
      repeat (apply all_nonneg_scale; [|unfold Qle; simpl; lia]);
      exact H0. }
  inv_bind H as c3 w3 Hsched. inv_bind H as c4 w4 Hprob.
  apply ret_inv in H as [H _]. injection H as _ _ <-.
  assert (H3 : all_nonneg c3).
  { destruct (dt_in dt ev).
    - inv_bind Hsched as rate w5 Hrate. apply ret_inv in Hsched as [-> _].
      apply all_nonneg_set; [exact H2 | apply max0_nonneg].
    - apply ret_inv in Hsched as [-> _]. exact H2. }
  destruct (negb (dt_in dt ev)).
  - exact (inject_causes_nonneg E cfg _ _ _ _ _ Hprob H3).
  - apply ret_inv in Hprob as [-> _]. exact H3.
Qed.

Lemma contributions_sum_nonneg (d : Contributions) :
  all_nonneg d -> (0 <= contributions_sum d)%Q.
Proof.
  intros Hd. unfold contributions_sum.
  pose proof (Hd normal_operations). pose proof (Hd process_upset).
  pose proof (Hd equipment_maintenance). pose proof (Hd startup_shutdown).
  pose proof (Hd emergency_relief). pose proof (Hd compressor_trip).
  pose proof (Hd instrument_failure). lra.
Qed.

(** X1 (non-negativity).  In every record, no contribution is
    negative, neither in the dict of the hour nor in the exported
    columns, and the exported total is not negative either. *)
Theorem contributions_nonnegative (R : Rounding) (E : Entropy)
  (year : Z) (w : World E) :
  valid_year year ->
  exists draws logs w',
    generate_trace R E FLARE_CAUSES year w = Ok ((windows draws, logs), w') /\
    generate_flare_data R E year w = Ok (map log_row logs, w') /\
    forall h,
      In h logs ->
      (forall c, (0 <= dict_get (log_contributions h) c)%Q /\
                 (0 <= column (log_row h) c)%Q) /\
      (0 <= total_flare_rate_m3_per_hour (log_row h))%Q.
Proof.
  intros Hy.
  destruct (generate_trace_runs R E FLARE_CAUSES FLARE_CAUSES_stds_nonneg year w Hy)
    as (draws & logs & w1 & w' & Htrace & Hgen & _ & _ & Htr & _ & Hloop).
  exists draws, logs, w'. split; [exact Htrace|]. split; [exact Hgen|].
  assert (Hall : Forall (fun h => all_nonneg (log_contributions h)) logs).
  { apply (hourly_loop_each R E FLARE_CAUSES (windows draws)
             (fun h => all_nonneg (log_contributions h))) in Hloop; [exact Hloop|].
    intros b dt w0 b' sh c w2 row Hh _. simpl.
    exact (hour_contributions_nonneg E _ _ _ _ _ _ _ _ _ Hh). }
  intros h Hh. rewrite Forall_forall in Hall. specialize (Hall h Hh).
  destruct (trace_ok_each _ _ _ _ _ Htr Hh) as (b0 & Hok).
  destruct (make_row_inv _ _ _ (ok_row _ _ _ _ Hok)) as (_ & Htot & _ & Hcol & _).
  split.
  - intros c. split; [apply Hall|]. rewrite Hcol. apply py_round_nonneg, Hall.
  - rewrite Htot. apply py_round_nonneg.
    rewrite (py_sum_dict _ (ok_keys _ _ _ _ Hok)).
    now apply contributions_sum_nonneg.
Qed.

Lemma contributions_nonnegative_witness :
  valid_year 2024 /\
  exists draws logs w',
    generate_trace ExactRounding Scripted FLARE_CAUSES 2024
      (scripted_world [] [0; 0]%Q [0; -20; -9]%Q)
      = Ok ((windows draws, logs), w') /\
    generate_flare_data ExactRounding Scripted 2024
      (scripted_world [] [0; 0]%Q [0; -20; -9]%Q)
      = Ok (map log_row logs, w') /\
    forall h,
      In h logs ->
      (forall c, (0 <= dict_get (log_contributions h) c)%Q /\
                 (0 <= column (log_row h) c)%Q) /\
      (0 <= total_flare_rate_m3_per_hour (log_row h))%Q.
Proof.
  split.
  - unfold valid_year, MINYEAR, MAXYEAR. lia.
  - apply (contributions_nonnegative ExactRounding Scripted 2024
             (scripted_world [] [0; 0]%Q [0; -20; -9]%Q)).
    unfold valid_year, MINYEAR, MAXYEAR. lia.
Defined.

(** ** Calendar columns *)

Lemma make_row_calendar {R : Rounding} (dt : datetime) (c : Contributions) (row : Row) :
  make_row R dt c = Ok row ->
  hour row = dt_hour dt /\
  day_of_week row = strftime_A dt /\
  month row = strftime_B dt.
Proof.
  unfold make_row. destruct (py_max snd c) as [d|e]; [|discriminate].
  intros H. injection H as <-. simpl. auto.
Qed.

(** The record at position [k] of the table and the hour it logs. *)
Lemma table_row_at {R : Rounding} cfg ev b (logs : list HourLog) (start n : Z)
  (k : nat) (row : Row) :
  map log_dt logs = window start n ->
  trace_ok R cfg ev b logs ->
  nth_error (map log_row logs) k = Some row ->
  exists h,
    In h logs /\ log_row h = row /\ log_dt h = start + Z.of_nat k /\
    Z.of_nat k < n.
Proof.
  intros Hdt Htr Hk. rewrite nth_error_map in Hk.
  destruct (nth_error logs k) as [h|] eqn:Hh; [|discriminate].
  injection Hk as <-. exists h.
  split; [now apply nth_error_In with k|]. split; [reflexivity|].
  assert (Hlt : (k < List.length logs)%nat) by (apply nth_error_Some; congruence).
  assert (Hn : (List.length logs = Z.to_nat n)%nat).
  { rewrite <- (length_map log_dt), Hdt. unfold window, py_range.
    now rewrite !length_map, length_seq. }
  assert (Hkn : Z.of_nat k < n) by lia.
  split; [|exact Hkn].
  pose proof (map_nth_error log_dt _ _ Hh) as Hm.
  rewrite Hdt, window_nth in Hm by exact Hkn. now injection Hm as <-.
Qed.

Lemma hour_of_offset (o k : Z) : 0 <= k -> dt_hour (24 * o + 0 + k) = k mod 24.
Proof.
  intros Hk. unfold dt_hour. Z.div_mod_to_equations. lia.
Qed.

Lemma weekday_of_offset (o k : Z) :
  0 <= k -> weekday (24 * o + 0 + k) = (o + k / 24 + 6) mod 7.
Proof.
  intros Hk. unfold weekday, toordinal. f_equal. f_equal.
  Z.div_mod_to_equations. lia.
Qed.

Lemma strftime_A_inj (t1 t2 : datetime) :
  strftime_A t1 = strftime_A t2 <-> weekday t1 = weekday t2.
Proof.
  unfold strftime_A.
  assert (H1 : 0 <= weekday t1 < 7) by (unfold weekday; apply Z.mod_pos_bound; lia).
  assert (H2 : 0 <= weekday t2 < 7) by (unfold weekday; apply Z.mod_pos_bound; lia).
  assert (C1 : weekday t1 = 0 \/ weekday t1 = 1 \/ weekday t1 = 2 \/ weekday t1 = 3
               \/ weekday t1 = 4 \/ weekday t1 = 5 \/ weekday t1 = 6) by lia.
  assert (C2 : weekday t2 = 0 \/ weekday t2 = 1 \/ weekday t2 = 2 \/ weekday t2 = 3
               \/ weekday t2 = 4 \/ weekday t2 = 5 \/ weekday t2 = 6) by lia.
  destruct C1 as [->|[->|[->|[->|[->|[->| ->]]]]]];
    destruct C2 as [->|[->|[->|[->|[->|[->| ->]]]]]];
    split; intros H; try reflexivity; try discriminate H.
Qed.

(** X3 (hour column).  The record at position [k] of the table carries
    [hour = k mod 24]: the table starts at midnight and the column runs
    through 0..23 day after day. *)
Theorem hour_column_cycles (R : Rounding) (E : Entropy)
  (year : Z) (w : World E) :
  valid_year year ->
  exists table w',
    generate_flare_data R E year w = Ok (table, w') /\
    forall k row,
      nth_error table k = Some row ->
      hour row = Z.of_nat k mod 24 /\ 0 <= hour row <= 23.
Proof.
  intros Hy.
  destruct (generate_trace_runs R E FLARE_CAUSES FLARE_CAUSES_stds_nonneg year w Hy)
    as (draws & logs & w1 & w' & _ & Hgen & _ & Hdt & Htr & _).
  exists (map log_row logs), w'. split; [exact Hgen|].
  intros k row Hk.
  destruct (table_row_at _ _ _ _ _ _ _ _ Hdt Htr Hk) as (h & Hh & <- & Hat & _).
  destruct (trace_ok_each _ _ _ _ _ Htr Hh) as (b0 & Hok).
  destruct (make_row_calendar _ _ _ (ok_row _ _ _ _ Hok)) as (-> & _).
  rewrite Hat, hour_of_offset by lia.
  split; [reflexivity|].
  pose proof (Z.mod_pos_bound (Z.of_nat k) 24). lia.
Qed.

Lemma hour_column_cycles_witness :
  valid_year 2023 /\
  exists table w',
    generate_flare_data ExactRounding Scripted 2023
        (scripted_world [] [] []) = Ok (table, w') /\
    forall k row,
      nth_error table k = Some row ->
      hour row = Z.of_nat k mod 24 /\ 0 <= hour row <= 23.
Proof.
  split.
  - unfold valid_year, MINYEAR, MAXYEAR. lia.
  - apply (hour_column_cycles ExactRounding Scripted 2023 (scripted_world [] [] [])).
    unfold valid_year, MINYEAR, MAXYEAR. lia.
Defined.

(** X4 (day of week).  Two records of the table carry the same
    [day_of_week] exactly when their day numbers ([position / 24]) differ
    by a multiple of 7: the name is constant within a day and advances
    through the seven names from one day to the next. *)
Theorem day_of_week_cycles (R : Rounding) (E : Entropy)
  (year : Z) (w : World E) :
  valid_year year ->
  exists table w',
    generate_flare_data R E year w = Ok (table, w') /\
    forall k j rk rj,
      nth_error table k = Some rk ->
      nth_error table j = Some rj ->
      (day_of_week rk = day_of_week rj <->
       (Z.of_nat k / 24 - Z.of_nat j / 24) mod 7 = 0).
Proof.
  intros Hy.
  destruct (generate_trace_runs R E FLARE_CAUSES FLARE_CAUSES_stds_nonneg year w Hy)
    as (draws & logs & w1 & w' & _ & Hgen & _ & Hdt & Htr & _).
  exists (map log_row logs), w'. split; [exact Hgen|].
  intros k j rk rj Hk Hj.
  destruct (table_row_at _ _ _ _ _ _ _ _ Hdt Htr Hk) as (hk & Hhk & <- & Hatk & _).
  destruct (table_row_at _ _ _ _ _ _ _ _ Hdt Htr Hj) as (hj & Hhj & <- & Hatj & _).
  destruct (trace_ok_each _ _ _ _ _ Htr Hhk) as (bk & Hokk).
  destruct (trace_ok_each _ _ _ _ _ Htr Hhj) as (bj & Hokj).
  destruct (make_row_calendar _ _ _ (ok_row _ _ _ _ Hokk)) as (_ & -> & _).
  destruct (make_row_calendar _ _ _ (ok_row _ _ _ _ Hokj)) as (_ & -> & _).
  rewrite strftime_A_inj, Hatk, Hatj, !weekday_of_offset by lia.
  Z.div_mod_to_equations. lia.
Qed.

Lemma day_of_week_cycles_witness :
  valid_year 2024 /\
  exists table w',
    generate_flare_data ExactRounding Scripted 2024
        (scripted_world [] [] []) = Ok (table, w') /\
    forall k j rk rj,
      nth_error table k = Some rk ->
      nth_error table j = Some rj ->
      (day_of_week rk = day_of_week rj <->
       (Z.of_nat k / 24 - Z.of_nat j / 24) mod 7 = 0).
Proof.
  split.
  - unfold valid_year, MINYEAR, MAXYEAR. lia.
  - apply (day_of_week_cycles ExactRounding Scripted 2024 (scripted_world [] [] [])).
    unfold valid_year, MINYEAR, MAXYEAR. lia.
Defined.

(** ** The shutdown schedule inside the year *)

Lemma NoDup_map_inj {A B : Type} (f : A -> B) (l : list A) :
  (forall x y, f x = f y -> x = y) -> NoDup l -> NoDup (map f l).
Proof.
  intros Hinj. induction 1 as [|x l Hx Hl IH]; simpl; constructor; [|exact IH].
  rewrite in_map_iff. intros (y & Heq & Hy). apply Hinj in Heq. now subst.
Qed.

Lemma window_NoDup (start n : Z) : NoDup (window start n).
Proof.
  unfold window, py_range. rewrite map_map.
  apply NoDup_map_inj; [|apply seq_NoDup].
  intros i j Hij. unfold add_hours in Hij. lia.
Qed.

Lemma anchors_in_year (year : Z) :
  let start := 24 * ymd2ord year 1 1 + 0 in
  let leap := if is_leap year then 24 else 0 in
  anchors year =
    [start + 1080; start + 2616 + leap; start + 4560 + leap; start + 6648 + leap] /\
  hours_in_year year = 8760 + leap.
Proof.
  unfold anchors, ymd2ord, days_before_month, hours_in_year.
  destruct (is_leap year); cbn -[Z.mul Z.add Z.sub days_before_year];
    (split; [|lia]);
    (f_equal; [lia | f_equal; [lia | f_equal; [lia | f_equal; lia]]]).
Qed.

(** The four drawn windows, once [randint] keeps to its range. *)
Lemma draws_shape (E : Entropy) (year : Z) (draws : list (Z * Z)) :
  randint_in_range E ->
  Forall2 (drawn E) (anchors year) draws ->
  let start := 24 * ymd2ord year 1 1 + 0 in
  let leap := if is_leap year then 24 else 0 in
  exists s1 n1 s2 n2 s3 n3 s4 n4,
    draws = [(s1, n1); (s2, n2); (s3, n3); (s4, n4)] /\
    (24 <= n1 <= 72 /\ 24 <= n2 <= 72 /\ 24 <= n3 <= 72 /\ 24 <= n4 <= 72) /\
    start + 1080 <= s1 <= start + 1103 /\
    start + 2616 + leap <= s2 <= start + 2639 + leap /\
    start + 4560 + leap <= s3 <= start + 4583 + leap /\
    start + 6648 + leap <= s4 <= start + 6671 + leap.
Proof.
  intros Hr Hd start leap.
  destruct (anchors_in_year year) as [Ha _]. fold start leap in Ha.
  rewrite Ha in Hd. clear Ha.
  inversion Hd as [|x1 p1 l1 r1 D1 Hd1]; subst.
  inversion Hd1 as [|x2 p2 l2 r2 D2 Hd2]; subst.
  inversion Hd2 as [|x3 p3 l3 r3 D3 Hd3]; subst.
  inversion Hd3 as [|x4 p4 l4 r4 D4 Hd4]; subst.
  inversion Hd4; subst.
  destruct D1 as (o1 & Hs1 & Hb1). destruct (Hb1 Hr) as [Ho1 Hn1].
  destruct D2 as (o2 & Hs2 & Hb2). destruct (Hb2 Hr) as [Ho2 Hn2].
  destruct D3 as (o3 & Hs3 & Hb3). destruct (Hb3 Hr) as [Ho3 Hn3].
  destruct D4 as (o4 & Hs4 & Hb4). destruct (Hb4 Hr) as [Ho4 Hn4].
  unfold add_hours in Hs1, Hs2, Hs3, Hs4.
  destruct p1 as [s1 n1], p2 as [s2 n2], p3 as [s3 n3], p4 as [s4 n4].
  simpl in *.
  exists s1, n1, s2, n2, s3, n3, s4, n4.
  split; [reflexivity|]. lia.
Qed.

Lemma schedule_facts (E : Entropy) (year : Z) (draws : list (Z * Z)) :
  randint_in_range E ->
  Forall2 (drawn E) (anchors year) draws ->
  let start := 24 * ymd2ord year 1 1 + 0 in
  NoDup (windows draws) /\
  Z.of_nat (List.length (windows draws)) = total_duration draws /\
  96 <= total_duration draws <= 288 /\
  (forall t, In t (windows draws) ->
             start + 1080 <= t < start + hours_in_year year - 1993).
Proof.
  intros Hr Hd start.
  destruct (draws_shape E year draws Hr Hd)
    as (s1 & n1 & s2 & n2 & s3 & n3 & s4 & n4 & -> & Hn & H1 & H2 & H3 & H4).
  fold start in H1, H2, H3, H4.
  destruct (anchors_in_year year) as [_ HN]. rewrite HN.
  set (leap := if is_leap year then 24 else 0) in *.
  assert (Hleap : 0 <= leap <= 24) by (unfold leap; destruct (is_leap year); lia).
  unfold windows, total_duration. cbn -[Z.add Z.sub window]. rewrite app_nil_r.
  split; [|split; [|split]].
  - repeat (apply NoDup_app; [apply window_NoDup| |
             intros t Ht Hin; rewrite ?in_app_iff in Hin;
             rewrite !in_window in *; lia]).
    apply window_NoDup.
  - rewrite !length_app, !Nat2Z.inj_add.
    rewrite (window_length s1 n1), (window_length s2 n2),
      (window_length s3 n3), (window_length s4 n4); lia.
  - lia.
  - intros t Ht. rewrite !in_app_iff, !in_window in Ht. lia.
Qed.

Lemma shutdown_flags {R : Rounding} cfg ev b (logs : list HourLog) :
  trace_ok R cfg ev b logs ->
  map log_dt (filter log_is_shutdown logs)
  = filter (fun t => dt_in t ev) (map log_dt logs).
Proof.
  induction 1 as [|b h logs Hh Ht IH]; simpl; [reflexivity|].
  rewrite <- (ok_shutdown _ _ _ _ Hh).
  destruct (log_is_shutdown h); simpl; now rewrite IH.
Qed.

(** The hours logged in shutdown mode are, up to order, the hours of
    [shutdown_events]. *)
Lemma shutdown_hours_count {R : Rounding} (E : Entropy) cfg (year : Z) draws logs :
  randint_in_range E ->
  Forall2 (drawn E) (anchors year) draws ->
  map log_dt logs = window (24 * ymd2ord year 1 1 + 0) (hours_in_year year) ->
  trace_ok R cfg (windows draws) 100%Q logs ->
  shutdown_hours logs = total_duration draws.
Proof.
  intros Hr Hd Hdt Htr.
  destruct (schedule_facts E year draws Hr Hd) as (Hnd & Hlen & _ & Hin).
  unfold shutdown_hours. rewrite <- Hlen. f_equal.
  rewrite <- (length_map log_dt), (shutdown_flags _ _ _ _ Htr), Hdt.
  apply Nat.le_antisymm; apply NoDup_incl_length.
  - apply NoDup_filter, window_NoDup.
  - intros t Ht. apply filter_In in Ht as [_ Ht]. now apply dt_in_iff.
  - exact Hnd.
  - intros t Ht. apply filter_In. split; [|now apply dt_in_iff].
    apply in_window. specialize (Hin t Ht). lia.
Qed.

(** X5 (scheduled hours are generated).  With [randint] within its
    range, every hour of [shutdown_events] lies inside the year, between
    February 15 00:00 and 1993 hours before the end of the year, and is
    the hour of a record generated in shutdown mode. *)
Theorem shutdown_events_inside_year (R : Rounding) (E : Entropy)
  (year : Z) (w : World E) :
  valid_year year ->
  randint_in_range E ->
  exists draws logs w' start_date,
    generate_trace R E FLARE_CAUSES year w = Ok ((windows draws, logs), w') /\
    datetime_new year 1 1 0 = Ok start_date /\
    forall t,
      In t (windows draws) ->
      add_hours start_date 1080 <= t < add_hours start_date (hours_in_year year - 1993) /\
      exists h, In h logs /\ timestamp (log_row h) = t /\ log_is_shutdown h = true.
Proof.
  intros Hy Hr.
  destruct (generate_trace_runs R E FLARE_CAUSES FLARE_CAUSES_stds_nonneg year w Hy)
    as (draws & logs & w1 & w' & Htrace & _ & Hd & Hdt & Htr & _).
  exists draws, logs, w', (24 * ymd2ord year 1 1 + 0).
  split; [exact Htrace|]. split; [now apply datetime_new_ok|].
  destruct (schedule_facts E year draws Hr Hd) as (_ & _ & _ & Hin).
  intros t Ht. specialize (Hin t Ht). unfold add_hours.
  split; [lia|].
  assert (Hw : In t (map log_dt logs)) by (rewrite Hdt; apply in_window; lia).
  apply in_map_iff in Hw as (h & <- & Hh).
  exists h. split; [exact Hh|].
  destruct (trace_ok_each _ _ _ _ _ Htr Hh) as (b0 & Hok).
  destruct (make_row_inv _ _ _ (ok_row _ _ _ _ Hok)) as (-> & _).
  split; [reflexivity|].
  rewrite (ok_shutdown _ _ _ _ Hok). now apply dt_in_iff.
Qed.

Lemma shutdown_events_inside_year_witness :
  valid_year 2024 /\ randint_in_range Scripted /\
  exists draws logs w' start_date,
    generate_trace ExactRounding Scripted FLARE_CAUSES 2024
        (scripted_world [72; 23] [] [])
      = Ok ((windows draws, logs), w') /\
    datetime_new 2024 1 1 0 = Ok start_date /\
    forall t,
      In t (windows draws) ->
      add_hours start_date 1080 <= t < add_hours start_date (hours_in_year 2024 - 1993) /\
      exists h, In h logs /\ timestamp (log_row h) = t /\ log_is_shutdown h = true.
Proof.
  split; [|split].
  - unfold valid_year, MINYEAR, MAXYEAR. lia.
  - exact scripted_randint_in_range.
  - apply (shutdown_events_inside_year ExactRounding Scripted 2024
      (scripted_world [72; 23] [] [])).
    + unfold valid_year, MINYEAR, MAXYEAR. lia.
    + exact scripted_randint_in_range.
Defined.

(** X6 (hours in shutdown mode).  With [randint] within its range, the
    number of records generated in shutdown mode is the sum of the four
    durations [random.randint(24, 72)] handed out, one per anchor, hence
    between 96 and 288, and [shutdown_events] lists each of these hours
    once. *)
Theorem shutdown_hours_total (R : Rounding) (E : Entropy)
  (year : Z) (w : World E) :
  valid_year year ->
  randint_in_range E ->
  exists shutdown_events logs w',
    generate_trace R E FLARE_CAUSES year w = Ok ((shutdown_events, logs), w') /\
    List.length (draw_windows E (anchors year) (py_state w)) = 4%nat /\
    NoDup shutdown_events /\
    shutdown_hours logs
    = total_duration (draw_windows E (anchors year) (py_state w)) /\
    shutdown_hours logs = Z.of_nat (List.length shutdown_events) /\
    96 <= shutdown_hours logs <= 288.
Proof.
  intros Hy Hr.
  destruct (generate_trace_drawn R E FLARE_CAUSES FLARE_CAUSES_stds_nonneg year w Hy)
    as (logs & w1 & w' & Htrace & _ & Hd & Hdt & Htr & _).
  set (draws := draw_windows E (anchors year) (py_state w)) in *.
  exists (windows draws), logs, w'. split; [exact Htrace|].
  destruct (schedule_facts E year draws Hr Hd) as (Hnd & Hlen & Hb & _).
  pose proof (shutdown_hours_count E _ year draws logs Hr Hd Hdt Htr) as Hc.
  split; [symmetry; exact (Forall2_length Hd)|].
  split; [exact Hnd|]. split; [exact Hc|]. split; lia.
Qed.

Lemma shutdown_hours_total_witness :
  valid_year 2023 /\ randint_in_range Scripted /\
  exists shutdown_events logs w',
    generate_trace ExactRounding Scripted FLARE_CAUSES 2023
      (scripted_world [24; 0; 72; 23] [] [])
      = Ok ((shutdown_events, logs), w') /\
    List.length (draw_windows Scripted (anchors 2023)
                   (py_state (scripted_world [24; 0; 72; 23] [] []))) = 4%nat /\
    NoDup shutdown_events /\
    shutdown_hours logs
    = total_duration (draw_windows Scripted (anchors 2023)
                        (py_state (scripted_world [24; 0; 72; 23] [] []))) /\
    shutdown_hours logs = Z.of_nat (List.length shutdown_events) /\
    96 <= shutdown_hours logs <= 288.
Proof.
  split; [|split].
  - unfold valid_year, MINYEAR, MAXYEAR. lia.
  - exact scripted_randint_in_range.
  - apply (shutdown_hours_total ExactRounding Scripted 2023
             (scripted_world [24; 0; 72; 23] [] [])).
    + unfold valid_year, MINYEAR, MAXYEAR. lia.
    + exact scripted_randint_in_range.
Defined.

(** ** The dominant cause and the mode of the hour *)

Lemma dominant_beats_normal (c : Contributions) (d : Cause * Q) :
  dict_keys c = CAUSES ->
  py_max snd c = Ok d ->
  fst d <> normal_operations ->
  (dict_get c normal_operations < dict_get c (fst d))%Q.
Proof.
  intros Hk Hmax Hne.
  destruct (py_max_first_max _ _ _ Hmax) as (i & Hi & _ & Hbefore).
  destruct (dict_nth_inv _ _ _ Hk Hi) as (Hidx & Hval).
  rewrite <- Hval.
  apply (Hbefore (cause_index normal_operations)
                 (normal_operations, dict_get c normal_operations)).
  - rewrite Hidx. destruct (fst d); simpl; try lia. congruence.
  - now apply dict_nth.
Qed.

(** X7 (dominant cause and shutdown mode).  In every record, a dominant
    cause other than [normal_operations] has a strictly positive
    contribution, larger than that of [normal_operations]; the dominant
    cause is [startup_shutdown] only in hours of [shutdown_events], and
    one of the five probabilistic causes only outside them. *)
Theorem dominant_cause_mode (R : Rounding) (E : Entropy)
  (year : Z) (w : World E) :
  valid_year year ->
  exists draws logs w',
    generate_trace R E FLARE_CAUSES year w = Ok ((windows draws, logs), w') /\
    generate_flare_data R E year w = Ok (map log_row logs, w') /\
    forall h,
      In h logs ->
      let dominant := dominant_cause (log_row h) in
      (dominant <> normal_operations ->
       (0 <= dict_get (log_contributions h) normal_operations
        /\ dict_get (log_contributions h) normal_operations
           < dict_get (log_contributions h) dominant)%Q) /\
      (dominant = startup_shutdown ->
       In (timestamp (log_row h)) (windows draws)) /\
      (In dominant PROBABILISTIC ->
       ~ In (timestamp (log_row h)) (windows draws)).
Proof.
  intros Hy.
  destruct (generate_trace_runs R E FLARE_CAUSES FLARE_CAUSES_stds_nonneg year w Hy)
    as (draws & logs & w1 & w' & Htrace & Hgen & _ & _ & Htr & _ & Hloop).
  exists draws, logs, w'. split; [exact Htrace|]. split; [exact Hgen|].
  assert (Hall : Forall (fun h => all_nonneg (log_contributions h)) logs).
  { apply (hourly_loop_each R E FLARE_CAUSES (windows draws)
             (fun h => all_nonneg (log_contributions h))) in Hloop; [exact Hloop|].
    intros b dt w0 b' sh c w2 row Hh _. simpl.
    exact (hour_contributions_nonneg E _ _ _ _ _ _ _ _ _ Hh). }
  intros h Hh dominant. rewrite Forall_forall in Hall. specialize (Hall h Hh).
  destruct (trace_ok_each _ _ _ _ _ Htr Hh) as (b0 & Hok).
  pose proof (ok_keys _ _ _ _ Hok) as Hk.
  destruct (make_row_inv _ _ _ (ok_row _ _ _ _ Hok))
    as (Hts & _ & _ & _ & d & Hmax & Hdom).
  fold dominant in Hdom.
  assert (Hbeat : dominant <> normal_operations ->
                  (dict_get (log_contributions h) normal_operations
                   < dict_get (log_contributions h) dominant)%Q).
  { intros Hne. rewrite Hdom. apply dominant_beats_normal; try assumption.
    now rewrite <- Hdom. }
  pose proof (Hall normal_operations) as H0.
  rewrite Hts, <- dt_in_iff, <- (ok_shutdown _ _ _ _ Hok).
  split; [|split].
  - intros Hne. split; [exact H0 | now apply Hbeat].
  - intros Hss. destruct (log_is_shutdown h) eqn:Hsh; [reflexivity|].
    pose proof (ok_unscheduled _ _ _ _ Hok Hsh) as Hz.
    assert (Hne : dominant <> normal_operations) by (rewrite Hss; discriminate).
    specialize (Hbeat Hne). rewrite Hss, Hz in Hbeat. exfalso. lra.
  - intros Hp Hsh.
    pose proof (ok_quiet _ _ _ _ Hok Hsh dominant Hp) as Hz.
    assert (Hne : dominant <> normal_operations)
      by (intros Heq; rewrite Heq in Hp; simpl in Hp; intuition discriminate).
    specialize (Hbeat Hne). rewrite Hz in Hbeat. lra.
Qed.

Lemma dominant_cause_mode_witness :
  valid_year 2024 /\
  exists draws logs w',
    generate_trace ExactRounding Scripted FLARE_CAUSES 2024
      (scripted_world [] [0]%Q [0; 0; 10]%Q)
      = Ok ((windows draws, logs), w') /\
    generate_flare_data ExactRounding Scripted 2024
      (scripted_world [] [0]%Q [0; 0; 10]%Q)
      = Ok (map log_row logs, w') /\
    forall h,
      In h logs ->
      let dominant := dominant_cause (log_row h) in
      (dominant <> normal_operations ->
       (0 <= dict_get (log_contributions h) normal_operations
        /\ dict_get (log_contributions h) normal_operations
           < dict_get (log_contributions h) dominant)%Q) /\
      (dominant = startup_shutdown ->
       In (timestamp (log_row h)) (windows draws)) /\
      (In dominant PROBABILISTIC ->
       ~ In (timestamp (log_row h)) (windows draws)).
Proof.
  split.
  - unfold valid_year, MINYEAR, MAXYEAR. lia.
  - apply (dominant_cause_mode ExactRounding Scripted 2024
             (scripted_world [] [0]%Q [0; 0; 10]%Q)).
    unfold valid_year, MINYEAR, MAXYEAR. lia.
Defined.

(** ** Rounding in hours with two contributions *)

Lemma rounded_sum2 (v1 v2 t r1 r2 rt : Q) :
  (t == v1 + v2)%Q ->
  rounded t rt -> rounded v1 r1 -> rounded v2 r2 ->
  (- (1 # 100) <= rt - (r1 + r2) /\ rt - (r1 + r2) <= 1 # 100)%Q.
Proof.
  intros Ht [Nt [nt Gt]] [N1 [n1 G1]] [N2 [n2 G2]].
  destruct (grid_diff (rt - (r1 + r2)) (nt - (n1 + n2)) 1) as [Hlo Hhi].
  - unfold Z.sub. rewrite !inject_Z_plus, inject_Z_opp, !inject_Z_plus. lra.
  - change (inject_Z 1) with 1%Q. lra.
  - change (inject_Z 1) with 1%Q. lra.
  - change (inject_Z 1) with 1%Q in *. lra.
Qed.

(** X8 (aggregation in shutdown hours).  In every record generated in
    shutdown mode only [normal_operations] and [startup_shutdown]
    contribute, the total is exactly their sum, and the exported total
    is within 0.01 of the sum of the exported columns. *)
Theorem shutdown_hour_aggregation (R : Rounding) (E : Entropy)
  (year : Z) (w : World E) :
  valid_year year ->
  exists draws logs w',
    generate_trace R E FLARE_CAUSES year w = Ok ((windows draws, logs), w') /\
    generate_flare_data R E year w = Ok (map log_row logs, w') /\
    forall h,
      In h logs ->
      In (timestamp (log_row h)) (windows draws) ->
      (py_sum (dict_values (log_contributions h))
       == dict_get (log_contributions h) normal_operations
          + dict_get (log_contributions h) startup_shutdown)%Q /\
      (- (1 # 100)
       <= total_flare_rate_m3_per_hour (log_row h) - columns_sum (log_row h)
       /\ total_flare_rate_m3_per_hour (log_row h) - columns_sum (log_row h)
          <= 1 # 100)%Q.
Proof.
  intros Hy.
  destruct (generate_trace_runs R E FLARE_CAUSES FLARE_CAUSES_stds_nonneg year w Hy)
    as (draws & logs & w1 & w' & Htrace & Hgen & _ & _ & Htr & _).
  exists draws, logs, w'. split; [exact Htrace|]. split; [exact Hgen|].
  intros h Hh Hin.
  destruct (trace_ok_each _ _ _ _ _ Htr Hh) as (b0 & Hok).
  pose proof (ok_keys _ _ _ _ Hok) as Hk.
  destruct (make_row_inv _ _ _ (ok_row _ _ _ _ Hok)) as (Hts & _).
  destruct (row_rounded _ _ _ (ok_row _ _ _ _ Hok)) as (Htot & Hcol & Hzero).
  rewrite Hts in Hin. apply dt_in_iff in Hin.
  rewrite <- (ok_shutdown _ _ _ _ Hok) in Hin.
  pose proof (ok_quiet _ _ _ _ Hok Hin) as Hq.
  pose proof (py_sum_dict _ Hk) as Hsum. unfold contributions_sum in Hsum.
  rewrite (Hq process_upset), (Hq equipment_maintenance), (Hq emergency_relief),
    (Hq compressor_trip), (Hq instrument_failure) in Hsum by (simpl; tauto).
  assert (Hsum' : (py_sum (dict_values (log_contributions h))
                   == dict_get (log_contributions h) normal_operations
                      + dict_get (log_contributions h) startup_shutdown)%Q) by lra.
  split; [exact Hsum'|].
  unfold columns_sum.
  pose proof (Hcol normal_operations) as C1. pose proof (Hcol startup_shutdown) as C4.
  pose proof (Hzero process_upset (Hq process_upset ltac:(simpl; tauto))) as Z2.
  pose proof (Hzero equipment_maintenance
                (Hq equipment_maintenance ltac:(simpl; tauto))) as Z3.
  pose proof (Hzero emergency_relief (Hq emergency_relief ltac:(simpl; tauto))) as Z5.
  pose proof (Hzero compressor_trip (Hq compressor_trip ltac:(simpl; tauto))) as Z6.
  pose proof (Hzero instrument_failure
                (Hq instrument_failure ltac:(simpl; tauto))) as Z7.
  cbn [column] in C1, C4, Z2, Z3, Z5, Z6, Z7.
  rewrite Z2, Z3, Z5, Z6, Z7.
  pose proof (rounded_sum2 _ _ _ _ _ _ Hsum' Htot C1 C4). lra.
Qed.

Lemma shutdown_hour_aggregation_witness :
  valid_year 2024 /\
  exists draws logs w',
    generate_trace ExactRounding Scripted FLARE_CAUSES 2024
      (scripted_world [48; 3] [] [0; -2]%Q)
      = Ok ((windows draws, logs), w') /\
    generate_flare_data ExactRounding Scripted 2024
      (scripted_world [48; 3] [] [0; -2]%Q)
      = Ok (map log_row logs, w') /\
    forall h,
      In h logs ->
      In (timestamp (log_row h)) (windows draws) ->
      (py_sum (dict_values (log_contributions h))
       == dict_get (log_contributions h) normal_operations
          + dict_get (log_contributions h) startup_shutdown)%Q /\
      (- (1 # 100)
       <= total_flare_rate_m3_per_hour (log_row h) - columns_sum (log_row h)
       /\ total_flare_rate_m3_per_hour (log_row h) - columns_sum (log_row h)
          <= 1 # 100)%Q.
Proof.
  split.
  - unfold valid_year, MINYEAR, MAXYEAR. lia.
  - apply (shutdown_hour_aggregation ExactRounding Scripted 2024
             (scripted_world [48; 3] [] [0; -2]%Q)).
    unfold valid_year, MINYEAR, MAXYEAR. lia.
Defined.

(** ** Totals and event counts of the summary report *)

Lemma fold_plus_shift (xs : list Q) :
  forall a, (fold_left Qplus xs a == a + fold_left Qplus xs 0)%Q.
Proof.
  induction xs as [|x xs IH]; intros a; simpl; [lra|].
  rewrite (IH (a + x)%Q), (IH (0 + x)%Q). lra.
Qed.

Lemma column_total_cons (col : Row -> Q) (r : Row) (df : list Row) :
  (column_total col (r :: df) == col r + column_total col df)%Q.
Proof.
  unfold column_total, py_sum. simpl map.
  rewrite (fold_fadd_eq _ 0%Q 0%Q) by reflexivity.
  rewrite (fold_fadd_eq (map col df) 0%Q 0%Q) by reflexivity.
  simpl. rewrite fold_plus_shift. lra.
Qed.

Lemma column_total_nil (col : Row -> Q) : column_total col [] = 0%Q.
Proof. reflexivity. Qed.

Lemma totals_tolerance (df : list Row) :
  (forall r, In r df ->
     (- (3 # 100) <= total_flare_rate_m3_per_hour r - columns_sum r
      /\ total_flare_rate_m3_per_hour r - columns_sum r <= 3 # 100)%Q) ->
  (- ((3 # 100) * inject_Z (Z.of_nat (List.length df)))
   <= column_total total_flare_rate_m3_per_hour df - cause_totals_sum df
   /\ column_total total_flare_rate_m3_per_hour df - cause_totals_sum df
      <= (3 # 100) * inject_Z (Z.of_nat (List.length df)))%Q.
Proof.
  unfold cause_totals_sum, cause_total.
  induction df as [|r df IH]; intros Hall.
  - rewrite !column_total_nil.
    change (inject_Z (Z.of_nat (List.length (@nil Row)))) with 0%Q. lra.
  - assert (Hr := Hall r (or_introl eq_refl)).
    assert (Hdf := IH (fun r' Hr' => Hall r' (or_intror Hr'))).
    rewrite !column_total_cons.
    change (List.length (r :: df)) with (S (List.length df)).
    rewrite Nat2Z.inj_succ. unfold Z.succ. rewrite inject_Z_plus.
    change (inject_Z 1) with 1%Q.
    unfold columns_sum in Hr. simpl column in *. lra.
Qed.

(** X9 (grand total against the per-cause totals).  In the summary of
    a generated table, the total of the [total_flare_rate] column and
    the sum of the seven per-cause totals differ by at most 0.03 per
    record, that is by at most 0.03 times the number of hours of the
    year. *)
Theorem summary_totals_agree (R : Rounding) (E : Entropy)
  (year : Z) (w : World E) :
  valid_year year ->
  exists table w',
    generate_flare_data R E year w = Ok (table, w') /\
    (- ((3 # 100) * inject_Z (hours_in_year year))
     <= column_total total_flare_rate_m3_per_hour table - cause_totals_sum table
     /\ column_total total_flare_rate_m3_per_hour table - cause_totals_sum table
        <= (3 # 100) * inject_Z (hours_in_year year))%Q.
Proof.
  intros Hy.
  destruct (generate_trace_runs R E FLARE_CAUSES FLARE_CAUSES_stds_nonneg year w Hy)
    as (draws & logs & w1 & w' & _ & Hgen & _ & Hdt & Htr & _).
  exists (map log_row logs), w'. split; [exact Hgen|].
  rewrite <- (trace_length _ year _ _ Hdt Htr).
  apply totals_tolerance.
  intros r Hr. apply in_map_iff in Hr as (h & <- & Hh).
  destruct (trace_ok_each _ _ _ _ _ Htr Hh) as (b0 & Hok).
  exact (hour_tolerance _ _ _ _ Hok).
Qed.

Lemma summary_totals_agree_witness :
  valid_year 2024 /\
  exists table w',
    generate_flare_data ExactRounding Scripted 2024
      (scripted_world [] [0; 0; 0]%Q [0; 1; 2; 3]%Q)
      = Ok (table, w') /\
    (- ((3 # 100) * inject_Z (hours_in_year 2024))
     <= column_total total_flare_rate_m3_per_hour table - cause_totals_sum table
     /\ column_total total_flare_rate_m3_per_hour table - cause_totals_sum table
        <= (3 # 100) * inject_Z (hours_in_year 2024))%Q.
Proof.
  split.
  - unfold valid_year, MINYEAR, MAXYEAR. lia.
  - apply (summary_totals_agree ExactRounding Scripted 2024
             (scripted_world [] [0; 0; 0]%Q [0; 1; 2; 3]%Q)).
    unfold valid_year, MINYEAR, MAXYEAR. lia.
Defined.

Lemma filter_length_le {A : Type} (p q : A -> bool) (l : list A) :
  (forall x, In x l -> p x = true -> q x = true) ->
  (List.length (filter p l) <= List.length (filter q l))%nat.
Proof.
  induction l as [|x l IH]; intros H; simpl; [lia|].
  assert (IH' := IH (fun y Hy => H y (or_intror Hy))).
  destruct (p x) eqn:Hp.
  - rewrite (H x (or_introl eq_refl) Hp). simpl. lia.
  - destruct (q x); simpl; lia.
Qed.

Lemma filter_length_excl {A : Type} (p q : A -> bool) (l : list A) :
  (forall x, In x l -> p x = true -> q x = false) ->
  (List.length (filter p l) + List.length (filter q l) <= List.length l)%nat.
Proof.
  induction l as [|x l IH]; intros H; simpl; [lia|].
  assert (IH' := IH (fun y Hy => H y (or_intror Hy))).
  destruct (p x) eqn:Hp.
  - rewrite (H x (or_introl eq_refl) Hp). simpl. lia.
  - destruct (q x); simpl; lia.
Qed.

Lemma events_of_logs (c : Cause) (logs : list HourLog) :
  events c (map log_row logs)
  = Z.of_nat (List.length (filter (fun h => Qltb 0 (column (log_row h) c)) logs)).
Proof.
  unfold events. now rewrite filter_map_swap, length_map.
Qed.

(** X10 (event counts of the summary).  With [randint] within its
    range, in the summary of a generated table the "Events" figure of
    [startup_shutdown] is at most the number of shutdown hours, hence at
    most 288; that of each probabilistic cause is at most the number of
    the other hours, hence at most the hours of the year minus 96. *)
Theorem summary_event_counts (R : Rounding) (E : Entropy)
  (year : Z) (w : World E) :
  valid_year year ->
  randint_in_range E ->
  exists draws logs w',
    generate_trace R E FLARE_CAUSES year w = Ok ((windows draws, logs), w') /\
    generate_flare_data R E year w = Ok (map log_row logs, w') /\
    events startup_shutdown (map log_row logs) <= shutdown_hours logs <= 288 /\
    forall c,
      In c PROBABILISTIC ->
      events c (map log_row logs) <= hours_in_year year - shutdown_hours logs
      /\ events c (map log_row logs) <= hours_in_year year - 96.
Proof.
  intros Hy Hr.
  destruct (generate_trace_runs R E FLARE_CAUSES FLARE_CAUSES_stds_nonneg year w Hy)
    as (draws & logs & w1 & w' & Htrace & Hgen & Hd & Hdt & Htr & _).
  exists draws, logs, w'. split; [exact Htrace|]. split; [exact Hgen|].
  destruct (schedule_facts E year draws Hr Hd) as (_ & _ & Hb & _).
  pose proof (shutdown_hours_count E _ year draws logs Hr Hd Hdt Htr) as Hc.
  assert (Hlen : Z.of_nat (List.length logs) = hours_in_year year)
    by (rewrite <- (length_map log_row); exact (trace_length _ year _ _ Hdt Htr)).
  split.
  - split; [|lia]. rewrite events_of_logs. unfold shutdown_hours.
    apply inj_le, filter_length_le.
    intros h Hh Hpos. apply Qltb_true in Hpos.
    destruct (trace_ok_each _ _ _ _ _ Htr Hh) as (b0 & Hok).
    destruct (make_row_inv _ _ _ (ok_row _ _ _ _ Hok)) as (_ & _ & _ & Hcol & _).
    destruct (log_is_shutdown h) eqn:Hsh; [reflexivity|].
    rewrite Hcol, (ok_unscheduled _ _ _ _ Hok Hsh), py_round_zero in Hpos.
    exfalso. lra.
  - intros c Hcin.
    assert (He : events c (map log_row logs) + shutdown_hours logs
                 <= hours_in_year year).
    { rewrite events_of_logs, <- Hlen. unfold shutdown_hours.
      rewrite <- Nat2Z.inj_add. apply inj_le, filter_length_excl.
      intros h Hh Hpos. apply Qltb_true in Hpos.
      destruct (trace_ok_each _ _ _ _ _ Htr Hh) as (b0 & Hok).
      destruct (make_row_inv _ _ _ (ok_row _ _ _ _ Hok)) as (_ & _ & _ & Hcol & _).
      destruct (log_is_shutdown h) eqn:Hsh; [|reflexivity].
      rewrite Hcol, (ok_quiet _ _ _ _ Hok Hsh c Hcin), py_round_zero in Hpos.
      exfalso. lra. }
    lia.
Qed.

Lemma summary_event_counts_witness :
  valid_year 2024 /\ randint_in_range Scripted /\
  exists draws logs w',
    generate_trace ExactRounding Scripted FLARE_CAUSES 2024
      (scripted_world [30; 2] [0; 0]%Q [0; 0; 1; 1]%Q)
      = Ok ((windows draws, logs), w') /\
    generate_flare_data ExactRounding Scripted 2024
      (scripted_world [30; 2] [0; 0]%Q [0; 0; 1; 1]%Q)
      = Ok (map log_row logs, w') /\
    events startup_shutdown (map log_row logs) <= shutdown_hours logs <= 288 /\
    forall c,
      In c PROBABILISTIC ->
      events c (map log_row logs) <= hours_in_year 2024 - shutdown_hours logs
      /\ events c (map log_row logs) <= hours_in_year 2024 - 96.
Proof.
  split; [|split].
  - unfold valid_year, MINYEAR, MAXYEAR. lia.
  - exact scripted_randint_in_range.
  - apply (summary_event_counts ExactRounding Scripted 2024
             (scripted_world [30; 2] [0; 0]%Q [0; 0; 1; 1]%Q)).
    + unfold valid_year, MINYEAR, MAXYEAR. lia.
    + exact scripted_randint_in_range.
Defined.

(** ** Draws taken from the two random sources *)

Section Draws.

Variable R : Rounding.
Variable E : Entropy.
Variable cfg : Config.

Lemma random_random_inv (w : World E) u w' :
  random_random E w = Ok (u, w') ->
  py_state w' = snd (random E (py_state w)) /\ np_state w' = np_state w.
Proof.
  unfold random_random. destruct (random E (py_state w)) as [u0 s].
  intros H. injection H as _ <-. simpl. auto.
Qed.

Lemma np_random_normal_py loc scale (w : World E) v w' :
  np_random_normal E loc scale w = Ok (v, w') -> py_state w' = py_state w.
Proof. intros H. now apply np_random_normal_inv in H. Qed.

Lemma inject_causes_py causes : forall c (w : World E) c' w',
  inject_causes E cfg causes c w = Ok (c', w') ->
  py_state w' = after_random E (List.length causes) (py_state w).
Proof.
  induction causes as [|cause rest IH]; simpl; intros c w c' w' H.
  - apply ret_inv in H as [_ ->]. reflexivity.
  - inv_bind H as c1 w1 Hone. rewrite (IH _ _ _ _ H). f_equal.
    unfold inject_cause in Hone.
    inv_bind Hone as u w2 Hu. apply random_random_inv in Hu as [Hu _].
    inv_bind Hone as e w3 He. apply lift_inv in He as [_ ->].
    destruct (Qltb u (probability e)).
    + inv_bind Hone as rate w4 Hrate. apply np_random_normal_py in Hrate.
      apply ret_inv in Hone as [_ ->]. congruence.
    + apply ret_inv in Hone as [_ ->]. exact Hu.
Qed.

Lemma hour_contributions_py ev b dt (w : World E) b' sh c w' :
  hour_contributions E cfg ev b dt w = Ok ((b', sh, c), w') ->
  py_state w' = after_random E (if sh then 0 else 5) (py_state w).
Proof.
  intros H. unfold hour_contributions in H.
  inv_bind H as step w1 Hstep. apply np_random_normal_py in Hstep.
  inv_bind H as noise w2 Hnoise. apply np_random_normal_py in Hnoise.
  inv_bind H as c3 w3 Hsched. inv_bind H as c4 w4 Hprob.
  apply ret_inv in H as [H ->]. injection H as _ Hsh _. subst sh.
  destruct (dt_in dt ev); cbn [negb] in Hprob.
  - apply ret_inv in Hprob as [_ ->].
    inv_bind Hsched as rate w5 Hrate. apply np_random_normal_py in Hrate.
    apply ret_inv in Hsched as [_ ->]. simpl. congruence.
  - apply ret_inv in Hsched as [_ ->].
    apply inject_causes_py in Hprob. rewrite Hprob. simpl List.length. congruence.
Qed.

Lemma after_random_add (a b : nat) (s : PyRng E) :
  after_random E (a + b) s = after_random E b (after_random E a s).
Proof.
  revert s. induction a as [|a IH]; intros s; simpl; [reflexivity | apply IH].
Qed.

Lemma hourly_loop_py ev dts : forall b (w : World E) logs w',
  hourly_loop R E cfg ev dts b w = Ok (logs, w') ->
  py_state w' = after_random E (5 * ordinary_hours logs) (py_state w).
Proof.
  induction dts as [|dt dts IH]; intros b w logs w' H.
  - simpl in H. apply ret_inv in H as [-> ->]. reflexivity.
  - apply hourly_loop_inv in H
      as (b' & sh & c & w1 & row & rest & Hh & _ & Hrest & ->).
    rewrite (IH _ _ _ _ Hrest), (hour_contributions_py _ _ _ _ _ _ _ _ Hh).
    unfold ordinary_hours. simpl filter.
    destruct sh; cbn [negb].
    + reflexivity.
    + change (List.length (?x :: ?l)) with (S (List.length l)).
      replace (5 * S (List.length
                        (filter (fun h => negb (log_is_shutdown h)) rest)))%nat
        with (5 + 5 * List.length
                        (filter (fun h => negb (log_is_shutdown h)) rest))%nat
        by lia.
      now rewrite after_random_add.
Qed.

End Draws.

Lemma hours_split (logs : list HourLog) :
  Z.of_nat (ordinary_hours logs) + shutdown_hours logs
  = Z.of_nat (List.length logs).
Proof.
  unfold ordinary_hours, shutdown_hours.
  induction logs as [|h logs IH]; [reflexivity|].
  cbn [filter]. destruct (log_is_shutdown h); cbn [negb List.length]; lia.
Qed.

(** X11 (draws from the random sources).  Scheduling the shutdowns
    leaves the Gaussian source untouched; the hourly loop then asks the
    [random] module for exactly five uniform numbers in every hour
    outside shutdown mode and for none in a shutdown hour, whatever
    events fire. *)
Theorem random_draws_accounting (R : Rounding) (E : Entropy)
  (year : Z) (w : World E) :
  valid_year year ->
  exists draws logs w1 w',
    schedule_shutdowns E (anchors year) [] w = Ok (windows draws, w1) /\
    np_state w1 = np_state w /\
    generate_trace R E FLARE_CAUSES year w = Ok ((windows draws, logs), w') /\
    py_state w' = after_random E (5 * ordinary_hours logs) (py_state w1) /\
    Z.of_nat (ordinary_hours logs) + shutdown_hours logs = hours_in_year year.
Proof.
  intros Hy.
  destruct (generate_trace_runs R E FLARE_CAUSES FLARE_CAUSES_stds_nonneg year w Hy)
    as (draws & logs & w1 & w' & Htrace & _ & _ & Hdt & Htr & Hs & Hloop).
  exists draws, logs, w1, w'.
  split; [exact Hs|]. split; [exact (schedule_shutdowns_np E _ _ _ _ _ Hs)|].
  split; [exact Htrace|]. split; [exact (hourly_loop_py R E _ _ _ _ _ _ _ Hloop)|].
  rewrite hours_split, <- (length_map log_row).
  exact (trace_length _ year _ _ Hdt Htr).
Qed.

Lemma random_draws_accounting_witness :
  valid_year 2024 /\
  exists draws logs w1 w',
    schedule_shutdowns Scripted (anchors 2024) []
      (scripted_world [24; 1] [0; 1 # 4]%Q [0; 1]%Q) = Ok (windows draws, w1) /\
    np_state w1 = np_state (scripted_world [24; 1] [0; 1 # 4]%Q [0; 1]%Q) /\
    generate_trace ExactRounding Scripted FLARE_CAUSES 2024
      (scripted_world [24; 1] [0; 1 # 4]%Q [0; 1]%Q)
      = Ok ((windows draws, logs), w') /\
    py_state w' = after_random Scripted (5 * ordinary_hours logs) (py_state w1) /\
    Z.of_nat (ordinary_hours logs) + shutdown_hours logs = hours_in_year 2024.
Proof.
  split.
  - unfold valid_year, MINYEAR, MAXYEAR. lia.
  - apply (random_draws_accounting ExactRounding Scripted 2024
             (scripted_world [24; 1] [0; 1 # 4]%Q [0; 1]%Q)).
    unfold valid_year, MINYEAR, MAXYEAR. lia.
Defined.

(** ** Ordinals and calendar dates *)

Lemma divmod_eq (q r k x : Z) :
  0 <= r < k -> x = k * q + r -> x / k = q /\ x mod k = r.
Proof.
  intros Hr ->. split.
  - symmetry. apply Z.div_unique with r; lia.
  - symmetry. apply Z.mod_unique with q; lia.
Qed.

(** A year as 400-, 100-, 4- and 1-year cycles. *)
Lemma year_decomp (y : Z) :
  1 <= y ->
  exists a b c e,
    0 <= a /\ 0 <= b < 4 /\ 0 <= c < 25 /\ 0 <= e < 4 /\
    y = 400 * a + 100 * b + 4 * c + e + 1 /\
    days_before_year y = 146097 * a + 36524 * b + 1461 * c + 365 * e /\
    is_leap y = (e =? 3) && (negb (c =? 24) || (b =? 3)).
Proof.
  intros Hy.
  exists ((y - 1) / 400), ((y - 1) mod 400 / 100), ((y - 1) mod 100 / 4),
    ((y - 1) mod 4).
  assert (Ha : 0 <= (y - 1) / 400) by (apply Z.div_pos; lia).
  assert (Hb : 0 <= (y - 1) mod 400 / 100 < 4)
    by (Z.div_mod_to_equations; lia).
  assert (Hc : 0 <= (y - 1) mod 100 / 4 < 25)
    by (Z.div_mod_to_equations; lia).
  assert (He : 0 <= (y - 1) mod 4 < 4) by (apply Z.mod_pos_bound; lia).
  assert (Hdec : y = 400 * ((y - 1) / 400) + 100 * ((y - 1) mod 400 / 100)
                     + 4 * ((y - 1) mod 100 / 4) + (y - 1) mod 4 + 1)
    by (Z.div_mod_to_equations; lia).
  repeat split; try lia.
  - unfold days_before_year. cbv zeta. Z.div_mod_to_equations. lia.
  - set (a := (y - 1) / 400) in *. set (b := (y - 1) mod 400 / 100) in *.
    set (c := (y - 1) mod 100 / 4) in *. set (e := (y - 1) mod 4) in *.
    clearbody a b c e. unfold is_leap.
    apply eq_true_iff_eq.
    rewrite !andb_true_iff, !orb_true_iff, !negb_true_iff, !Z.eqb_eq, !Z.eqb_neq.
    subst y. split.
    + intros [H4 H100]. split.
      * Z.div_mod_to_equations. lia.
      * destruct H100 as [H100|H400].
        -- left. intros ->. apply H100. Z.div_mod_to_equations. lia.
        -- right. Z.div_mod_to_equations. lia.
    + intros [-> Hcb]. split.
      * Z.div_mod_to_equations. lia.
      * destruct Hcb as [Hc24 | ->].
        -- left. Z.div_mod_to_equations. lia.
        -- destruct (Z.eq_dec c 24) as [-> | Hne].
           ++ right. Z.div_mod_to_equations. lia.
           ++ left. Z.div_mod_to_equations. lia.
Qed.

Lemma month_search_ok (leapyear : bool) (m d : Z) :
  1 <= m <= 12 ->
  1 <= d <= (if (m =? 2) && leapyear then 29 else DAYS_IN_MONTH m) ->
  DAYS_BEFORE_MONTH m + (if (2 <? m) && leapyear then 1 else 0) + d - 1 < 365 ->
  month_search leapyear
    (DAYS_BEFORE_MONTH m + (if (2 <? m) && leapyear then 1 else 0) + d - 1)
  = (m, d).
Proof.
  intros Hm Hd Hn.
  assert (Cm : m = 1 \/ m = 2 \/ m = 3 \/ m = 4 \/ m = 5 \/ m = 6 \/ m = 7
               \/ m = 8 \/ m = 9 \/ m = 10 \/ m = 11 \/ m = 12) by lia.
  unfold month_search. rewrite Z.shiftr_div_pow2 by lia.
  change (2 ^ 5) with 32.
  destruct Cm as [->|[->|[->|[->|[->|[->|[->|[->|[->|[->|[->| ->]]]]]]]]]]];
    destruct leapyear; cbn -[Z.div Z.add Z.sub] in *;
    match goal with
    | |- context [(?n + 50) / 32] =>
        let q := fresh "q" in
        let Hq := fresh "Hq" in
        remember ((n + 50) / 32) as q eqn:Hq;
        assert (Cq : q = 1 \/ q = 2 \/ q = 3 \/ q = 4 \/ q = 5 \/ q = 6 \/ q = 7
                     \/ q = 8 \/ q = 9 \/ q = 10 \/ q = 11 \/ q = 12 \/ q = 13)
          by (subst q; Z.div_mod_to_equations; lia);
        destruct Cq as [->|[->|[->|[->|[->|[->|[->|[->|[->|[->|[->|[->| ->]]]]]]]]]]]];
        try (exfalso; Z.div_mod_to_equations; lia);
        repeat match goal with
               | |- context [Z.pos ?p - 1] =>
                   let v := eval vm_compute in (Z.pos p - 1) in
                   change (Z.pos p - 1) with v
               end;
        cbn -[Z.add Z.sub];
        match goal with
        | |- context [?x <? ?y] =>
            destruct (Z.ltb_spec x y);
            try (exfalso; Z.div_mod_to_equations; lia);
            f_equal; lia
        end
    end.
Qed.

Lemma pair_if {A B C : Type} (c : bool) (y : A) (a1 a2 m : B) (b1 b2 d : C) :
  (if c then (a1, b1) else (a2, b2)) = (m, d) ->
  (if c then (y, a1, b1) else (y, a2, b2)) = (y, m, d).
Proof. destruct c; intros H; injection H as -> ->; reflexivity. Qed.

Lemma ord2ymd_ymd2ord (y m d : Z) :
  1 <= y ->
  1 <= m <= 12 ->
  1 <= d <= days_in_month y m ->
  ord2ymd (ymd2ord y m d) = (y, m, d).
Proof.
  intros Hy Hm Hd.
  destruct (year_decomp y Hy) as (a & b & c & e & Ha & Hb & Hc & He & Hdec & Hdby & Hleap).
  unfold days_in_month in Hd.
  set (n0 := days_before_month y m + d - 1).
  assert (Hn0 : 0 <= n0 < 365 + (if is_leap y then 1 else 0)).
  { unfold n0, days_before_month.
    assert (Cm : m = 1 \/ m = 2 \/ m = 3 \/ m = 4 \/ m = 5 \/ m = 6 \/ m = 7
                 \/ m = 8 \/ m = 9 \/ m = 10 \/ m = 11 \/ m = 12) by lia.
    destruct Cm as [->|[->|[->|[->|[->|[->|[->|[->|[->|[->|[->| ->]]]]]]]]]]];
      destruct (is_leap y); cbn -[Z.add Z.sub] in *; lia. }
  unfold ord2ymd, ymd2ord. cbv zeta. unfold DI400Y, DI100Y, DI4Y.
  replace (days_before_year y + days_before_month y m + d - 1)
    with (146097 * a + (36524 * b + 1461 * c + 365 * e + n0))
    by (unfold n0; lia).
  assert (Hleap1 : (if is_leap y then 1 else 0) <= 1) by (destruct (is_leap y); lia).
  destruct (divmod_eq a (36524 * b + 1461 * c + 365 * e + n0) 146097
              (146097 * a + (36524 * b + 1461 * c + 365 * e + n0)))
    as [-> ->]; [|reflexivity|].
  { destruct (is_leap y) eqn:Hl; [|lia].
    symmetry in Hleap. apply andb_true_iff in Hleap as [He3 Hcb].
    apply Z.eqb_eq in He3. apply orb_true_iff in Hcb as [Hc24|Hb3].
    - apply negb_true_iff, Z.eqb_neq in Hc24. lia.
    - apply Z.eqb_eq in Hb3. lia. }
  destruct (Z.eq_dec n0 365) as [H365|Hlt].
  - (* the last day of a leap year *)
    destruct (is_leap y) eqn:Hl; [|lia].
    symmetry in Hleap. apply andb_true_iff in Hleap as [He3 Hcb].
    apply Z.eqb_eq in He3. subst e.
    assert (Hmd : m = 12 /\ d = 31).
    { unfold n0, days_before_month in H365. rewrite Hl in H365.
      assert (Cm : m = 1 \/ m = 2 \/ m = 3 \/ m = 4 \/ m = 5 \/ m = 6 \/ m = 7
                   \/ m = 8 \/ m = 9 \/ m = 10 \/ m = 11 \/ m = 12) by lia.
      destruct Cm as [->|[->|[->|[->|[->|[->|[->|[->|[->|[->|[->| ->]]]]]]]]]]];
        cbn -[Z.add Z.sub] in *; lia. }
    destruct Hmd as [-> ->]. rewrite H365.
    destruct (Z.eq_dec c 24) as [-> | Hc24].
    + assert (b = 3) as ->.
      { apply orb_true_iff in Hcb as [Hx|Hx];
          [apply negb_true_iff, Z.eqb_neq in Hx; lia | now apply Z.eqb_eq in Hx]. }
      vm_compute Z.div. vm_compute Z.modulo.
      cbn -[Z.add Z.mul Z.sub]. f_equal. f_equal. lia.
    + destruct (divmod_eq b (1461 * c + 365 * 3 + 365) 36524
                  (36524 * b + 1461 * c + 365 * 3 + 365)) as [-> ->]; [lia|lia|].
      destruct (divmod_eq c 1460 1461 (1461 * c + 365 * 3 + 365)) as [-> ->];
        [lia|lia|].
      change (1460 / 365) with 4. change (1460 mod 365) with 0.
      cbn -[Z.add Z.mul Z.sub Z.eqb]. rewrite Z.eqb_refl. simpl orb. cbv iota.
      f_equal. f_equal. lia.
  - (* any other day *)
    assert (Hn0' : 0 <= n0 < 365) by (destruct (is_leap y); lia).
    destruct (divmod_eq b (1461 * c + 365 * e + n0) 36524
                (36524 * b + 1461 * c + 365 * e + n0)) as [-> ->]; [lia|lia|].
    destruct (divmod_eq c (365 * e + n0) 1461 (1461 * c + 365 * e + n0))
      as [-> ->]; [lia|lia|].
    destruct (divmod_eq e n0 365 (365 * e + n0)) as [-> ->]; [lia|lia|].
    assert (He4 : (e =? 4) = false) by (apply Z.eqb_neq; lia).
    assert (Hb4 : (b =? 4) = false) by (apply Z.eqb_neq; lia).
    rewrite He4, Hb4. cbn [orb]. cbv iota.
    rewrite <- Hleap.
    replace (a * 400 + 1 + b * 100 + c * 4 + e) with y by lia.
    assert (Hms : month_search (is_leap y) n0 = (m, d)).
    { unfold n0, days_before_month.
      apply month_search_ok; [exact Hm | exact Hd |].
      fold (days_before_month y m). fold n0. lia. }
    unfold month_search in Hms. cbv zeta in Hms.
    apply pair_if. exact Hms.
Qed.

Lemma datetime_new_inv (y m d hh : Z) (t : datetime) :
  datetime_new y m d hh = Ok t ->
  valid_year y /\ 1 <= m <= 12 /\ 1 <= d <= days_in_month y m /\ 0 <= hh <= 23 /\
  t = 24 * ymd2ord y m d + hh.
Proof.
  intros H0. apply datetime_new_Ok in H0. revert H0.
  unfold check_fields, valid_year.
  destruct ((MINYEAR <=? y) && (y <=? MAXYEAR)) eqn:Hy; [|discriminate].
  destruct ((1 <=? m) && (m <=? 12)) eqn:Hm; [|discriminate].
  destruct ((1 <=? d) && (d <=? days_in_month y m)) eqn:Hd; [|discriminate].
  destruct ((0 <=? hh) && (hh <=? 23)) eqn:Hh; [|discriminate].
  simpl. intros H. injection H as <-.
  apply andb_true_iff in Hy as [Hy1 Hy2]. apply andb_true_iff in Hm as [Hm1 Hm2].
  apply andb_true_iff in Hd as [Hd1 Hd2]. apply andb_true_iff in Hh as [Hh1 Hh2].
  rewrite Z.leb_le in *. repeat split; assumption.
Qed.

Lemma datetime_new_total (y m d hh : Z) :
  valid_year y -> 1 <= m <= 12 -> 1 <= d <= days_in_month y m -> 0 <= hh <= 23 ->
  datetime_new y m d hh = Ok (24 * ymd2ord y m d + hh).
Proof.
  intros [Hy1 Hy2] Hm Hd Hh.
  pose proof (days_in_month_le y m) as H31.
  unfold MINYEAR, MAXYEAR in *.
  rewrite datetime_new_checked by lia. unfold check_fields, MINYEAR, MAXYEAR.
  assert (H1 : (1 <=? y) && (y <=? 9999) = true)
    by (apply andb_true_iff; rewrite !Z.leb_le; lia).
  assert (H2 : (1 <=? m) && (m <=? 12) = true)
    by (apply andb_true_iff; rewrite !Z.leb_le; lia).
  assert (H3 : (1 <=? d) && (d <=? days_in_month y m) = true)
    by (apply andb_true_iff; rewrite !Z.leb_le; lia).
  assert (H4 : (0 <=? hh) && (hh <=? 23) = true)
    by (apply andb_true_iff; rewrite !Z.leb_le; lia).
  now rewrite H1, H2, H3, H4.
Qed.

(** Decoding the instant built from a valid date and hour gives the
    date and the hour back. *)
Lemma datetime_fields (y m d hh : Z) :
  1 <= y -> 1 <= m <= 12 -> 1 <= d <= days_in_month y m -> 0 <= hh <= 23 ->
  dt_year (24 * ymd2ord y m d + hh) = y /\
  dt_month (24 * ymd2ord y m d + hh) = m /\
  dt_day (24 * ymd2ord y m d + hh) = d /\
  dt_hour (24 * ymd2ord y m d + hh) = hh.
Proof.
  intros Hy Hm Hd Hh.
  assert (Hord : toordinal (24 * ymd2ord y m d + hh) = ymd2ord y m d)
    by (unfold toordinal; Z.div_mod_to_equations; lia).
  unfold dt_year, dt_month, dt_day, dt_hour.
  rewrite Hord, ord2ymd_ymd2ord by assumption. cbn [fst snd].
  repeat split. Z.div_mod_to_equations. lia.
Qed.

(** Every day of a year is a day of one of its months. *)
Lemma doy_split (y n0 : Z) :
  0 <= n0 < (if is_leap y then 366 else 365) ->
  exists m d,
    1 <= m <= 12 /\ 1 <= d <= days_in_month y m /\
    n0 = days_before_month y m + d - 1.
Proof.
  intros Hn. unfold days_in_month, days_before_month.
  destruct (is_leap y).
  - assert (C : n0 < 31 \/ 31 <= n0 < 60 \/ 60 <= n0 < 91 \/ 91 <= n0 < 121
                \/ 121 <= n0 < 152 \/ 152 <= n0 < 182 \/ 182 <= n0 < 213
                \/ 213 <= n0 < 244 \/ 244 <= n0 < 274 \/ 274 <= n0 < 305
                \/ 305 <= n0 < 335 \/ 335 <= n0) by lia.
    destruct C as [C|[C|[C|[C|[C|[C|[C|[C|[C|[C|[C|C]]]]]]]]]]];
      [exists 1, (n0 + 1) | exists 2, (n0 - 30) | exists 3, (n0 - 59)
      | exists 4, (n0 - 90) | exists 5, (n0 - 120) | exists 6, (n0 - 151)
      | exists 7, (n0 - 181) | exists 8, (n0 - 212) | exists 9, (n0 - 243)
      | exists 10, (n0 - 273) | exists 11, (n0 - 304) | exists 12, (n0 - 334)];
      cbn -[Z.add Z.sub]; lia.
  - assert (C : n0 < 31 \/ 31 <= n0 < 59 \/ 59 <= n0 < 90 \/ 90 <= n0 < 120
                \/ 120 <= n0 < 151 \/ 151 <= n0 < 181 \/ 181 <= n0 < 212
                \/ 212 <= n0 < 243 \/ 243 <= n0 < 273 \/ 273 <= n0 < 304
                \/ 304 <= n0 < 334 \/ 334 <= n0) by lia.
    destruct C as [C|[C|[C|[C|[C|[C|[C|[C|[C|[C|[C|C]]]]]]]]]]];
      [exists 1, (n0 + 1) | exists 2, (n0 - 30) | exists 3, (n0 - 58)
      | exists 4, (n0 - 89) | exists 5, (n0 - 119) | exists 6, (n0 - 150)
      | exists 7, (n0 - 180) | exists 8, (n0 - 211) | exists 9, (n0 - 242)
      | exists 10, (n0 - 272) | exists 11, (n0 - 303) | exists 12, (n0 - 333)];
      cbn -[Z.add Z.sub]; lia.
Qed.

Lemma days_before_month_bound (y m d : Z) :
  1 <= m <= 12 -> 1 <= d <= days_in_month y m ->
  0 <= days_before_month y m + d - 1 < (if is_leap y then 366 else 365).
Proof.
  intros Hm Hd. unfold days_in_month, days_before_month in *.
  assert (Cm : m = 1 \/ m = 2 \/ m = 3 \/ m = 4 \/ m = 5 \/ m = 6 \/ m = 7
               \/ m = 8 \/ m = 9 \/ m = 10 \/ m = 11 \/ m = 12) by lia.
  destruct Cm as [->|[->|[->|[->|[->|[->|[->|[->|[->|[->|[->| ->]]]]]]]]]]];
    destruct (is_leap y); cbn -[Z.add Z.sub] in *; lia.
Qed.

Lemma strftime_B_month (t : datetime) : strftime_B t = month_name (dt_month t).
Proof. reflexivity. Qed.

(** X12 (records by date).  For every valid date and hour of the year,
    the record at position [24 * (day of the year) + hour] is stamped
    with [datetime(year, month, day, hour)], its [month] column is the
    English name of that month and its [hour] column is that hour. *)
Theorem record_of_date (R : Rounding) (E : Entropy) (year : Z) (w : World E) :
  valid_year year ->
  exists table w',
    generate_flare_data R E year w = Ok (table, w') /\
    forall m d hh t,
      datetime_new year m d hh = Ok t ->
      exists row,
        nth_error table (Z.to_nat (24 * (days_before_month year m + d - 1) + hh))
          = Some row /\
        timestamp row = t /\ month row = month_name m /\ hour row = hh.
Proof.
  intros Hy.
  destruct (generate_trace_runs R E FLARE_CAUSES FLARE_CAUSES_stds_nonneg year w Hy)
    as (draws & logs & w1 & w' & _ & Hgen & _ & Hdt & Htr & _).
  exists (map log_row logs), w'. split; [exact Hgen|].
  intros m d hh t Ht.
  apply datetime_new_inv in Ht as (_ & Hm & Hd & Hh & ->).
  pose proof (days_before_month_bound year m d Hm Hd) as Hdoy.
  set (k := 24 * (days_before_month year m + d - 1) + hh).
  assert (Hk : 0 <= k < hours_in_year year).
  { unfold k, hours_in_year. destruct (is_leap year); lia. }
  assert (Hat : nth_error (map log_dt logs) (Z.to_nat k)
                = Some (24 * ymd2ord year m d + hh)).
  { rewrite Hdt, window_nth by lia. f_equal.
    rewrite Z2Nat.id by lia.
    unfold k, ymd2ord. unfold days_before_month at 1.
    cbn -[Z.add Z.sub Z.mul days_before_year days_before_month]. lia. }
  rewrite nth_error_map in Hat.
  destruct (nth_error logs (Z.to_nat k)) as [h|] eqn:Hh'; [|discriminate].
  assert (Hat' : log_dt h = 24 * ymd2ord year m d + hh)
    by (unfold option_map in Hat; congruence).
  clear Hat. rename Hat' into Hat.
  exists (log_row h). rewrite nth_error_map, Hh'. split; [reflexivity|].
  assert (Hin : In h logs) by (now apply nth_error_In with (Z.to_nat k)).
  destruct (trace_ok_each _ _ _ _ _ Htr Hin) as (b0 & Hok).
  destruct (make_row_inv _ _ _ (ok_row _ _ _ _ Hok)) as (-> & _).
  destruct (make_row_calendar _ _ _ (ok_row _ _ _ _ Hok)) as (-> & _ & ->).
  rewrite Hat, strftime_B_month.
  destruct Hy as [Hy1 _]. unfold MINYEAR in Hy1.
  destruct (datetime_fields year m d hh Hy1 Hm Hd Hh) as (_ & -> & _ & ->).
  repeat split.
Qed.

Lemma record_of_date_witness :
  valid_year 2024 /\
  exists table w',
    generate_flare_data ExactRounding Scripted 2024
        (scripted_world [] [] []) = Ok (table, w') /\
    forall m d hh t,
      datetime_new 2024 m d hh = Ok t ->
      exists row,
        nth_error table (Z.to_nat (24 * (days_before_month 2024 m + d - 1) + hh))
          = Some row /\
        timestamp row = t /\ month row = month_name m /\ hour row = hh.
Proof.
  split.
  - unfold valid_year, MINYEAR, MAXYEAR. lia.
  - apply (record_of_date ExactRounding Scripted 2024 (scripted_world [] [] [])).
    unfold valid_year, MINYEAR, MAXYEAR. lia.
Defined.

(** X13 (dates of the records).  Every record of the table is stamped
    with an instant of the requested year: its timestamp is
    [datetime(year, m, d, hour)] for a month [m] and a day [d] of that
    year, where [hour] is its [hour] column and the [month] column is
    the English name of [m]. *)
Theorem date_of_record (R : Rounding) (E : Entropy) (year : Z) (w : World E) :
  valid_year year ->
  exists table w',
    generate_flare_data R E year w = Ok (table, w') /\
    forall row,
      In row table ->
      dt_year (timestamp row) = year /\
      exists m d,
        datetime_new year m d (hour row) = Ok (timestamp row) /\
        month row = month_name m.
Proof.
  intros Hy.
  destruct (generate_trace_runs R E FLARE_CAUSES FLARE_CAUSES_stds_nonneg year w Hy)
    as (draws & logs & w1 & w' & _ & Hgen & _ & Hdt & Htr & _).
  exists (map log_row logs), w'. split; [exact Hgen|].
  intros row Hrow. apply in_map_iff in Hrow as (h & <- & Hh).
  destruct (trace_ok_each _ _ _ _ _ Htr Hh) as (b0 & Hok).
  destruct (make_row_inv _ _ _ (ok_row _ _ _ _ Hok)) as (-> & _).
  destruct (make_row_calendar _ _ _ (ok_row _ _ _ _ Hok)) as (-> & _ & ->).
  assert (Hw : In (log_dt h) (map log_dt logs)) by (now apply in_map).
  rewrite Hdt in Hw. apply in_window in Hw.
  set (k := log_dt h - (24 * ymd2ord year 1 1 + 0)).
  assert (Hk : 0 <= k < hours_in_year year) by (unfold k; lia).
  assert (Hdoy : 0 <= k / 24 < (if is_leap year then 366 else 365)).
  { unfold hours_in_year in Hk. destruct (is_leap year);
      Z.div_mod_to_equations; lia. }
  destruct (doy_split year (k / 24) Hdoy) as (m & d & Hm & Hd & Hsplit).
  assert (Hmod : 0 <= k mod 24 <= 23)
    by (pose proof (Z.mod_pos_bound k 24); lia).
  assert (Heq : log_dt h = 24 * ymd2ord year m d + k mod 24).
  { unfold ymd2ord at 1. unfold k in *.
    unfold ymd2ord, days_before_month in Hsplit |- *.
    cbn -[Z.add Z.sub Z.mul days_before_year Z.div Z.modulo] in *.
    unfold days_before_month in *.
    Z.div_mod_to_equations. lia. }
  destruct Hy as [Hy1 Hy2].
  assert (Hy1' : 1 <= year) by (unfold MINYEAR in Hy1; lia).
  destruct (datetime_fields year m d (k mod 24) Hy1' Hm Hd Hmod)
    as (Hfy & Hfm & _ & Hfh).
  rewrite <- Heq in Hfy, Hfm, Hfh.
  split; [exact Hfy|].
  exists m, d. rewrite strftime_B_month, Hfm, Hfh. split; [|reflexivity].
  rewrite Heq. apply datetime_new_total; try assumption. now split.
Qed.

Lemma date_of_record_witness :
  valid_year 2023 /\
  exists table w',
    generate_flare_data ExactRounding Scripted 2023
        (scripted_world [] [] []) = Ok (table, w') /\
    forall row,
      In row table ->
      dt_year (timestamp row) = 2023 /\
      exists m d,
        datetime_new 2023 m d (hour row) = Ok (timestamp row) /\
        month row = month_name m.
Proof.
  split.
  - unfold valid_year, MINYEAR, MAXYEAR. lia.
  - apply (date_of_record ExactRounding Scripted 2023 (scripted_world [] [] [])).
    unfold valid_year, MINYEAR, MAXYEAR. lia.
Defined.

(** ** The size of the baseline moves *)



(** ** The total against each column *)

Lemma contribution_le_sum (d : Contributions) (k : Cause) :
  all_nonneg d -> (dict_get d k <= contributions_sum d)%Q.
Proof.
  intros Hd. unfold contributions_sum.
  pose proof (Hd normal_operations). pose proof (Hd process_upset).
  pose proof (Hd equipment_maintenance). pose proof (Hd startup_shutdown).
  pose proof (Hd emergency_relief). pose proof (Hd compressor_trip).
  pose proof (Hd instrument_failure). destruct k; lra.
Qed.

(** X15 (the total against each column).  In every record the total
    is at least each contribution; the exported total, rounded on its
    own, may fall below an exported cause column, by at most 0.01.  A
    record of severity [low] has no column above 200, and a record whose
    severity is not [high] has no column above 350. *)
Theorem total_dominates_columns (R : Rounding) (E : Entropy) (year : Z)
  (w : World E) :
  valid_year year ->
  exists draws logs w',
    generate_trace R E FLARE_CAUSES year w = Ok ((windows draws, logs), w') /\
    generate_flare_data R E year w = Ok (map log_row logs, w') /\
    forall h,
      In h logs ->
      forall c,
        (dict_get (log_contributions h) c
         <= py_sum (dict_values (log_contributions h)))%Q /\
        (column (log_row h) c
         <= total_flare_rate_m3_per_hour (log_row h) + (1 # 100))%Q /\
        (severity (log_row h) = low -> (column (log_row h) c <= 200)%Q) /\
        (severity (log_row h) <> high -> (column (log_row h) c <= 350)%Q).
Proof.
  intros Hy.
  destruct (generate_trace_runs R E FLARE_CAUSES FLARE_CAUSES_stds_nonneg year w Hy)
    as (draws & logs & w1 & w' & Htrace & Hgen & _ & _ & Htr & _ & Hloop).
  exists draws, logs, w'. split; [exact Htrace|]. split; [exact Hgen|].
  assert (Hall : Forall (fun h => all_nonneg (log_contributions h)) logs).
  { apply (hourly_loop_each R E FLARE_CAUSES (windows draws)
             (fun h => all_nonneg (log_contributions h))) in Hloop; [exact Hloop|].
    intros b dt w0 b' sh c w2 row Hh _. simpl.
    exact (hour_contributions_nonneg E _ _ _ _ _ _ _ _ _ Hh). }
  intros h Hh c.
  rewrite Forall_forall in Hall. specialize (Hall h Hh).
  destruct (trace_ok_each _ _ _ _ _ Htr Hh) as (b0 & Hok).
  destruct (make_row_inv _ _ _ (ok_row _ _ _ _ Hok)) as (_ & _ & Hsev & _).
  destruct (row_rounded _ _ _ (ok_row _ _ _ _ Hok)) as (Htot & Hcol & _).
  pose proof (py_sum_dict _ (ok_keys _ _ _ _ Hok)) as Hsum.
  pose proof (contribution_le_sum _ c Hall) as Hle.
  assert (Hc : (dict_get (log_contributions h) c
                <= py_sum (dict_values (log_contributions h)))%Q) by lra.
  assert (E350 : (inject_Z 35000 * (1 # 100) == 350)%Q) by reflexivity.
  assert (E200 : (inject_Z 20000 * (1 # 100) == 200)%Q) by reflexivity.
  pose proof (rounded_le _ _ 35000 (Hcol c)) as H350.
  pose proof (rounded_le _ _ 20000 (Hcol c)) as H200.
  rewrite E350 in H350. rewrite E200 in H200.
  split; [exact Hc|]. split.
  { destruct (Hcol c) as [[Hc1 _] _]. destruct Htot as [[_ Ht2] _]. lra. }
  rewrite Hsev. unfold classify.
  case_Qltb 350%Q (py_sum (dict_values (log_contributions h)));
    [|case_Qltb 200%Q (py_sum (dict_values (log_contributions h)))].
  - split; [discriminate | congruence].
  - split; [discriminate|]. intros _. apply H350. lra.
  - split; intros _; [apply H200 | apply H350]; lra.
Qed.

Lemma total_dominates_columns_witness :
  valid_year 2024 /\
  exists draws logs w',
    generate_trace ExactRounding Scripted FLARE_CAUSES 2024
      (scripted_world [] [0; 0]%Q [0; 1; 2; 3]%Q)
      = Ok ((windows draws, logs), w') /\
    generate_flare_data ExactRounding Scripted 2024
      (scripted_world [] [0; 0]%Q [0; 1; 2; 3]%Q) = Ok (map log_row logs, w') /\
    forall h,
      In h logs ->
      forall c,
        (dict_get (log_contributions h) c
         <= py_sum (dict_values (log_contributions h)))%Q /\
        (column (log_row h) c
         <= total_flare_rate_m3_per_hour (log_row h) + (1 # 100))%Q /\
        (severity (log_row h) = low -> (column (log_row h) c <= 200)%Q) /\
        (severity (log_row h) <> high -> (column (log_row h) c <= 350)%Q).
Proof.
  split.
  - unfold valid_year, MINYEAR, MAXYEAR. lia.
  - apply (total_dominates_columns ExactRounding Scripted 2024
             (scripted_world [] [0; 0]%Q [0; 1; 2; 3]%Q)).
    unfold valid_year, MINYEAR, MAXYEAR. lia.
Defined.

(** ** A cause whose probability is not positive *)

Section Muted.

Variable E : Entropy.
Variable cfg : Config.
Hypothesis Hunit : random_in_unit E.
Variable muted : Cause.
Variable e0 : EventCfg.
Hypothesis Hcfg : cfg_event cfg muted = Ok e0.
Hypothesis Hprob : (probability e0 <= 0)%Q.

Lemma inject_causes_muted causes : forall c (w : World E) c' w',
  inject_causes E cfg causes c w = Ok (c', w') ->
  dict_get c' muted = dict_get c muted.
Proof.
  induction causes as [|cause rest IH]; simpl; intros c w c' w' H.
  - apply ret_inv in H as [-> _]. reflexivity.
  - inv_bind H as c1 w1 Hone. rewrite (IH _ _ _ _ H).
    unfold inject_cause in Hone.
    inv_bind Hone as u w2 Hu. inv_bind Hone as e w3 He.
    apply lift_inv in He as [He _].
    assert (Hu0 : (0 <= u)%Q).
    { unfold random_random in Hu. pose proof (Hunit (py_state w)) as [H0 _].
      destruct (random E (py_state w)) as [u0 s]. injection Hu as <- _.
      exact H0. }
    case_Qltb u (probability e).
    + inv_bind Hone as rate w4 Hrate. apply ret_inv in Hone as [-> _].
      destruct (Cause_eqb_spec cause muted) as [->|Hne].
      * rewrite Hcfg in He. injection He as <-. exfalso. lra.
      * now apply dict_get_set_other.
    + apply ret_inv in Hone as [-> _]. reflexivity.
Qed.

Lemma hour_contributions_muted ev b dt (w : World E) b' sh c w' :
  In muted PROBABILISTIC ->
  hour_contributions E cfg ev b dt w = Ok ((b', sh, c), w') ->
  dict_get c muted = 0%Q.
Proof.
  intros Hin H.
  assert (Hn : muted <> normal_operations)
    by (intros ->; simpl in Hin; intuition discriminate).
  assert (Hs : startup_shutdown <> muted)
    by (intros <-; simpl in Hin; intuition discriminate).
  unfold hour_contributions in H.
  inv_bind H as step w1 Hstep. inv_bind H as noise w2 Hnoise.
  match type of H with
  | bind (if _ then _ else ret ?c2) _ _ = _ =>
      assert (H2 : only_normal c2)
  end.
  { assert (H0 : only_normal
                   (dict_set initial_contributions normal_operations
                      (max0 (fadd (np_clip (fadd b step) 80 120) noise))))
      by (apply only_normal_set, only_normal_initial).
    apply only_normal_scale.
    destruct ((0 <=? dt_hour dt) && (dt_hour dt <? 6))%Z.
    - now apply (only_normal_scale _ true).
    - now apply only_normal_scale. }
  destruct H2 as [_ Hz]. specialize (Hz muted Hn).
  inv_bind H as c3 w3 Hsched. inv_bind H as c4 w4 Hprob'.
  apply ret_inv in H as [H _]. injection H as _ _ <-.
  assert (H3 : dict_get c3 muted = 0%Q).
  { destruct (dt_in dt ev).
    - inv_bind Hsched as rate w5 Hrate. apply ret_inv in Hsched as [-> _].
      now rewrite dict_get_set_other.
    - apply ret_inv in Hsched as [-> _]. exact Hz. }
  destruct (negb (dt_in dt ev)).
  - now rewrite (inject_causes_muted _ _ _ _ _ Hprob').
  - apply ret_inv in Hprob' as [-> _]. exact H3.
Qed.

End Muted.

(** X16 (a probability that is not positive).  For any cause table
    with non-negative standard deviations, a probabilistic cause whose
    [probability] is zero or negative never contributes: with
    [random.random()] in [0, 1), its contribution and its exported
    column are 0 in every record of the year. *)
Theorem muted_cause_never_fires (R : Rounding) (E : Entropy) (cfg : Config) (c : Cause)
  (e : EventCfg) (year : Z) (w : World E) :
  valid_year year ->
  stds_nonneg cfg ->
  random_in_unit E ->
  In c PROBABILISTIC ->
  cfg_event cfg c = Ok e ->
  (probability e <= 0)%Q ->
  exists draws logs w',
    generate_trace R E cfg year w = Ok ((windows draws, logs), w') /\
    generate_flare_data_with R E cfg year w = Ok (map log_row logs, w') /\
    Z.of_nat (List.length logs) = hours_in_year year /\
    forall h,
      In h logs ->
      dict_get (log_contributions h) c = 0%Q /\ column (log_row h) c = 0%Q.
Proof.
  intros Hy Hstd Hunit Hin Hcfg Hp.
  destruct (generate_trace_runs R E cfg Hstd year w Hy)
    as (draws & logs & w1 & w' & Htrace & Hgen & _ & Hdt & Htr & _ & Hloop).
  exists draws, logs, w'. split; [exact Htrace|]. split; [exact Hgen|].
  split.
  { rewrite <- (length_map log_row). exact (trace_length _ year _ _ Hdt Htr). }
  assert (Hall : Forall (fun h => dict_get (log_contributions h) c = 0%Q) logs).
  { apply (hourly_loop_each R E cfg (windows draws)
             (fun h => dict_get (log_contributions h) c = 0%Q)) in Hloop;
      [exact Hloop|].
    intros b dt w0 b' sh d w2 row Hh _. simpl.
    exact (hour_contributions_muted E cfg Hunit c e Hcfg Hp _ _ _ _ _ _ _ _ Hin Hh). }
  intros h Hh. rewrite Forall_forall in Hall. specialize (Hall h Hh).
  split; [exact Hall|].
  destruct (trace_ok_each _ _ _ _ _ Htr Hh) as (b0 & Hok).
  destruct (make_row_inv _ _ _ (ok_row _ _ _ _ Hok)) as (_ & _ & _ & Hcol & _).
  rewrite Hcol, Hall. apply py_round_zero.
Qed.

Lemma muted_stds_nonneg : stds_nonneg muted_config.
Proof.
  split; [|split].
  - simpl. lra.
  - simpl. lra.
  - intros c e Hin He. simpl in Hin.
    destruct Hin as [<-|[<-|[<-|[<-|[<-|[]]]]]];
      simpl in He; injection He as <-; simpl; lra.
Qed.

Lemma steady_random_in_unit : random_in_unit Steady.
Proof. intros s. simpl. split; lra. Qed.

Lemma muted_cause_never_fires_witness :
  valid_year 2024 /\ stds_nonneg muted_config /\ random_in_unit Steady /\
  In process_upset PROBABILISTIC /\
  cfg_event muted_config process_upset = Ok (cfg_process_upset muted_config) /\
  (probability (cfg_process_upset muted_config) <= 0)%Q /\
  exists draws logs w',
    generate_trace ExactRounding Steady muted_config 2024 steady_world
      = Ok ((windows draws, logs), w') /\
    generate_flare_data_with ExactRounding Steady muted_config 2024 steady_world
      = Ok (map log_row logs, w') /\
    Z.of_nat (List.length logs) = hours_in_year 2024 /\
    forall h,
      In h logs ->
      dict_get (log_contributions h) process_upset = 0%Q /\
      column (log_row h) process_upset = 0%Q.
Proof.
  assert (Hy : valid_year 2024) by (unfold valid_year, MINYEAR, MAXYEAR; lia).
  assert (Hin : In process_upset PROBABILISTIC) by (simpl; tauto).
  assert (Hp : (probability (cfg_process_upset muted_config) <= 0)%Q)
    by (simpl; lra).
  repeat (split; [first [exact Hy | exact muted_stds_nonneg
                        | exact steady_random_in_unit | exact Hin
                        | reflexivity | exact Hp]|]).
  exact (muted_cause_never_fires ExactRounding Steady muted_config process_upset
           (cfg_process_upset muted_config) 2024 steady_world
           Hy muted_stds_nonneg steady_random_in_unit Hin eq_refl Hp).
Defined.
